(** * microTVM OVPsim template project: transport and process lifecycle

    A shallow embedding of [template_project/microtvm_api_server.py]
    (class [Handler]): [open_transport], [_fvp_check_stdout],
    [_wait_for_fvp], [close_transport], [_await_ready], [read_transport]
    and [write_transport].

    The Python methods act on the handler object and on the operating
    system.  Both are explicit here: a method is a function from a pair
    (handler, world) to an outcome and a new pair.  The world holds what
    the methods can observe of the machine: the monotonic clock, the
    paths that exist, the open descriptors, the terminal input, the
    launched engine and its diagnostic output, and the trace of the
    calls made. *)

From Stdlib Require Import ZArith QArith Lqa List String Ascii Lia.
From Stdlib.Strings Require Import Byte.
From stdpp Require Import base gmap strings list.

Open Scope string_scope.

(** ** Python values *)

(** [bytes] and [bytearray] objects. *)
Definition bytes := list byte.

(** The values an option or a queue item takes in this program: the
    four kinds that its tests tell apart.  A value of another type (a
    float, a list or a dict, which the options can hold as well) is not
    among them; the statements below speak of these four. *)
Inductive pyval : Type :=
| PNone
| PBool (b : bool)
| PInt (z : Z)
| PStr (s : string).

(** Python [==] on these values; [bool] is a subtype of [int]. *)
Definition py_eq (a b : pyval) : bool :=
  match a, b with
  | PNone, PNone => true
  | PStr s, PStr t => if decide (s = t) then true else false
  | PBool x, PBool y => Bool.eqb x y
  | PInt x, PInt y => Z.eqb x y
  | PBool x, PInt y | PInt y, PBool x => Z.eqb (if x then 1 else 0) y
  | _, _ => false
  end.

(** [x in l] for a list of values. *)
Definition py_in (x : pyval) (l : list pyval) : bool :=
  existsb (py_eq x) l.

(** [max(0, x)]: the first maximal argument is returned, so [x] is
    chosen only when [x > 0].  Monotonic time is a float in Python and a
    rational here. *)
Definition py_max0 (x : Q) : Q :=
  if Qlt_le_dec 0 x then x else 0%Q.

(** [max(a, b)] on times, same convention. *)
Definition py_max (a b : Q) : Q :=
  if Qlt_le_dec a b then b else a.

(** [l[n:]] with Python's treatment of a negative start. *)
Definition py_slice_from {A : Type} (n : Z) (l : list A) : list A :=
  if (0 <=? n)%Z then skipn (Z.to_nat n) l
  else skipn (Z.to_nat (Z.of_nat (length l) + n)) l.

(** ** Strings decoded from UTF-8 *)

(** A decoded [str] is its sequence of code points. *)
Definition ustr := list Z.

Definition byte_val (b : byte) : Z := Z.of_N (Byte.to_N b).

Definition is_cont (z : Z) : bool := (128 <=? z)%Z && (z <=? 191)%Z.

Definition in_range (lo hi z : Z) : bool := (lo <=? z)%Z && (z <=? hi)%Z.

(** [str(raw, "utf-8")] on the byte values: strict decoding, [None]
    where Python raises [UnicodeDecodeError] (stray continuation bytes,
    overlong forms, surrogates, code points above U+10FFFF, truncated
    sequences). *)
Fixpoint utf8_decode (l : list Z) : option ustr :=
  match l with
  | [] => Some []
  | b0 :: r0 =>
      if (b0 <? 128)%Z then option_map (cons b0) (utf8_decode r0)
      else if in_range 194 223 b0 then
        match r0 with
        | b1 :: r1 =>
            if is_cont b1
            then option_map (cons ((b0 - 192) * 64 + (b1 - 128))%Z) (utf8_decode r1)
            else None
        | _ => None
        end
      else if in_range 224 239 b0 then
        match r0 with
        | b1 :: b2 :: r2 =>
            if is_cont b1 && is_cont b2
               && (if (b0 =? 224)%Z then (160 <=? b1)%Z else true)
               && (if (b0 =? 237)%Z then (b1 <=? 159)%Z else true)
            then option_map
                   (cons ((b0 - 224) * 4096 + (b1 - 128) * 64 + (b2 - 128))%Z)
                   (utf8_decode r2)
            else None
        | _ => None
        end
      else if in_range 240 244 b0 then
        match r0 with
        | b1 :: b2 :: b3 :: r3 =>
            if is_cont b1 && is_cont b2 && is_cont b3
               && (if (b0 =? 240)%Z then (144 <=? b1)%Z else true)
               && (if (b0 =? 244)%Z then (b1 <=? 143)%Z else true)
            then option_map
                   (cons ((b0 - 240) * 262144 + (b1 - 128) * 4096
                          + (b2 - 128) * 64 + (b3 - 128))%Z)
                   (utf8_decode r3)
            else None
        | _ => None
        end
      else None
  end.

Definition py_str_utf8 (raw : bytes) : option ustr :=
  utf8_decode (map byte_val raw).

(** The code points of an ASCII literal. *)
Definition lit (s : string) : ustr :=
  map (fun a => Z.of_nat (nat_of_ascii a)) (list_ascii_of_string s).

Fixpoint starts_with (p l : ustr) : bool :=
  match p, l with
  | [], _ => true
  | _ :: _, [] => false
  | x :: p', y :: l' => (x =? y)%Z && starts_with p' l'
  end.

(** [p in l] for two strings: [p] occurs as a contiguous substring. *)
Fixpoint py_contains (p l : ustr) : bool :=
  match l with
  | [] => starts_with p []
  | _ :: l' => starts_with p l || py_contains p l'
  end.

(** ** Exceptions and outcomes *)

Inductive exn : Type :=
| FileExistsError (path : string)
| PermissionError (path : string)
| FileNotFoundError (path : string)
| EOFError
| TypeError
| AttributeError
| UnicodeDecodeError
| QueueEmpty
| ValueError
| IndexError
| SelectOSError
| TimeoutError (msg : string)
| IoTimeoutError
| TransportClosedError.

(** How a call ends: it returns, it raises, or it never returns (only
    the [while] loop of [write_transport] and a reader blocked on an
    open but silent stream can do that). *)
Inductive result (A : Type) : Type :=
| Ret (a : A)
| Raise (e : exn)
| Diverge.

Arguments Ret {A} a.
Arguments Raise {A} e.
Arguments Diverge {A}.

(** ** The world *)

Inductive printable : Type :=
| PrStr (s : string)
| PrVal (v : pyval)
| PrList (l : list pyval)
| PrUstr (u : ustr).

Inductive event : Type :=
| EvPrint (args : list printable)
| EvLog (line : ustr)
| EvSleep (secs : Q)
| EvMkfifo (path : string)
| EvOpen (path : string) (fd : Z)
| EvInput (prompt : string)
| EvPopen (argv : list pyval) (pid : Z)
| EvThreadStart
| EvTerminate (pid : Z)
| EvWait (pid : Z)
| EvSelect (rlist wlist xlist : list Z) (timeout : option Q)
| EvReadWithTimeout (fd : option Z) (n : Z) (timeout : option Q)
| EvWriteWithTimeout (fd : option Z) (data : bytes) (timeout : option Q)
                     (r : result Z).

Inductive proc_status : Type := Running | Exited.

(** A launched child: its status, the lines still unread on its
    standard output, each with the time it becomes available, and
    whether the stream reaches end-of-file after them. *)
Record process : Type := {
  status : proc_status;
  stdout : list (Q * bytes);
  stdout_closes : bool
}.

Record World : Type := {
  clock : Q;                         (* time.monotonic() *)
  fs : gset string;                  (* paths that exist *)
  dir_writable : bool;               (* may entries be created in /tmp *)
  fds : gmap Z string;               (* open descriptors and their paths *)
  next_fd : Z;
  terminal : list string;            (* lines the terminal will supply *)
  installed : gset string;           (* programs that can be launched *)
  engine_output : list (Q * bytes);  (* what the engine prints, delay after launch *)
  engine_closes : bool;              (* does its output end after that *)
  procs : gmap Z process;
  next_pid : Z;
  trace : list event;                (* calls made by the caller, oldest first *)
  thread_trace : list event          (* calls made by the background thread *)
}.

(** ** The handler object *)

(** [queue.Queue]: the items in order, each with the time of its
    [put]. *)
Definition Queue := list (Q * pyval).

Record Handler : Type := {
  _proc : option Z;
  _queue : Queue;
  pipe_dir : option string;
  read_fd : option Z;
  write_fd : option Z;
  write_pipe : option string;
  read_pipe : option string
}.

(** [Handler.__init__]. *)
Definition init : Handler :=
  {| _proc := None; _queue := []; pipe_dir := None;
     read_fd := None; write_fd := None;
     write_pipe := None; read_pipe := None |}.

Definition set_proc (p : option Z) (h : Handler) : Handler :=
  {| _proc := p; _queue := _queue h; pipe_dir := pipe_dir h;
     read_fd := read_fd h; write_fd := write_fd h;
     write_pipe := write_pipe h; read_pipe := read_pipe h |}.

Definition set_queue (q : Queue) (h : Handler) : Handler :=
  {| _proc := _proc h; _queue := q; pipe_dir := pipe_dir h;
     read_fd := read_fd h; write_fd := write_fd h;
     write_pipe := write_pipe h; read_pipe := read_pipe h |}.

Definition set_pipe_dir (d : string) (h : Handler) : Handler :=
  {| _proc := _proc h; _queue := _queue h; pipe_dir := Some d;
     read_fd := read_fd h; write_fd := write_fd h;
     write_pipe := write_pipe h; read_pipe := read_pipe h |}.

Definition set_read_fd (fd : Z) (h : Handler) : Handler :=
  {| _proc := _proc h; _queue := _queue h; pipe_dir := pipe_dir h;
     read_fd := Some fd; write_fd := write_fd h;
     write_pipe := write_pipe h; read_pipe := read_pipe h |}.

Definition set_write_fd (fd : Z) (h : Handler) : Handler :=
  {| _proc := _proc h; _queue := _queue h; pipe_dir := pipe_dir h;
     read_fd := read_fd h; write_fd := Some fd;
     write_pipe := write_pipe h; read_pipe := read_pipe h |}.

Definition set_write_pipe (p : string) (h : Handler) : Handler :=
  {| _proc := _proc h; _queue := _queue h; pipe_dir := pipe_dir h;
     read_fd := read_fd h; write_fd := write_fd h;
     write_pipe := Some p; read_pipe := read_pipe h |}.

Definition set_read_pipe (p : string) (h : Handler) : Handler :=
  {| _proc := _proc h; _queue := _queue h; pipe_dir := pipe_dir h;
     read_fd := read_fd h; write_fd := write_fd h;
     write_pipe := write_pipe h; read_pipe := Some p |}.

Definition with_clock (t : Q) (w : World) : World :=
  {| clock := t; fs := fs w; dir_writable := dir_writable w; fds := fds w;
     next_fd := next_fd w; terminal := terminal w; installed := installed w;
     engine_output := engine_output w; engine_closes := engine_closes w;
     procs := procs w; next_pid := next_pid w; trace := trace w;
     thread_trace := thread_trace w |}.

Definition with_fs (s : gset string) (w : World) : World :=
  {| clock := clock w; fs := s; dir_writable := dir_writable w; fds := fds w;
     next_fd := next_fd w; terminal := terminal w; installed := installed w;
     engine_output := engine_output w; engine_closes := engine_closes w;
     procs := procs w; next_pid := next_pid w; trace := trace w;
     thread_trace := thread_trace w |}.

Definition with_fds (m : gmap Z string) (n : Z) (w : World) : World :=
  {| clock := clock w; fs := fs w; dir_writable := dir_writable w; fds := m;
     next_fd := n; terminal := terminal w; installed := installed w;
     engine_output := engine_output w; engine_closes := engine_closes w;
     procs := procs w; next_pid := next_pid w; trace := trace w;
     thread_trace := thread_trace w |}.

Definition with_terminal (l : list string) (w : World) : World :=
  {| clock := clock w; fs := fs w; dir_writable := dir_writable w; fds := fds w;
     next_fd := next_fd w; terminal := l; installed := installed w;
     engine_output := engine_output w; engine_closes := engine_closes w;
     procs := procs w; next_pid := next_pid w; trace := trace w;
     thread_trace := thread_trace w |}.

Definition with_procs (m : gmap Z process) (n : Z) (w : World) : World :=
  {| clock := clock w; fs := fs w; dir_writable := dir_writable w; fds := fds w;
     next_fd := next_fd w; terminal := terminal w; installed := installed w;
     engine_output := engine_output w; engine_closes := engine_closes w;
     procs := m; next_pid := n; trace := trace w;
     thread_trace := thread_trace w |}.

Definition with_trace (l : list event) (w : World) : World :=
  {| clock := clock w; fs := fs w; dir_writable := dir_writable w; fds := fds w;
     next_fd := next_fd w; terminal := terminal w; installed := installed w;
     engine_output := engine_output w; engine_closes := engine_closes w;
     procs := procs w; next_pid := next_pid w; trace := l;
     thread_trace := thread_trace w |}.

Definition with_thread_trace (l : list event) (w : World) : World :=
  {| clock := clock w; fs := fs w; dir_writable := dir_writable w; fds := fds w;
     next_fd := next_fd w; terminal := terminal w; installed := installed w;
     engine_output := engine_output w; engine_closes := engine_closes w;
     procs := procs w; next_pid := next_pid w; trace := trace w;
     thread_trace := l |}.

Definition emit (e : event) (w : World) : World :=
  with_trace (trace w ++ [e])%list w.

(** ** Methods as state transformers *)

Definition State : Type := Handler * World.

Definition M (A : Type) : Type := State -> result A * State.

Definition ret {A : Type} (a : A) : M A := fun s => (Ret a, s).

Definition raise {A : Type} (e : exn) : M A := fun s => (Raise e, s).

Definition diverge {A : Type} : M A := fun s => (Diverge, s).

Definition bind {A B : Type} (c : M A) (k : A -> M B) : M B :=
  fun s =>
    match c s with
    | (Ret a, s') => k a s'
    | (Raise e, s') => (Raise e, s')
    | (Diverge, s') => (Diverge, s')
    end.

(** [try: c  except: handler]; what [c] changed before raising stays
    changed. *)
Definition try_except {A : Type} (c : M A) (handler : exn -> M A) : M A :=
  fun s =>
    match c s with
    | (Raise e, s') => handler e s'
    | r => r
    end.

Declare Scope py_scope.
Delimit Scope py_scope with py.
Notation "x <- c ;; k" := (bind c (fun x => k))
  (at level 100, c at next level, right associativity) : py_scope.
Notation "c ;; k" := (bind c (fun _ => k))
  (at level 100, right associativity) : py_scope.
Open Scope py_scope.

(** Attribute reads and writes on [self], and pure reads of the world. *)
Definition get_self {A : Type} (f : Handler -> A) : M A :=
  fun s => (Ret (f (fst s)), s).

Definition set_self (f : Handler -> Handler) : M unit :=
  fun s => (Ret tt, (f (fst s), snd s)).

Definition on_world (f : World -> World) : M unit :=
  fun s => (Ret tt, (fst s, f (snd s))).

(** ** Operating-system and library calls *)

Definition print (args : list printable) : M unit :=
  on_world (emit (EvPrint args)).

(** [_LOG.info("%s", line)]. *)
Definition _LOG_info (line : ustr) : M unit :=
  on_world (emit (EvLog line)).

Definition time_monotonic : M Q :=
  fun s => (Ret (clock (snd s)), s).

Definition time_sleep (secs : Q) : M unit :=
  on_world (fun w => emit (EvSleep secs) (with_clock (clock w + secs)%Q w)).

(** [pathlib.Path(d) / name]. *)
Definition path_join (d name : string) : string := d ++ "/" ++ name.

(** [os.mkfifo(path)]: refused when the path exists already, or when
    the directory does not admit new entries. *)
Definition os_mkfifo (path : string) : M unit :=
  fun s =>
    let w := emit (EvMkfifo path) (snd s) in
    if decide (path ∈ fs w) then (Raise (FileExistsError path), (fst s, w))
    else if dir_writable w then (Ret tt, (fst s, with_fs ({[ path ]} ∪ fs w) w))
    else (Raise (PermissionError path), (fst s, w)).

(** [os.open(path, os.O_RDWR | os.O_NONBLOCK)]: without [O_CREAT] the
    path has to exist; with [O_RDWR] a FIFO opens without a peer.  A
    path that exists is taken to be one that this process may open: an
    entry left in the way that is a directory, or that is not
    accessible, is outside this model. *)
Definition os_open (path : string) : M Z :=
  fun s =>
    let w := snd s in
    if decide (path ∈ fs w) then
      let fd := next_fd w in
      (Ret fd, (fst s, emit (EvOpen path fd)
                         (with_fds (<[ fd := path ]> (fds w)) (fd + 1)%Z w)))
    else (Raise (FileNotFoundError path), (fst s, w)).

(** [input(prompt)]: reads one line from the terminal, [EOFError] when
    there is none. *)
Definition input (prompt : string) : M string :=
  fun s =>
    let w := emit (EvInput prompt) (snd s) in
    match terminal w with
    | line :: rest => (Ret line, (fst s, with_terminal rest w))
    | [] => (Raise EOFError, (fst s, w))
    end.

Definition is_str (v : pyval) : bool :=
  match v with PStr _ => true | _ => false end.

(** [subprocess.Popen(argv, stdin=PIPE, stdout=PIPE, bufsize=0)]: every
    argument has to be a string, there has to be a first one, and the
    program it names has to be found.  The new process starts printing
    the engine's output, each line delayed from the launch as the world
    says.  Its [status] records what the handler has done to it
    ([Running] until it is waited for); whether the engine is alive at
    a given time is not modelled. *)
Definition Popen (argv : list pyval) : M Z :=
  fun s =>
    let w := snd s in
    if negb (forallb is_str argv) then (Raise TypeError, s)
    else
      match argv with
      | PStr exe :: _ =>
          if decide (exe ∈ installed w) then
            let pid := next_pid w in
            let p := {| status := Running;
                        stdout := map (fun dl => ((clock w + fst dl)%Q, snd dl))
                                      (engine_output w);
                        stdout_closes := engine_closes w |} in
            (Ret pid, (fst s, emit (EvPopen argv pid)
                                (with_procs (<[ pid := p ]> (procs w)) (pid + 1)%Z w)))
          else (Raise (FileNotFoundError exe), s)
      | _ => (Raise IndexError, s)
      end.

Definition set_status (st : proc_status) (p : process) : process :=
  {| status := st; stdout := stdout p; stdout_closes := stdout_closes p |}.

Definition set_stdout (l : list (Q * bytes)) (p : process) : process :=
  {| status := status p; stdout := l; stdout_closes := stdout_closes p |}.

(** [proc.terminate()]. *)
Definition proc_terminate (pid : Z) : M unit :=
  on_world (emit (EvTerminate pid)).

(** [proc.wait()], after [terminate]: the engine is taken to exit on
    the signal.  For an engine that ignores it the call would not
    return; that case is outside this model. *)
Definition proc_wait (pid : Z) : M unit :=
  on_world (fun w => emit (EvWait pid)
                       (with_procs (alter (set_status Exited) pid (procs w))
                                   (next_pid w) w)).

(** [self._queue.put(item)]: stamped with the time of the call. *)
Definition queue_put (item : pyval) : M unit :=
  fun s =>
    (Ret tt, (set_queue (_queue (fst s) ++ [(clock (snd s), item)])%list (fst s), snd s)).

(** [self._queue.get(timeout=t)]: the oldest item, if it is there by the
    deadline; otherwise [queue.Empty] once the deadline has passed. *)
Definition queue_get (timeout : Q) : M pyval :=
  fun s =>
    let w := snd s in
    let deadline := (clock w + timeout)%Q in
    match _queue (fst s) with
    | (t, item) :: q =>
        if Qle_bool t deadline
        then (Ret item, (set_queue q (fst s), with_clock (py_max (clock w) t) w))
        else (Raise QueueEmpty, (fst s, with_clock deadline w))
    | [] => (Raise QueueEmpty, (fst s, with_clock deadline w))
    end.

(** [threading.Thread(target=body, daemon=True).start()].  The thread
    runs beside the caller: it has its own view of time and its output
    is not ordered with the caller's, so its events go to
    [thread_trace]; what it raises ends the thread only.  The caller
    continues at the time of the call. *)
Definition thread_start (body : M unit) : M unit :=
  fun s =>
    let w := emit EvThreadStart (snd s) in
    let r := body (fst s, with_trace (thread_trace w) w) in
    let w' := snd (snd r) in
    (Ret tt, (fst (snd r),
              with_thread_trace (trace w') (with_trace (trace w) (with_clock (clock w) w')))).

(** ** Module constants and [server.TransportTimeouts] *)

Definition OVPSIM_EXE : string := "riscvOVPsimCOREV.exe".
Definition ARCH : string := "rv32gc".
Definition BUILD_TARGET : string := "build/main".

Record TransportTimeouts : Type := {
  session_start_retry_timeout_sec : Z;
  session_start_timeout_sec : Z;
  session_established_timeout_sec : Z
}.

(** [options.get(key, dflt)] on the options dictionary. *)
Definition options_get (options : gmap string pyval) (key : string) (dflt : pyval)
  : pyval :=
  default dflt (options !! key).

Definition is_none (v : pyval) : bool :=
  match v with PNone => true | _ => false end.

(** The statements of [open_transport] that build [ovpsim_args], in
    their order; [l.extend(e)] is [l ++ e]. *)
Definition ovpsim_command (options : gmap string pyval) : list pyval :=
  let isa := options_get options "arch" (PStr ARCH) in
  let isa := if is_none isa then PStr ARCH else isa in
  let ovpsim_extra := options_get options "ovpsim_extra_args" PNone in
  let ovpsim_extra :=
    if py_in ovpsim_extra [PNone; PStr EmptyString] then [] else [ovpsim_extra] in
  let ovpsim_args := [options_get options "ovpsim_exe" PNone] in
  let ovpsim_args :=
    if true then (ovpsim_args ++ [PStr "--variant"; PStr "CV32E40P"])%list
    else (ovpsim_args ++ [PStr "--variant"; PStr "RV32I"])%list in
  let ovpsim_args :=
    if true then (ovpsim_args ++ [PStr "--processorname"; PStr "CVE4P"])%list
    else ovpsim_args in
  let ovpsim_args :=
    if true
    then (ovpsim_args
          ++ [PStr "--override";
              PStr "riscvOVPsim/cpu/extension_CVE4P/mcountinhibit_reset=0"])%list
    else ovpsim_args in
  let ovpsim_args :=
    (ovpsim_args ++ [PStr "--override"; PStr "riscvOVPsim/cpu/add_Extensions=MC"])%list in
  let ovpsim_args :=
    (ovpsim_args ++ [PStr "--override"; PStr "riscvOVPsim/cpu/unaligned=T"])%list in
  let ovpsim_args :=
    (ovpsim_args
     ++ [PStr "--override"; PStr "riscvOVPsim/cpu/pk/reportExitErrors=T"])%list in
  let ovpsim_args := (ovpsim_args ++ [PStr "--finishonopcode"; PStr "0"])%list in
  let ovpsim_args := (ovpsim_args ++ [PStr "--program"; PStr BUILD_TARGET])%list in
  let ovpsim_args := (ovpsim_args ++ ovpsim_extra)%list in
  ovpsim_args.

(** ** The readiness watcher and the wait for it *)

(** [self._proc.stdout]: the stream of the launched process. *)
Definition proc_stdout : M (Z * process) :=
  fun s =>
    match _proc (fst s) with
    | None => (Raise AttributeError, s)
    | Some pid =>
        match procs (snd s) !! pid with
        | Some p => (Ret (pid, p), s)
        | None => (Raise ValueError, s)
        end
    end.

(** The iterator hands over the next line: the reader has waited until
    the line was there, and the line is gone from the stream. *)
Definition next_line (pid : Z) (t : Q) (rest : list (Q * bytes)) : M unit :=
  on_world (fun w =>
    with_procs (alter (set_stdout rest) pid (procs w)) (next_pid w)
               (with_clock (py_max (clock w) t) w)).

(** [str(line, "utf-8")]. *)
Definition str_utf8 (raw : bytes) : M ustr :=
  match py_str_utf8 raw with
  | Some u => ret u
  | None => raise UnicodeDecodeError
  end.

(** The [for line in self._proc.stdout] loop of [_fvp_check_stdout];
    [break] is the branch without a recursive call.  When the lines are
    used up the loop ends if the stream is at end-of-file and blocks
    otherwise. *)
Fixpoint check_lines (pid : Z) (closes : bool) (lines : list (Q * bytes)) : M unit :=
  match lines with
  | [] => if closes then ret tt else diverge
  | (t, raw) :: rest =>
      next_line pid t rest ;;
      line <- str_utf8 raw ;;
      _LOG_info line ;;
      if py_contains (lit "RW-") line
      then (print [PrStr "!!!"] ;;
            queue_put (PBool true))
      else (print [PrStr "???"] ;;
            check_lines pid closes rest)
  end.

Definition _fvp_check_stdout : M unit :=
  pp <- proc_stdout ;;
  check_lines (fst pp) (stdout_closes (snd pp)) (stdout (snd pp)) ;;
  print [PrStr "end loop"].

(** The [while True] loop of [_wait_for_fvp].  Every turn takes one
    item off the queue and an empty queue ends the loop with an
    exception, so one turn more than the queue is long is enough. *)
Fixpoint wait_loop (turns : nat) : M unit :=
  match turns with
  | O => diverge
  | S n =>
      item <- try_except
                (item <- queue_get 120 ;;
                 print [PrStr "item"; PrVal item] ;;
                 ret item)
                (fun _ => raise (TimeoutError "FVP setup timeout.")) ;;
      if py_eq item (PBool true) then ret tt else wait_loop n
  end.

Definition _wait_for_fvp : M unit :=
  fun s => wait_loop (S (length (_queue (fst s)))) s.

(** ** [open_transport] and [close_transport] *)

(** An attribute that may not have been assigned yet. *)
Definition self_attr {A : Type} (f : Handler -> option A) : M A :=
  fun s =>
    match f (fst s) with
    | Some a => (Ret a, s)
    | None => (Raise AttributeError, s)
    end.

Section Open.

(** The directory of the server script. *)
Variable PROJECT_DIR : string.

Definition open_transport (options : gmap string pyval) : M TransportTimeouts :=
  print [PrStr "open_transport"] ;;
  let ovpsim_args := ovpsim_command options in
  print [PrStr "PROJECT_DIR"; PrStr PROJECT_DIR] ;;
  print [PrStr "args"; PrList ovpsim_args] ;;
  print [PrStr "00"] ;;
  set_self (set_pipe_dir "/tmp") ;;
  print [PrStr "11"] ;;
  d <- self_attr pipe_dir ;;
  set_self (set_write_pipe (path_join d "fifo.in")) ;;
  print [PrStr "22"] ;;
  d <- self_attr pipe_dir ;;
  set_self (set_read_pipe (path_join d "fifo.out")) ;;
  print [PrStr "33"] ;;
  try_except
    (p <- self_attr write_pipe ;; os_mkfifo p)
    (fun _ => print [PrStr "eee"] ;; time_sleep 60) ;;
  print [PrStr "44"] ;;
  p <- self_attr read_pipe ;;
  os_mkfifo p ;;
  print [PrStr "55"] ;;
  p <- self_attr read_pipe ;;
  fd <- os_open p ;;
  set_self (set_read_fd fd) ;;
  print [PrStr "66"] ;;
  p <- self_attr write_pipe ;;
  fd <- os_open p ;;
  set_self (set_write_fd fd) ;;
  print [PrStr "77"] ;;
  input ">>" ;;
  print [PrStr "A"] ;;
  pid <- Popen ovpsim_args ;;
  set_self (set_proc (Some pid)) ;;
  print [PrStr "B"] ;;
  print [PrStr "C"] ;;
  print [PrStr "X"] ;;
  print [PrStr "Y"] ;;
  thread_start _fvp_check_stdout ;;
  print [PrStr "Z"] ;;
  _wait_for_fvp ;;
  ret {| session_start_retry_timeout_sec := 0;
         session_start_timeout_sec := 0;
         session_established_timeout_sec := 0 |}.

End Open.

Definition close_transport : M unit :=
  print [PrStr "close_transport"] ;;
  p <- get_self _proc ;;
  match p with
  | Some proc =>
      set_self (set_proc None) ;;
      proc_terminate proc ;;
      proc_wait proc
  | None => ret tt
  end.

(** ** Readiness polling and the byte channel *)

(** What [select.select] can do: report the ready descriptors (all
    three lists empty when the timeout ran out), fail on its arguments
    or in the operating system, or never return. *)
Inductive select_error : Type := SelValueError | SelTypeError | SelOSError.

Inductive select_outcome : Type :=
| Ready (rlist wlist xlist : list Z)
| Failed (e : select_error)
| Blocked.

Definition select_exn (e : select_error) : exn :=
  match e with
  | SelValueError => ValueError
  | SelTypeError => TypeError
  | SelOSError => SelectOSError
  end.

(** [not l] for a list. *)
Definition py_not {A : Type} (l : list A) : bool :=
  match l with [] => true | _ => false end.

Section Channel.

(** [select.select], [server.read_with_timeout] and
    [server.write_with_timeout] are not part of this program: the
    first is the operating system's, the other two come with the
    project API library.  Each is an arbitrary function of the world
    it is called in and of its arguments, giving its outcome and the
    time the call took. *)
Variable select_select :
  World -> list Z -> list Z -> list Z -> option Q -> select_outcome * Q.
Variable read_with_timeout :
  World -> option Z -> Z -> option Q -> result bytes * Q.
Variable write_with_timeout :
  World -> option Z -> bytes -> option Q -> result Z * Q.

Definition select_call (rlist wlist xlist : list Z) (timeout : option Q)
  : M (list Z * list Z * list Z) :=
  fun s =>
    let w := snd s in
    let r := select_select w rlist wlist xlist timeout in
    let w' := emit (EvSelect rlist wlist xlist timeout)
                   (with_clock (clock w + snd r)%Q w) in
    match fst r with
    | Ready a b c => (Ret (a, b, c), (fst s, w'))
    | Failed e => (Raise (select_exn e), (fst s, w'))
    | Blocked => (Diverge, (fst s, w'))
    end.

Definition server_read_with_timeout (fd : option Z) (n : Z) (timeout : option Q)
  : M bytes :=
  fun s =>
    let w := snd s in
    let r := read_with_timeout w fd n timeout in
    (fst r, (fst s, emit (EvReadWithTimeout fd n timeout)
                         (with_clock (clock w + snd r)%Q w))).

Definition server_write_with_timeout (fd : option Z) (data : bytes)
           (timeout : option Q) : M Z :=
  fun s =>
    let w := snd s in
    let r := write_with_timeout w fd data timeout in
    (fst r, (fst s, emit (EvWriteWithTimeout fd data timeout (fst r))
                         (with_clock (clock w + snd r)%Q w))).

Definition _await_ready (rlist wlist : list Z) (timeout_sec end_time : option Q)
  : M bool :=
  timeout_sec <-
    match timeout_sec, end_time with
    | None, Some e =>
        now <- time_monotonic ;;
        ret (Some (py_max0 (e - now)))
    | _, _ => ret timeout_sec
    end ;;
  ready <- select_call rlist wlist (rlist ++ wlist)%list timeout_sec ;;
  let '(rlist, wlist, xlist) := ready in
  if py_not rlist && py_not wlist && py_not xlist
  then raise IoTimeoutError
  else ret true.

Definition read_transport (n : Z) (timeout_sec : option Q) : M bytes :=
  fd <- get_self read_fd ;;
  server_read_with_timeout fd n timeout_sec.

(** The [while to_write] loop of [write_transport].  Nothing in the
    loop bounds the number of turns (a write that reports zero bytes
    leaves [to_write] as it was), so the turns are counted: the loop
    that has not finished after [turns] turns is reported as not
    returning. *)
Fixpoint write_loop (turns : nat) (to_write : bytes) (timeout_sec : option Q)
  : M unit :=
  match to_write with
  | [] => ret tt
  | _ :: _ =>
      match turns with
      | O => diverge
      | S n =>
          fd <- get_self write_fd ;;
          num_written <- server_write_with_timeout fd to_write timeout_sec ;;
          write_loop n (py_slice_from num_written to_write) timeout_sec
      end
  end.

Definition write_transport (turns : nat) (data : bytes) (timeout_sec : option Q)
  : M unit :=
  let to_write : bytes := [] in
  let escape_pos : list nat := [] in
  let to_write := fold_left (fun acc b => (acc ++ [b])%list) data to_write in
  write_loop turns to_write timeout_sec.

End Channel.

(** ** Observations on a trace *)

(** What one [server.write_with_timeout] call handed to the channel: a
    call that reports [n] bytes written has taken the first [n] bytes
    of its buffer. *)
Definition accepted (e : event) : bytes :=
  match e with
  | EvWriteWithTimeout _ data _ (Ret n) => firstn (Z.to_nat n) data
  | _ => []
  end.

Definition delivered (evs : list event) : bytes :=
  concat (map accepted evs).

Definition written (e : event) : Z :=
  match e with
  | EvWriteWithTimeout _ _ _ (Ret n) => n
  | _ => 0%Z
  end.

Definition total_written (evs : list event) : Z :=
  fold_right Z.add 0%Z (map written evs).

(** A write call that succeeds: it reports at least one byte and no
    more than it was given. *)
Definition write_succeeds (e : event) : bool :=
  match e with
  | EvWriteWithTimeout _ data _ (Ret n) =>
      (1 <=? n)%Z && (n <=? Z.of_nat (length data))%Z
  | _ => false
  end.

(** A write call that raised [e]. *)
Definition write_raised (e : exn) (ev : event) : Prop :=
  match ev with
  | EvWriteWithTimeout _ _ _ (Raise e') => e' = e
  | _ => False
  end.

Definition is_input (e : event) : bool :=
  match e with EvInput _ => true | _ => false end.

Definition is_popen (e : event) : bool :=
  match e with EvPopen _ _ => true | _ => false end.

(** The user's extra argument as the options give it: absent, [None]
    and the empty string stand for no extra argument. *)
Definition user_extra (options : gmap string pyval) : list pyval :=
  match options !! "ovpsim_extra_args" with
  | None => []
  | Some PNone => []
  | Some (PStr EmptyString) => []
  | Some v => [v]
  end.

(** What [open_transport] prints before it creates the pipes. *)
Definition open_preamble (PROJECT_DIR : string) (options : gmap string pyval)
  : list event :=
  [EvPrint [PrStr "open_transport"];
   EvPrint [PrStr "PROJECT_DIR"; PrStr PROJECT_DIR];
   EvPrint [PrStr "args"; PrList (ovpsim_command options)];
   EvPrint [PrStr "00"]; EvPrint [PrStr "11"]; EvPrint [PrStr "22"];
   EvPrint [PrStr "33"]].

(** What [open_transport] does, in a writable directory, from its
    first statement up to the prompt: the 60 seconds of sleep are there
    exactly when [/tmp/fifo.in] is in the way. *)
Definition events_before_prompt (PROJECT_DIR : string) (options : gmap string pyval)
           (w : World) : list event :=
  (open_preamble PROJECT_DIR options
   ++ [EvMkfifo "/tmp/fifo.in"]
   ++ (if decide ("/tmp/fifo.in" ∈ fs w)
       then [EvPrint [PrStr "eee"]; EvSleep 60]
       else [])
   ++ [EvPrint [PrStr "44"]; EvMkfifo "/tmp/fifo.out"; EvPrint [PrStr "55"];
       EvOpen "/tmp/fifo.out" (next_fd w); EvPrint [PrStr "66"];
       EvOpen "/tmp/fifo.in" (next_fd w + 1); EvPrint [PrStr "77"]])%list.

(** ** Worlds and channels to run the methods in *)

Definition ascii_bytes (s : string) : bytes :=
  map byte_of_ascii (list_ascii_of_string s).

(** A clean machine: no pipe file is left over, the terminal has a
    line for the prompt, and the engine prints its memory map (which
    has the marker) two seconds after its launch. *)
Definition w_fresh : World :=
  {| clock := 0; fs := ∅; dir_writable := true; fds := ∅; next_fd := 3;
     terminal := [EmptyString]; installed := {[ OVPSIM_EXE ]};
     engine_output := [(1%Q, ascii_bytes "OVPsim started");
                       (2%Q, ascii_bytes "0x00000000 0x0001ffff RW- 1")];
     engine_closes := false; procs := ∅; next_pid := 100;
     trace := []; thread_trace := [] |}.

(** The same machine after an aborted session left the host-to-target
    pipe behind. *)
Definition w_stale_in : World :=
  with_fs {[ "/tmp/fifo.in" ]} w_fresh.

(** The target-to-host pipe was left behind. *)
Definition w_stale_out : World :=
  with_fs {[ "/tmp/fifo.out" ]} w_fresh.

(** An engine that starts but never prints the marker. *)
Definition w_silent : World :=
  {| clock := 0; fs := ∅; dir_writable := true; fds := ∅; next_fd := 3;
     terminal := [EmptyString]; installed := {[ OVPSIM_EXE ]};
     engine_output := [(1%Q, ascii_bytes "OVPsim started")];
     engine_closes := false; procs := ∅; next_pid := 100;
     trace := []; thread_trace := [] |}.

(** An engine that prints the marker too late for the wait. *)
Definition w_late : World :=
  {| clock := 0; fs := ∅; dir_writable := true; fds := ∅; next_fd := 3;
     terminal := [EmptyString]; installed := {[ OVPSIM_EXE ]};
     engine_output := [(200%Q, ascii_bytes "0x00000000 0x0001ffff RW- 1")];
     engine_closes := false; procs := ∅; next_pid := 100;
     trace := []; thread_trace := [] |}.

(** An engine that prints the marker twice. *)
Definition w_twice : World :=
  {| clock := 0; fs := ∅; dir_writable := true; fds := ∅; next_fd := 3;
     terminal := [EmptyString]; installed := {[ OVPSIM_EXE ]};
     engine_output := [(1%Q, ascii_bytes "0x00000000 0x0001ffff RW- 1");
                       (2%Q, ascii_bytes "0x00020000 0x0003ffff RW- 2")];
     engine_closes := true; procs := ∅; next_pid := 100;
     trace := []; thread_trace := [] |}.

Definition default_options : gmap string pyval :=
  {[ "ovpsim_exe" := PStr OVPSIM_EXE ]}.

Definition project_dir : string := "/work/project".

(** A channel that takes at most [room] bytes a call. *)
Definition chunked_write (room : nat)
  : World -> option Z -> bytes -> option Q -> result Z * Q :=
  fun _ _ data _ => (Ret (Z.of_nat (Nat.min room (length data))), 0%Q).

(** A channel whose peer is gone. *)
Definition closed_write : World -> option Z -> bytes -> option Q -> result Z * Q :=
  fun _ _ _ _ => (Raise TransportClosedError, 0%Q).

Definition closed_read : World -> option Z -> Z -> option Q -> result bytes * Q :=
  fun _ _ _ _ => (Raise TransportClosedError, 0%Q).

(** A poll in which nothing becomes ready: it returns empty lists when
    the timeout has run out, blocks without one and refuses a negative
    one. *)
Definition idle_select
  : World -> list Z -> list Z -> list Z -> option Q -> select_outcome * Q :=
  fun _ _ _ _ timeout =>
    match timeout with
    | Some t => if Qlt_le_dec t 0 then (Failed SelValueError, 0%Q) else (Ready [] [] [], t)
    | None => (Blocked, 0%Q)
    end.

(** ** Predicates used in the statements *)

(** [Q] holds of the outcome and final state of [c] run from [s]. *)
Definition wp {A : Type} (c : M A) (Q : result A -> State -> Prop) (s : State) : Prop :=
  Q (fst (c s)) (snd (c s)).

(** [c] can return no value but [v]. *)
Definition returns_only {A : Type} (c : M A) (v : A) : Prop :=
  forall s a, fst (c s) = Ret a -> a = v.

Definition is_print (e : event) : bool :=
  match e with EvPrint _ => true | _ => false end.

Definition statuses (w : World) : gmap Z proc_status :=
  status <$> procs w.

(** The parts of a session that the watcher and the wait for it leave
    alone. *)
Definition keeps_session (s s' : State) : Prop :=
  _proc (fst s') = _proc (fst s)
  /\ read_fd (fst s') = read_fd (fst s)
  /\ write_fd (fst s') = write_fd (fst s)
  /\ fds (snd s') = fds (snd s)
  /\ statuses (snd s') = statuses (snd s)
  /\ terminal (snd s') = terminal (snd s).


(** The session is in place as far as the handler goes: it holds a
    process handle and descriptors that are open on the two pipes. *)
Definition session_kept (s : State) : Prop :=
  exists pid rfd wfd : Z,
    _proc (fst s) = Some pid
    /\ read_fd (fst s) = Some rfd
    /\ fds (snd s) !! rfd = Some "/tmp/fifo.out"
    /\ write_fd (fst s) = Some wfd
    /\ fds (snd s) !! wfd = Some "/tmp/fifo.in".


(** When the watcher, started at [now] on the lines [lines], puts its
    signal, if it ever does: at the arrival of the first line with the
    marker, provided every line up to it decodes. *)
Fixpoint signal (now : Q) (lines : list (Q * bytes)) : option Q :=
  match lines with
  | [] => None
  | (t, raw) :: rest =>
      match py_str_utf8 raw with
      | None => None
      | Some u =>
          if py_contains (lit "RW-") u then Some (py_max now t)
          else signal (py_max now t) rest
      end
  end.

(** The time at which [open_transport] launches the engine, when it
    gets that far in a writable directory: the 60 seconds of sleep are
    spent exactly when [/tmp/fifo.in] is in the way. *)
Definition launch_clock (w : World) : Q :=
  if decide ("/tmp/fifo.in" ∈ fs w) then (clock w + 60)%Q else clock w.

(** The engine, launched at [launch], has the marker read within the
    120 seconds of the wait. *)
Definition signal_in_time (launch : Q) (output : list (Q * bytes)) : bool :=
  match signal launch (map (fun dl => ((launch + fst dl)%Q, snd dl)) output) with
  | Some t => Qle_bool t (launch + 120)
  | None => false
  end.

(** [Popen] can start [argv]. *)
Definition launchable (argv : list pyval) (w : World) : bool :=
  forallb is_str argv
  && match argv with
     | PStr exe :: _ => bool_decide (exe ∈ installed w)
     | _ => false
     end.

(** ** Predicates used in the further statements *)

(** What the watcher and the wait for it leave alone, besides the
    session: the files, the descriptor and process counters, what is
    installed and what the engine will print. *)
Definition keeps_machine (s s' : State) : Prop :=
  fs (snd s') = fs (snd s)
  /\ dir_writable (snd s') = dir_writable (snd s)
  /\ next_fd (snd s') = next_fd (snd s)
  /\ installed (snd s') = installed (snd s)
  /\ engine_output (snd s') = engine_output (snd s)
  /\ engine_closes (snd s') = engine_closes (snd s)
  /\ next_pid (snd s') = next_pid (snd s).


(** A channel that reports zero bytes for every call. *)
Definition zero_write : World -> option Z -> bytes -> option Q -> result Z * Q :=
  fun _ _ _ _ => (Ret 0%Z, 0%Q).

Definition is_write (e : event) : bool :=
  match e with EvWriteWithTimeout _ _ _ _ => true | _ => false end.

(** Both pipes are there. *)
Definition pipes_exist (w : World) : Prop :=
  "/tmp/fifo.in" ∈ fs w /\ "/tmp/fifo.out" ∈ fs w.


(** The items the watcher adds to the queue when the engine is launched
    at [launch]: its one signal, if it comes. *)
Definition signal_items (launch : Q) (output : list (Q * bytes)) : list (Q * pyval) :=
  match signal launch (map (fun dl => ((launch + fst dl)%Q, snd dl)) output) with
  | Some t => [(t, PBool true)]
  | None => []
  end.

(** The conditions under which [open_transport] gets as far as
    launching the engine, given that the pipes that exist can be
    opened: the target-to-host pipe can be created, the terminal has a
    line for the prompt, and the command can be started. *)
Definition reaches_launch (options : gmap string pyval) (w : World) : Prop :=
("/tmp/fifo.out" ∉ fs w)
  /\ dir_writable w = true
  /\ terminal w <> []
  /\ launchable (ovpsim_command options) w = true.

(** ** Predicates used in the statements on what is called and kept *)

(** A call of [server.write_with_timeout] on [fd] with the timeout
    [t]. *)
Definition write_call_on (fd : option Z) (t : option Q) (e : event) : Prop :=
  exists data r, e = EvWriteWithTimeout fd data t r.

(** A call that stops the engine: [terminate] or [wait]. *)
Definition is_teardown (e : event) : bool :=
  match e with EvTerminate _ | EvWait _ => true | _ => false end.

(** A successful [os.open] of [path]. *)
Definition is_open_of (path : string) (e : event) : bool :=
  match e with EvOpen p _ => String.eqb p path | _ => false end.

(** * The rest of the server: options, project generation, build *)

From Stdlib Require Import DecimalString DecimalZ.

(** ** Python conversions *)

(** [bool(v)], the truth value of [v]. *)
Definition py_bool (v : pyval) : bool :=
  match v with
  | PNone => false
  | PBool b => b
  | PInt z => negb (z =? 0)%Z
  | PStr s => negb (String.eqb s EmptyString)
  end.

(** [str(v)], which is also what an f-string puts for [{v}]: for an
    integer, its decimal numeral. The limit that some versions of
    CPython put on the number of digits of this conversion is not
    modelled. *)
Definition py_str (v : pyval) : string :=
  match v with
  | PNone => "None"
  | PBool true => "True"
  | PBool false => "False"
  | PInt z => NilZero.string_of_int (Z.to_int z)
  | PStr s => s
  end.

Definition ascii_lower (a : ascii) : ascii :=
  let n := nat_of_ascii a in
  if (65 <=? n)%nat && (n <=? 90)%nat then ascii_of_nat (n + 32) else a.

(** [s.lower()]; the strings here are compared with ASCII words only. *)
Fixpoint py_lower (s : string) : string :=
  match s with
  | EmptyString => EmptyString
  | String a s' => String (ascii_lower a) (py_lower s')
  end.

(** ** Exceptions of these methods *)

Inductive exc : Type :=
| Builtin (e : exn)
| AssertionError (msg : string)
| CalledProcessError (returncode : Z) (cmd : list string)
| OSError (errno : string).

(** [distutils.util.strtobool]. *)
Definition strtobool (val : string) : exc + Z :=
  let val := py_lower val in
  if existsb (String.eqb val) ["y"; "yes"; "t"; "true"; "on"; "1"] then inr 1%Z
  else if existsb (String.eqb val) ["n"; "no"; "f"; "false"; "off"; "0"] then inr 0%Z
  else inl (Builtin ValueError).

Definition str2bool (value : pyval) (allow_none : bool) : exc + pyval :=
  match value with
  | PNone =>
      if allow_none then inr value
      else inl (AssertionError "str2bool received None value while allow_none=False")
  | PBool _ | PInt _ => inr (PBool (py_bool value))
  | PStr s =>
      match strtobool s with
      | inl e => inl e
      | inr n => inr (PBool (py_bool (PInt n)))
      end
  end.

(** [shlex.quote]. *)
Definition shlex_safe (a : ascii) : bool :=
  let n := nat_of_ascii a in
  ((48 <=? n) && (n <=? 57) || (65 <=? n) && (n <=? 90) || (97 <=? n) && (n <=? 122))%nat
  || existsb (Ascii.eqb a) ["_"; "@"; "%"; "+"; "="; ":"; ","; "."; "/"; "-"]%char.

Fixpoint all_safe (s : string) : bool :=
  match s with
  | EmptyString => true
  | String a s' => shlex_safe a && all_safe s'
  end.

(** [s.replace("'", "'\"'\"'")]. *)
Fixpoint escape_quotes (s : string) : string :=
  match s with
  | EmptyString => EmptyString
  | String a s' =>
      if Ascii.eqb a "'"
      then String "'" (String "034" (String "'" (String "034" (String "'" (escape_quotes s')))))
      else String a (escape_quotes s')
  end.

Definition shlex_quote (s : string) : string :=
  match s with
  | EmptyString => "''"
  | _ => if all_safe s then s else "'" ++ escape_quotes s ++ "'"
  end.

(** [pathlib.PurePath.stem] of a file name: the name without its last
    suffix. *)
Fixpoint rfind_dot (l : list ascii) (i : nat) (found : option nat) : option nat :=
  match l with
  | [] => found
  | c :: l' => rfind_dot l' (S i) (if Ascii.eqb c "." then Some i else found)
  end.

Definition stem (name : string) : string :=
  let cs := list_ascii_of_string name in
  match rfind_dot cs 0 None with
  | Some i =>
      if (0 <? i)%nat && (i <? length cs - 1)%nat
      then string_of_list_ascii (firstn i cs)
      else name
  | None => name
  end.

(** ** Calls into the libraries *)

(** The calls these methods make, each with its arguments. *)
Inductive syscall : Type :=
| Mkdir (path : string) (parents : bool)
| Copy2 (src dst : string)
| CopyTree (src dst : string) (dirs_exist_ok : bool)
| IsDir (path : string)
| TarOpen (path : string)
| TarExtractAll (archive dest : string)
| TarClose (path : string)
| OpenWrite (path : string)
| OpenRead (path : string)
| Write (path : string) (text : string)
| Close (path : string)
| LogInfo (fmt : string) (args : list string)
| CheckCall (cmd : list string) (cwd : option string) (devnull : bool)
| FcntlGetfl (fd : Z)
| FcntlSetfl (fd : Z) (flags : Z).

(** What a call comes back with: nothing, whether the path is a
    directory, the lines a file opened for reading will yield (and the
    error that ends the reading, if one does), the exit status of a
    command, the flags of a descriptor, or an exception. *)
Inductive answer : Type :=
| Done
| IsDirAnswer (b : bool)
| Opened (lines : list string) (err : option exc)
| Exit (code : Z)
| Flags (flags : Z)
| Fails (e : exc).

(** The calls made so far, oldest first, with their answers. *)
Definition History : Type := list (syscall * answer).

Definition Sys (A : Type) : Type := History -> (exc + A) * History.

Definition sys_ret {A : Type} (a : A) : Sys A := fun hist => (inr a, hist).

Definition sys_raise {A : Type} (e : exc) : Sys A := fun hist => (inl e, hist).

Definition sys_bind {A B : Type} (c : Sys A) (k : A -> Sys B) : Sys B :=
  fun hist =>
    match c hist with
    | (inr a, hist') => k a hist'
    | (inl e, hist') => (inl e, hist')
    end.

(** A pure computation that may raise. *)
Definition lift {A : Type} (r : exc + A) : Sys A := fun hist => (r, hist).

(** [with ... :] and [try: ... finally:]: [cleanup] runs however [c]
    ends; an exception of [cleanup] takes the place of the outcome of
    [c]. *)
Definition finally {A : Type} (c : Sys A) (cleanup : Sys unit) : Sys A :=
  fun hist =>
    match c hist with
    | (r, hist') =>
        match cleanup hist' with
        | (inr _, hist'') => (r, hist'')
        | (inl e, hist'') => (inl e, hist'')
        end
    end.

(** Sequencing of pure computations that may raise. *)
Definition exc_bind {A B : Type} (r : exc + A) (k : A -> exc + B) : exc + B :=
  match r with
  | inl e => inl e
  | inr a => k a
  end.

Definition is_fails (a : answer) : bool :=
  match a with Fails _ => true | _ => false end.

Definition is_check_call (x : syscall * answer) : bool :=
  match fst x with CheckCall _ _ _ => true | _ => false end.

Definition is_open_write (x : syscall * answer) : bool :=
  match fst x with OpenWrite _ => true | _ => false end.

Definition written_to (path : string) (x : syscall * answer) : list string :=
  match x with
  | (Write p text, a) =>
      if String.eqb p path && negb (is_fails a) then [text] else []
  | _ => []
  end.

(** The texts written to [path], in order. *)
Definition writes_to (path : string) (hist : History) : list string :=
  concat (map (written_to path) hist).

Definition MODEL_LIBRARY_FORMAT_RELPATH : string := "model.tar".
Definition WORKSPACE_SIZE_BYTES : Z := 1 * 1024 * 1024.
Definition CMAKEFILE_FILENAME : string := "CMakeLists.txt".
Definition ABI : string := "ilp32d".
Definition TRIPLE : string := "riscv32-unknown-elf".
Definition TOOLCHAIN : string := "gcc".
Definition CRT_COPY_ITEMS : list string := ["include"; "CMakeLists.txt"; "src"].

Declare Scope sys_scope.
Delimit Scope sys_scope with sys.
Notation "x <- c ;; k" := (sys_bind c (fun x => k))
  (at level 100, c at next level, right associativity) : sys_scope.
Notation "c ;; k" := (sys_bind c (fun _ => k))
  (at level 100, right associativity) : sys_scope.
Notation "x <-? r ;; k" := (exc_bind r (fun x => k))
  (at level 100, r at next level, right associativity) : sys_scope.

Section Server.

Local Open Scope sys_scope.

(** The environment: what each call comes back with, given the calls
    made before it. *)
Variable env : History -> syscall -> answer.

(** [PROJECT_DIR], [NPROC], [__file__], its base name and the absolute
    path of its directory. *)
Variable PROJECT_DIR : string.
Variable NPROC : Z.
Variable FILE : string.
Variable FILE_basename : string.
Variable current_dir : string.

(** [os.O_NONBLOCK]. *)
Variable O_NONBLOCK : Z.

Definition call (c : syscall) : Sys answer :=
  fun hist =>
    let a := env hist c in
    (match a with Fails e => inl e | _ => inr a end, (hist ++ [(c, a)])%list).

(** [_LOG.info(fmt, *args)]; the logger does not raise. *)
Definition log_info (fmt : string) (args : list string) : Sys unit :=
  fun hist => (inr tt, (hist ++ [(LogInfo fmt args, Done)])%list).

(** [os.path.isdir(path)], which does not raise. *)
Definition os_path_isdir (path : string) : Sys bool :=
  fun hist =>
    let a := env hist (IsDir path) in
    (inr (match a with IsDirAnswer b => b | _ => false end),
     (hist ++ [(IsDir path, a)])%list).


(** [check_call(cmd_args, cwd=cwd, ...)]: the log line, then
    [subprocess.check_call], which raises [CalledProcessError] on an
    exit status other than zero. *)
Definition check_call (cmd_args : list string) (cwd : option string) (devnull : bool)
  : Sys unit :=
  let cwd_str :=
    match cwd with
    | None => EmptyString
    | Some c => " (in cwd: " ++ c ++ ")"
    end in
  log_info "run%s: %s" [cwd_str; String.concat " " (map shlex_quote cmd_args)] ;;
  a <- call (CheckCall cmd_args cwd devnull) ;;
  match a with
  | Exit code =>
      if (code =? 0)%Z then sys_ret tt
      else sys_raise (CalledProcessError code cmd_args)
  | _ => sys_ret tt
  end.

(** The [for line in cmakefile_template_f] loop. *)
Fixpoint write_lines (path : string) (lines : list string) : Sys unit :=
  match lines with
  | [] => sys_ret tt
  | line :: rest => call (Write path line) ;; write_lines path rest
  end.

Definition _populate_cmake (cmakefile_template_path cmakefile_path : string)
           (memory_size verbose : pyval) : Sys unit :=
  call (OpenWrite cmakefile_path) ;;
  finally
    (template <- call (OpenRead cmakefile_template_path) ;;
     finally
       (match template with
        | Opened lines err =>
            write_lines cmakefile_path lines ;;
            match err with Some e => sys_raise e | None => sys_ret tt end
        | _ => sys_ret tt
        end ;;
        call (Write cmakefile_path
                ("target_compile_definitions(main PUBLIC -DTVM_WORKSPACE_SIZE_BYTES="
                 ++ py_str memory_size ++ ")" ++ String "010" EmptyString)) ;;
        if py_bool verbose
        then call (Write cmakefile_path
                     ("set(CMAKE_VERBOSE_MAKEFILE TRUE)" ++ String "010" EmptyString)) ;;
             sys_ret tt
        else sys_ret tt)
       (call (Close cmakefile_template_path) ;; sys_ret tt))
    (call (Close cmakefile_path) ;; sys_ret tt).

(** The [for item in self.CRT_COPY_ITEMS] loop. *)
Fixpoint copy_crt_items (standalone_crt_dir crt_path : string) (items : list string)
  : Sys unit :=
  match items with
  | [] => sys_ret tt
  | item :: rest =>
      let src_path := path_join standalone_crt_dir item in
      let dst_path := path_join crt_path item in
      d <- os_path_isdir src_path ;;
      (if d then call (CopyTree src_path dst_path false)
       else call (Copy2 src_path dst_path)) ;;
      copy_crt_items standalone_crt_dir crt_path rest
  end.

Definition generate_project (model_library_format_path standalone_crt_dir
                             project_dir : string)
           (options : gmap string pyval) : Sys unit :=
  call (Mkdir project_dir true) ;;
  call (Copy2 FILE (path_join project_dir FILE_basename)) ;;
  let project_model_library_format_path :=
    path_join project_dir MODEL_LIBRARY_FORMAT_RELPATH in
  call (Copy2 model_library_format_path project_model_library_format_path) ;;
  let extract_path := path_join project_dir (stem MODEL_LIBRARY_FORMAT_RELPATH) in
  call (TarOpen project_model_library_format_path) ;;
  finally
    (call (Mkdir extract_path true) ;;
     call (TarExtractAll project_model_library_format_path extract_path) ;;
     sys_ret tt)
    (call (TarClose project_model_library_format_path) ;; sys_ret tt) ;;
  let crt_path := path_join project_dir "crt" in
  call (Mkdir crt_path false) ;;
  copy_crt_items standalone_crt_dir crt_path CRT_COPY_ITEMS ;;
  verbose <- lift (str2bool (options_get options "verbose" PNone) false) ;;
  _populate_cmake
    (path_join current_dir (CMAKEFILE_FILENAME ++ ".template"))
    (path_join project_dir CMAKEFILE_FILENAME)
    (options_get options "workspace_size_bytes" (PInt WORKSPACE_SIZE_BYTES))
    verbose ;;
  let cmake_path := path_join project_dir "cmake" in
  call (Mkdir cmake_path false) ;;
  call (CopyTree (path_join current_dir "cmake") cmake_path true) ;;
  let crt_config_dir := path_join project_dir "crt_config" in
  call (Mkdir crt_config_dir false) ;;
  call (Copy2 (path_join (path_join current_dir "crt_config") "crt_config.h")
              (path_join crt_config_dir "crt_config.h")) ;;
  let src_dir := path_join project_dir "src" in
  call (Mkdir src_dir false) ;;
  call (Copy2 (path_join (path_join current_dir "src") "main.cc")
              (path_join src_dir "main.cc")) ;;
  call (Copy2 (path_join (path_join current_dir "src") "platform.cc")
              (path_join src_dir "platform.cc")) ;;
  sys_ret tt.

(** ["prefix" + v]: only a string can be added to a string. *)
Definition str_add (prefix : string) (v : pyval) : exc + string :=
  match v with
  | PStr s => inr (prefix ++ s)
  | _ => inl (Builtin TypeError)
  end.

(** The statements of [build] that fill [cmake_args], in their order;
    [l.append(a)] is [l ++ [a]]. *)
Definition cmake_args (options : gmap string pyval) : exc + list string :=
  let cmake_args : list string := [] in
  let debug := options_get options "debug" (PBool false) in
  let build_type := if py_bool debug then "Debug" else "Release" in
  let cmake_args := (cmake_args ++ [("-DCMAKE_BUILD_TYPE=" ++ build_type)%string])%list in
  a <-? str_add "-DTOOLCHAIN=" (options_get options "toolchain" (PStr TOOLCHAIN)) ;;
  let cmake_args := (cmake_args ++ [a])%list in
  let llvm_dir := options_get options "llvm_dir" PNone in
  cmake_args <-?
    (if py_bool llvm_dir
     then a <-? str_add "-DLLVM_DIR=" llvm_dir ;; inr (cmake_args ++ [a])%list
     else inr cmake_args) ;;
  a <-? str_add "-DRISCV_ARCH=" (options_get options "arch" (PStr ARCH)) ;;
  let cmake_args := (cmake_args ++ [a])%list in
  a <-? str_add "-DRISCV_ABI=" (options_get options "abi" (PStr ABI)) ;;
  let cmake_args := (cmake_args ++ [a])%list in
  a <-? str_add "-DRISCV_ABI=" (options_get options "abi" (PStr ABI)) ;;
  let cmake_args := (cmake_args ++ [a])%list in
  a <-? str_add "-DRISCV_ELF_GCC_PREFIX="
          (options_get options "gcc_prefix" (PStr EmptyString)) ;;
  let cmake_args := (cmake_args ++ [a])%list in
  a <-? str_add "-DRISCV_ELF_GCC_BASENAME="
          (options_get options "gcc_name" (PStr TRIPLE)) ;;
  let cmake_args := (cmake_args ++ [a])%list in
  inr cmake_args.

Definition build (options : gmap string pyval) : Sys unit :=
  let build_dir := path_join PROJECT_DIR "build" in
  call (Mkdir build_dir false) ;;
  cmake_args <- lift (cmake_args options) ;;
  quiet <- lift (str2bool (options_get options "quiet" PNone) true) ;;
  if py_bool quiet
  then check_call ("cmake" :: ".." :: cmake_args) (Some build_dir) true ;;
       check_call ["make"; "-j" ++ py_str (PInt NPROC)] (Some build_dir) true
  else check_call ("cmake" :: ".." :: cmake_args) (Some build_dir) false ;;
       check_call ["make"; "-j" ++ py_str (PInt NPROC)] (Some build_dir) false.

(** [flash]: nothing is done on this target. *)
Definition flash (options : gmap string pyval) : Sys unit := sys_ret tt.

(** [fcntl.fcntl(fd, fcntl.F_GETFL)]. *)
Definition fcntl_getfl (fd : Z) : Sys Z :=
  a <- call (FcntlGetfl fd) ;;
  sys_ret (match a with Flags z => z | _ => 0%Z end).

Definition _set_nonblock (fd : Z) : Sys unit :=
  flag <- fcntl_getfl fd ;;
  call (FcntlSetfl fd (Z.lor flag O_NONBLOCK)) ;;
  new_flag <- fcntl_getfl fd ;;
  if negb (Z.land new_flag O_NONBLOCK =? 0)%Z then sys_ret tt
  else sys_raise (AssertionError "Cannot set file descriptor {fd} to non-blocking").

End Server.

(** ** Predicates used in the statements about these methods *)

(** The entry is a directory creation at [p] that was not refused. *)
Definition made (p : string) (x : syscall * answer) : bool :=
  match x with
  | (Mkdir q _, a) => String.eqb q p && negb (is_fails a)
  | _ => false
  end.

(** An environment in which a directory that was made is still there:
    making it again, without [exist_ok], is refused. *)
Definition mkdir_refuses_existing (env : History -> syscall -> answer) : Prop :=
  forall hist p parents,
    existsb (made p) hist = true ->
    env hist (Mkdir p parents) = Fails (Builtin (FileExistsError p)).

(** An environment in which [F_GETFL] right after an [F_SETFL] that was
    not refused gives the flags that were set. *)
Definition flags_stored (env : History -> syscall -> answer) : Prop :=
  forall hist fd v a,
    is_fails a = false ->
    env (hist ++ [(FcntlSetfl fd v, a)])%list (FcntlGetfl fd) = Flags v.

(** The postcondition [Q] holds of the outcome of [c] and of the
    history it leaves. *)
Definition sys_wp {A : Type} (c : Sys A) (Q : exc + A -> History -> Prop)
           (hist : History) : Prop :=
  Q (fst (c hist)) (snd (c hist)).

(** The answer is neither an exception nor an exit status other
    than 0. *)
Definition succeeded (a : answer) : bool :=
  match a with
  | Fails _ => false
  | Exit code => (code =? 0)%Z
  | _ => true
  end.

(** Whatever [c] does, it only adds to the history. *)
Definition extends {A : Type} (c : Sys A) : Prop :=
  forall hist, exists new, snd (c hist) = (hist ++ new)%list.

(** The lines a file opened for reading yields, and the error that ends
    the reading. *)
Definition template_lines (a : answer) : list string :=
  match a with
  | Opened lines _ => lines
  | _ => []
  end.

Definition template_err (a : answer) : option exc :=
  match a with
  | Opened _ err => err
  | _ => None
  end.

Definition is_write_to (path : string) (x : syscall * answer) : Prop :=
  exists text, fst x = Write path text.

(** The two lines that [_populate_cmake] adds to the template. *)
Definition definition_line (memory_size : pyval) : string :=
  "target_compile_definitions(main PUBLIC -DTVM_WORKSPACE_SIZE_BYTES="
  ++ py_str memory_size ++ ")" ++ String "010" EmptyString.

Definition verbose_line : string :=
  "set(CMAKE_VERBOSE_MAKEFILE TRUE)" ++ String "010" EmptyString.

(** The calls [_populate_cmake] makes are on its two files. *)
Definition on_cmake_files (template_path path : string) (x : syscall * answer) : Prop :=
  fst x = OpenWrite path \/ fst x = OpenRead template_path
  \/ is_write_to path x
  \/ fst x = Close template_path \/ fst x = Close path.

Definition is_mkdir (x : syscall * answer) : bool :=
  match fst x with Mkdir _ _ => true | _ => false end.

(** The calls of the loop over [CRT_COPY_ITEMS]. *)
Definition is_crt_call (x : syscall * answer) : bool :=
  match fst x with
  | IsDir _ | CopyTree _ _ false | Copy2 _ _ => true
  | _ => false
  end.

(** The five options of [build] that are added to a string. *)
Definition string_options : list string :=
  ["toolchain"; "arch"; "abi"; "gcc_prefix"; "gcc_name"].

(** The options [build] reads. *)
Definition build_options : list string :=
  ["debug"; "toolchain"; "llvm_dir"; "arch"; "abi"; "gcc_prefix"; "gcc_name"; "quiet"].

(** ** Environments for the examples *)

Fixpoint last_flags (fd : Z) (hist : History) (flags : Z) : Z :=
  match hist with
  | [] => flags
  | (FcntlSetfl fd' v, a) :: rest =>
      last_flags fd rest (if (fd' =? fd)%Z && negb (is_fails a) then v else flags)
  | _ :: rest => last_flags fd rest flags
  end.

(** A disk on which nothing is there at first, every command exits
    with status 0, the CMake template has two lines, and descriptors
    are open for reading and writing. *)
Definition env_disk (hist : History) (c : syscall) : answer :=
  match c with
  | Mkdir p _ =>
      if existsb (made p) hist then Fails (Builtin (FileExistsError p)) else Done
  | IsDir p => IsDirAnswer (negb (String.eqb p "/crt/CMakeLists.txt"))
  | OpenRead _ => Opened ["cmake_minimum_required(VERSION 3.13)"; "project(main)"] None
  | CheckCall _ _ _ => Exit 0
  | FcntlGetfl fd => Flags (last_flags fd hist 2)
  | _ => Done
  end.

(** The same disk, on which [cmake] exits with status 1. *)
Definition env_cmake_fails (hist : History) (c : syscall) : answer :=
  match c with
  | CheckCall ("cmake" :: _) _ _ => Exit 1
  | _ => env_disk hist c
  end.

(** The same disk, with a template that cannot be read. *)
Definition env_no_template (hist : History) (c : syscall) : answer :=
  match c with
  | OpenRead p => Fails (Builtin (FileNotFoundError p))
  | _ => env_disk hist c
  end.

Definition verbose_options : gmap string pyval :=
  {[ "verbose" := PStr "True" ]}.

(** ** [server_info_query] *)

(** [server.ProjectOption] and [server.ServerInfo], as this file uses
    them; a keyword that is not given is [None]. *)
Module server.

Record ProjectOption : Type := {
  name : string;
  optional : option (list string);
  required : option (list string);
  type : string;
  default : pyval;
  choices : option (list string);
  help : string }.

Record ServerInfo : Type := {
  platform_name : string;
  is_template : bool;
  model_library_format_path : string;
  project_options : list ProjectOption }.

End server.

Section Info.

(** [IS_TEMPLATE] and [PROJECT_DIR], which are set when the module is
    loaded. *)
Variable IS_TEMPLATE : bool.
Variable PROJECT_DIR : string.

Definition server_info_query (tvm_version : pyval) : server.ServerInfo :=
  {| server.platform_name := "host";
     server.is_template := IS_TEMPLATE;
     server.model_library_format_path :=
       if IS_TEMPLATE then EmptyString
       else path_join PROJECT_DIR MODEL_LIBRARY_FORMAT_RELPATH;
     server.project_options :=
       [ {| server.name := "verbose";
            server.optional := Some ["build"];
            server.required := None;
            server.type := "bool";
            server.default := PBool false;
            server.choices := None;
            server.help := "Run make with verbose output" |};
         {| server.name := "quiet";
            server.optional := Some ["build"];
            server.required := None;
            server.type := "bool";
            server.default := PBool true;
            server.choices := None;
            server.help := "Supress all compilation messages" |};
         {| server.name := "debug";
            server.optional := Some ["build"];
            server.required := None;
            server.type := "bool";
            server.default := PBool false;
            server.choices := None;
            server.help := "Build with debugging symbols and -O0" |};
         {| server.name := "workspace_size_bytes";
            server.optional := Some ["generate_project"];
            server.required := None;
            server.type := "int";
            server.default := PInt WORKSPACE_SIZE_BYTES;
            server.choices := None;
            server.help := "Sets the value of TVM_WORKSPACE_SIZE_BYTES." |};
         {| server.name := "arch";
            server.optional := Some ["build"; "open_transport"];
            server.required := None;
            server.type := "str";
            server.default := PStr ARCH;
            server.choices := None;
            server.help := "Name used ARCH." |};
         {| server.name := "abi";
            server.optional := Some ["build"];
            server.required := None;
            server.type := "str";
            server.default := PStr ABI;
            server.choices := None;
            server.help := "Name used ABI." |};
         {| server.name := "toolchain";
            server.optional := Some ["build"];
            server.required := None;
            server.type := "str";
            server.default := PStr TOOLCHAIN;
            server.choices := Some ["gcc"; "llvm"];
            server.help := "Name used TOOLCHAIN." |};
         {| server.name := "llvm_dir";
            server.optional := Some ["build"];
            server.required := None;
            server.type := "str";
            server.default := PNone;
            server.choices := None;
            server.help := "Path to LLVM install directory" |};
         {| server.name := "gcc_prefix";
            server.optional := Some ["build"];
            server.required := None;
            server.type := "str";
            server.default := PStr EmptyString;
            server.choices := None;
            server.help := "Name used COMPILER." |};
         {| server.name := "gcc_name";
            server.optional := Some ["build"];
            server.required := None;
            server.type := "str";
            server.default := PStr TRIPLE;
            server.choices := None;
            server.help := "Name used COMPILER." |};
         {| server.name := "ovpsim_exe";
            server.optional :=
              if py_bool (PStr OVPSIM_EXE) then Some ["open_transport"] else Some [];
            server.required :=
              if negb (py_bool (PStr OVPSIM_EXE)) then Some ["open_transport"] else None;
            server.type := "str";
            server.default := PStr OVPSIM_EXE;
            server.choices := None;
            server.help := "Path to the OVPSim executable." |};
         {| server.name := "ovpsim_extra_args";
            server.optional := Some ["open_transport"];
            server.required := None;
            server.type := "str";
            server.default := PNone;
            server.choices := None;
            server.help := "Additional arguments added to the ovpsim command line." |} ] |}.

End Info.

(** The option is declared as one that [method] may be given. *)
Definition declared_for (method : string) (o : server.ProjectOption) : Prop :=
  exists methods, server.optional o = Some methods /\ In method methods.

(** ** Where the project is generated *)

(** The string [p] is [root], or begins with [root] and a slash. *)
Definition under (root p : string) : bool :=
  String.eqb p root || String.prefix (root ++ "/") p.

(** The path that the call names as what it makes, copies to, extracts
    to, opens for writing or writes is [root] or, as a string, begins
    with [root] and a slash.  This is about the argument of the call:
    the members that [extractall] and [copytree] put below their
    destination, the parents that [mkdir(parents=True)] makes and what
    a [..] or a link in the path leads to are not looked at. *)
Definition destination_under (root : string) (x : syscall * answer) : bool :=
  match fst x with
  | Mkdir p _ | OpenWrite p | Write p _ => under root p
  | Copy2 _ dst | CopyTree _ dst _ | TarExtractAll _ dst => under root dst
  | _ => true
  end.

(** ** Further inputs for the examples *)

(** A handler whose queue still holds the signal of an earlier
    watcher. *)
Definition h_signalled : Handler := set_queue [(0%Q, PBool true)] init.

(** The default options with another architecture. *)
Definition arch_options : gmap string pyval :=
  <[ "arch" := PStr "rv64gc" ]> default_options.

(** Options that [build] cannot use, and a [debug] option given as a
    string. *)
Definition toolchain_number : gmap string pyval := {[ "toolchain" := PInt 1 ]}.

Definition quiet_maybe : gmap string pyval := {[ "quiet" := PStr "maybe" ]}.

Definition debug_false : gmap string pyval := {[ "debug" := PStr "False" ]}.

(** The [debug] option as [server_info_query] declares it. *)
Definition debug_option : server.ProjectOption :=
  {| server.name := "debug";
     server.optional := Some ["build"];
     server.required := None;
     server.type := "bool";
     server.default := PBool false;
     server.choices := None;
     server.help := "Build with debugging symbols and -O0" |}.


(** * Properties *)

(** ** The readiness watcher *)

Lemma check_lines_queue (pid : Z) (closes : bool) (lines : list (Q * bytes)) (s : State) :
  exists new : Queue,
    _queue (fst (snd (check_lines pid closes lines s))) = (_queue (fst s) ++ new)%list
    /\ (new = [] \/ exists t, new = [(t, PBool true)]).
Proof.
  revert s. induction lines as [|[t raw] rest IH]; intros s.
  - exists []. rewrite app_nil_r. split; [|by left].
    simpl. by destruct closes.
  - simpl. unfold bind at 1. simpl.
    unfold bind at 1. unfold str_utf8.
    destruct (py_str_utf8 raw) as [u|]; simpl.
    + unfold bind at 1. simpl.
      destruct (py_contains (lit "RW-") u).
      * exists [(py_max (clock (snd s)) t, PBool true)]. split; [reflexivity|].
        right. by eexists.
      * unfold bind at 1. simpl.
        match goal with |- context [check_lines _ _ _ ?s'] => apply (IH s') end.
    + exists []. rewrite app_nil_r. split; [reflexivity | by left].
Qed.

(** C3: whatever the engine prints, the watcher puts the readiness
    signal into the queue at most once: the queue after
    [_fvp_check_stdout] is the queue before it, followed by nothing or
    by a single [True]; the same holds when the watcher runs as the
    background thread. *)
Theorem C3_readiness_signalled_at_most_once (s : State) :
  (exists new : Queue,
     _queue (fst (snd (_fvp_check_stdout s))) = (_queue (fst s) ++ new)%list
     /\ (new = [] \/ exists t, new = [(t, PBool true)]))
  /\ (exists new : Queue,
        _queue (fst (snd (thread_start _fvp_check_stdout s))) = (_queue (fst s) ++ new)%list
        /\ (new = [] \/ exists t, new = [(t, PBool true)])).
Proof.
  assert (H : forall s : State, exists new : Queue,
     _queue (fst (snd (_fvp_check_stdout s))) = (_queue (fst s) ++ new)%list
     /\ (new = [] \/ exists t, new = [(t, PBool true)])).
  { clear s. intros s. unfold _fvp_check_stdout, bind, proc_stdout.
    destruct (_proc (fst s)) as [pid|]; simpl.
    - destruct (procs (snd s) !! pid) as [p|]; simpl.
      + destruct (check_lines_queue pid (stdout_closes p) (stdout p) s) as (new & Hq & Hn).
        exists new. split; [|exact Hn].
        destruct (check_lines pid (stdout_closes p) (stdout p) s) as [[[]| |] s1];
          simpl in *; exact Hq.
      + exists []. by rewrite app_nil_r; split; [|left].
    - exists []. by rewrite app_nil_r; split; [|left]. }
  split; [apply H|].
  unfold thread_start. simpl.
  apply (H (fst s, with_trace (thread_trace (emit EvThreadStart (snd s)))
                     (emit EvThreadStart (snd s)))).
Qed.

(** ** Closing *)

(** C8: after [close_transport] the process handle is [None]; on a
    handler without a process [close_transport] returns normally and
    changes nothing but the trace, which gains its one [print]; so a
    second [close_transport] returns normally and leaves the handler as
    the first one left it. *)
Theorem C8_close_transport_idempotent (h : Handler) (w : World) :
  let first := close_transport (h, w) in
  let second := close_transport (snd first) in
  _proc (fst (snd first)) = None
  /\ fst first = Ret tt
  /\ fst second = Ret tt
  /\ fst (snd second) = fst (snd first)
  /\ snd (snd second) = emit (EvPrint [PrStr "close_transport"]) (snd (snd first))
  /\ close_transport (set_proc None h, w)
     = (Ret tt, (set_proc None h, emit (EvPrint [PrStr "close_transport"]) w)).
Proof.
  unfold close_transport, bind, get_self, print, on_world; simpl.
  destruct (_proc h) as [pid|] eqn:Hp; simpl; rewrite ?Hp; simpl; repeat split; reflexivity.
Qed.

(** ** Polling *)

Lemma py_max0_nonneg (x : Q) : (0 <= py_max0 x)%Q.
Proof.
  unfold py_max0. destruct (Qlt_le_dec 0 x) as [H|H].
  - lra.
  - lra.
Qed.

Lemma py_max0_past (now e : Q) :
  py_max0 (e - now) = if Qlt_le_dec now e then (e - now)%Q else 0%Q.
Proof.
  unfold py_max0.
  destruct (Qlt_le_dec 0 (e - now)) as [H|H], (Qlt_le_dec now e) as [H'|H'];
    try reflexivity; exfalso; lra.
Qed.

(** C10: [_await_ready] polls once; it raises [IoTimeoutError] exactly
    when that poll returns three empty lists; a timeout given by the
    caller is passed on as it is, and with no timeout but an end time
    the poll gets [max(0, end_time - now)]: the time left, or [0] when
    the end time is not ahead, and never a negative number. *)
Theorem C10_await_ready
  (select_select : World -> list Z -> list Z -> list Z -> option Q -> select_outcome * Q)
  (rlist wlist : list Z) (timeout_sec end_time : option Q) (h : Handler) (w : World) :
  exists passed : option Q,
    trace (snd (snd (_await_ready select_select rlist wlist timeout_sec end_time (h, w))))
    = (trace w ++ [EvSelect rlist wlist (rlist ++ wlist) passed])%list
    /\ (fst (_await_ready select_select rlist wlist timeout_sec end_time (h, w))
        = Raise IoTimeoutError
        <-> fst (select_select w rlist wlist (rlist ++ wlist)%list passed) = Ready [] [] [])
    /\ match timeout_sec, end_time with
       | None, Some e =>
           passed = Some (if Qlt_le_dec (clock w) e then (e - clock w)%Q else 0%Q)
           /\ exists t, passed = Some t /\ (0 <= t)%Q
       | _, _ => passed = timeout_sec
       end.
Proof.
  set (passed := match timeout_sec, end_time with
                 | None, Some e => Some (py_max0 (e - clock w))
                 | _, _ => timeout_sec
                 end).
  exists passed.
  assert (Hrun : _await_ready select_select rlist wlist timeout_sec end_time (h, w)
          = bind (select_call select_select rlist wlist (rlist ++ wlist)%list passed)
              (fun ready => let '(r, w0, x) := ready in
                 if py_not r && py_not w0 && py_not x then raise IoTimeoutError else ret true)
              (h, w)).
  { unfold _await_ready, passed. destruct timeout_sec as [t|], end_time as [e|]; reflexivity. }
  rewrite Hrun. unfold bind, select_call. simpl.
  destruct (select_select w rlist wlist (rlist ++ wlist)%list passed) as [out dt]; simpl.
  split; [|split].
  - destruct out as [r w0 x| |]; [destruct r, w0, x|..]; reflexivity.
  - destruct out as [r w0 x|e|]; simpl.
    + destruct r, w0, x; simpl; split; intros H; try reflexivity; discriminate H.
    + split; intros H; [destruct e|]; discriminate H.
    + split; intros H; discriminate H.
  - unfold passed. destruct timeout_sec as [t|], end_time as [e|]; try reflexivity.
    split.
    + by rewrite py_max0_past.
    + eexists. split; [reflexivity|apply py_max0_nonneg].
Qed.

(** ** Reading and writing *)

Lemma copy_bytes (data acc : bytes) :
  fold_left (fun a b => (a ++ [b])%list) data acc = (acc ++ data)%list.
Proof.
  revert acc. induction data as [|b data IH]; intros acc; simpl.
  - by rewrite app_nil_r.
  - rewrite IH, <- app_assoc. reflexivity.
Qed.

Section WriteLoop.

Variable write_with_timeout :
  World -> option Z -> bytes -> option Q -> result Z * Q.

(** The loop leaves the handler alone, only adds write calls to the
    trace, raises what a call raises, and drains the buffer when the
    calls succeed. *)
Lemma write_loop_spec (turns : nat) :
  forall (buf : bytes) (t : option Q) (h : Handler) (w : World),
  exists new : list event,
    fst (snd (write_loop write_with_timeout turns buf t (h, w))) = h
    /\ trace (snd (snd (write_loop write_with_timeout turns buf t (h, w))))
       = (trace w ++ new)%list
    /\ (forall e, Exists (write_raised e) new ->
                  fst (write_loop write_with_timeout turns buf t (h, w)) = Raise e)
    /\ (forallb write_succeeds new = true -> (length buf <= turns)%nat ->
        fst (write_loop write_with_timeout turns buf t (h, w)) = Ret tt
        /\ total_written new = Z.of_nat (length buf)
        /\ delivered new = buf).
Proof.
  induction turns as [|n IH]; intros buf t h w.
  - exists []. rewrite app_nil_r. destruct buf as [|b bs]; simpl.
    + repeat split; try reflexivity. intros e He. inversion He.
    + repeat split; try reflexivity; try lia. intros e He. inversion He.
  - destruct buf as [|b bs].
    + exists []. rewrite app_nil_r. simpl.
      repeat split; try reflexivity. intros e He. inversion He.
    + cbn [write_loop]. unfold bind, get_self, server_write_with_timeout.
      cbn [fst snd].
      destruct (write_with_timeout w (write_fd h) (b :: bs) t) as [r dt].
      cbn [fst snd].
      set (ev := EvWriteWithTimeout (write_fd h) (b :: bs) t r).
      set (w1 := emit ev (with_clock (clock w + dt)%Q w)).
      destruct r as [k| e0 |].
      * destruct (IH (py_slice_from k (b :: bs)) t h w1) as (new & Hh & Ht & Hr & Hd).
        exists (ev :: new). split; [exact Hh|]. split.
        { rewrite Ht. unfold w1, emit. cbn [trace with_trace].
          rewrite <- app_assoc. reflexivity. }
        split.
        { intros e He. apply Hr. inversion He as [? ? Hx|]; subst; [destruct Hx | assumption]. }
        intros Hok Hlen. cbn [forallb] in Hok.
        apply andb_true_iff in Hok as [Hk Hok].
        unfold ev in Hk. cbn [write_succeeds] in Hk.
        apply andb_true_iff in Hk as [Hk1 Hk2].
        apply Z.leb_le in Hk1. apply Z.leb_le in Hk2.
        assert (Hs : py_slice_from k (b :: bs) = skipn (Z.to_nat k) (b :: bs)).
        { unfold py_slice_from. destruct (0 <=? k)%Z eqn:Hz; [reflexivity|].
          apply Z.leb_gt in Hz. lia. }
        rewrite Hs in Hd.
        destruct Hd as (Hret & Htot & Hdel); [exact Hok | rewrite length_skipn; lia |].
        rewrite Hs. split; [exact Hret|]. split.
        { unfold total_written in *. cbn [map fold_right written ev].
          rewrite Htot, length_skipn. lia. }
        { unfold delivered in *. cbn [map concat accepted ev].
          rewrite Hdel. apply firstn_skipn. }
      * exists [ev]. split; [reflexivity|]. split; [reflexivity|]. split.
        { intros e He. inversion He as [? ? Hx|? ? Hx]; subst.
          - unfold ev in Hx. cbn in Hx. by subst.
          - inversion Hx. }
        intros Hok; discriminate Hok.
      * exists [ev]. split; [reflexivity|]. split; [reflexivity|]. split.
        { intros e He. inversion He as [? ? Hx|? ? Hx]; subst.
          - destruct Hx.
          - inversion Hx. }
        intros Hok; discriminate Hok.
Qed.

(** Every call of the loop is [server.write_with_timeout] on
    [self.write_fd] with the caller's timeout; the first one is made
    whatever the handler holds and has all of the data; and the loop
    raises nothing but what its last call raised. *)
Lemma write_loop_calls (turns : nat) :
  forall (buf : bytes) (t : option Q) (h : Handler) (w : World),
  exists new : list event,
    trace (snd (snd (write_loop write_with_timeout turns buf t (h, w))))
    = (trace w ++ new)%list
    /\ Forall (write_call_on (write_fd h) t) new
    /\ (buf <> [] -> turns <> 0%nat ->
        hd_error new
        = Some (EvWriteWithTimeout (write_fd h) buf t
                  (fst (write_with_timeout w (write_fd h) buf t))))
    /\ (forall e, fst (write_loop write_with_timeout turns buf t (h, w)) = Raise e ->
                  Exists (write_raised e) new).
Proof.
  induction turns as [|n IH]; intros buf t h w.
  - exists []. rewrite app_nil_r. destruct buf as [|b bs]; simpl.
    + repeat split; try constructor; try congruence; try discriminate.
    + repeat split; try constructor; try congruence; try discriminate.
  - destruct buf as [|b bs].
    + exists []. rewrite app_nil_r. simpl.
      repeat split; try constructor; try congruence; try discriminate.
    + cbn [write_loop]. unfold bind, get_self, server_write_with_timeout.
      cbn [fst snd].
      destruct (write_with_timeout w (write_fd h) (b :: bs) t) as [r dt].
      cbn [fst snd].
      set (ev := EvWriteWithTimeout (write_fd h) (b :: bs) t r).
      set (w1 := emit ev (with_clock (clock w + dt)%Q w)).
      assert (Hev : write_call_on (write_fd h) t ev) by (do 2 eexists; reflexivity).
      destruct r as [k| e0 |].
      * destruct (IH (py_slice_from k (b :: bs)) t h w1) as (new & Ht & HF & _ & Hr).
        exists (ev :: new). split.
        { rewrite Ht. unfold w1, emit. cbn [trace with_trace].
          rewrite <- app_assoc. reflexivity. }
        split; [constructor; assumption|]. split; [reflexivity|].
        intros e He. apply Exists_cons_tl. now apply Hr.
      * exists [ev]. split; [reflexivity|]. split; [constructor; [assumption|constructor]|].
        split; [reflexivity|].
        intros e He. injection He as <-. apply Exists_cons_hd. reflexivity.
      * exists [ev]. split; [reflexivity|]. split; [constructor; [assumption|constructor]|].
        split; [reflexivity|]. intros e He. discriminate He.
Qed.

End WriteLoop.

(** C4 (as the code has it): neither method looks at the session.
    [read_transport] hands [self.read_fd], whatever it is, to
    [server.read_with_timeout] with its own arguments, and ends as
    that call ends; [write_transport] with no data returns at once,
    without a call; with data it calls [server.write_with_timeout],
    and nothing else: every call is on [self.write_fd] with the
    caller's timeout, the first one is made whatever the handler holds
    and has all of the data, and [write_transport] raises exactly what
    one of these calls raised, so never an exception of its own. *)
Theorem C4_transport_io_unchecked
  (read_with_timeout : World -> option Z -> Z -> option Q -> result bytes * Q)
  (write_with_timeout : World -> option Z -> bytes -> option Q -> result Z * Q)
  (turns : nat) (n : Z) (data : bytes) (timeout_sec : option Q)
  (h : Handler) (w : World) :
  read_transport read_with_timeout n timeout_sec (h, w)
  = (fst (read_with_timeout w (read_fd h) n timeout_sec),
     (h, emit (EvReadWithTimeout (read_fd h) n timeout_sec)
           (with_clock (clock w + snd (read_with_timeout w (read_fd h) n timeout_sec))%Q w)))
  /\ write_transport write_with_timeout turns [] timeout_sec (h, w) = (Ret tt, (h, w))
  /\ exists new,
       trace (snd (snd (write_transport write_with_timeout turns data timeout_sec (h, w))))
       = (trace w ++ new)%list
       /\ fst (snd (write_transport write_with_timeout turns data timeout_sec (h, w))) = h
       /\ Forall (write_call_on (write_fd h) timeout_sec) new
       /\ (data <> [] -> turns <> 0%nat ->
           hd_error new
           = Some (EvWriteWithTimeout (write_fd h) data timeout_sec
                     (fst (write_with_timeout w (write_fd h) data timeout_sec))))
       /\ (forall e,
             fst (write_transport write_with_timeout turns data timeout_sec (h, w))
             = Raise e
             <-> Exists (write_raised e) new).
Proof.
  split; [reflexivity|]. split; [by destruct turns|].
  unfold write_transport. rewrite copy_bytes. cbn [app].
  destruct (write_loop_spec write_with_timeout turns data timeout_sec h w)
    as (new & Hh & Ht & Hr & _).
  destruct (write_loop_calls write_with_timeout turns data timeout_sec h w)
    as (new' & Ht' & HF & Hhd & Hr').
  rewrite Ht in Ht'. apply app_inv_head in Ht'. subst new'.
  exists new. split; [exact Ht|]. split; [exact Hh|]. split; [exact HF|].
  split; [exact Hhd|]. intros e. split; [apply Hr'|apply Hr].
Qed.

(** C5: when no more turns are needed than the data has bytes, and
    every [server.write_with_timeout] call the loop makes succeeds
    (reporting at least one byte and at most its buffer),
    [write_transport] returns, the byte counts reported by the calls add
    up to the length of the data, and the bytes the calls took, put
    together in call order, are the data. *)
Theorem C5_write_transport_drains
  (write_with_timeout : World -> option Z -> bytes -> option Q -> result Z * Q)
  (turns : nat) (data : bytes) (timeout_sec : option Q)
  (h : Handler) (w : World) (new : list event) :
  trace (snd (snd (write_transport write_with_timeout turns data timeout_sec (h, w))))
  = (trace w ++ new)%list ->
  forallb write_succeeds new = true ->
  (length data <= turns)%nat ->
  fst (write_transport write_with_timeout turns data timeout_sec (h, w)) = Ret tt
  /\ total_written new = Z.of_nat (length data)
  /\ delivered new = data.
Proof.
  intros Ht Hok Hlen. unfold write_transport in *. rewrite copy_bytes in *.
  cbn [app] in *.
  destruct (write_loop_spec write_with_timeout turns data timeout_sec h w)
    as (new' & _ & Ht' & _ & Hd).
  rewrite Ht' in Ht. apply app_inv_head in Ht. subst new'. by apply Hd.
Qed.

(** ** Rules for running a method step by step *)

Lemma wp_bind {A B : Type} (c : M A) (k : A -> M B) (Q : result B -> State -> Prop) s :
  wp c (fun r s' => match r with
                    | Ret a => wp (k a) Q s'
                    | Raise e => Q (Raise e) s'
                    | Diverge => Q Diverge s'
                    end) s ->
  wp (bind c k) Q s.
Proof.
  unfold wp, bind. destruct (c s) as [[a|e|] s']; simpl; auto.
Qed.

Lemma wp_ret {A : Type} (a : A) (Q : result A -> State -> Prop) s :
  Q (Ret a) s -> wp (ret a) Q s.
Proof. auto. Qed.

Lemma wp_on_world (f : World -> World) (Q : result unit -> State -> Prop) h w :
  Q (Ret tt) (h, f w) -> wp (on_world f) Q (h, w).
Proof. auto. Qed.

Lemma wp_print (args : list printable) (Q : result unit -> State -> Prop) h w :
  Q (Ret tt) (h, emit (EvPrint args) w) -> wp (print args) Q (h, w).
Proof. auto. Qed.

Lemma wp_set_self (f : Handler -> Handler) (Q : result unit -> State -> Prop) h w :
  Q (Ret tt) (f h, w) -> wp (set_self f) Q (h, w).
Proof. auto. Qed.

Lemma wp_self_attr {A : Type} (f : Handler -> option A) (Q : result A -> State -> Prop) h w :
  match f h with
  | Some a => Q (Ret a) (h, w)
  | None => Q (Raise AttributeError) (h, w)
  end ->
  wp (self_attr f) Q (h, w).
Proof. unfold wp, self_attr. simpl. destruct (f h); auto. Qed.

Lemma wp_time_sleep (secs : Q) (Q0 : result unit -> State -> Prop) h w :
  Q0 (Ret tt) (h, emit (EvSleep secs) (with_clock (clock w + secs)%Q w)) ->
  wp (time_sleep secs) Q0 (h, w).
Proof. auto. Qed.

Lemma wp_os_mkfifo (p : string) (Q : result unit -> State -> Prop) h w :
  (p ∈ fs w -> Q (Raise (FileExistsError p)) (h, emit (EvMkfifo p) w)) ->
  (p ∉ fs w -> dir_writable w = false ->
   Q (Raise (PermissionError p)) (h, emit (EvMkfifo p) w)) ->
  (p ∉ fs w -> dir_writable w = true ->
   Q (Ret tt) (h, with_fs ({[ p ]} ∪ fs w) (emit (EvMkfifo p) w))) ->
  wp (os_mkfifo p) Q (h, w).
Proof.
  intros H1 H2 H3. unfold wp, os_mkfifo. cbn [fst snd fs emit with_trace dir_writable].
  destruct (decide (p ∈ fs w)); [auto|].
  destruct (dir_writable w) eqn:Hd; cbn [fst snd]; auto.
Qed.

Lemma wp_try_except {A : Type} (c : M A) (handler : exn -> M A)
      (Q : result A -> State -> Prop) s :
  wp c (fun r s' => match r with
                    | Raise e => wp (handler e) Q s'
                    | _ => Q r s'
                    end) s ->
  wp (try_except c handler) Q s.
Proof.
  unfold wp, try_except. destruct (c s) as [[a|e|] s']; simpl; auto.
Qed.

Lemma wp_os_open (p : string) (Q : result Z -> State -> Prop) h w :
  (p ∈ fs w ->
   Q (Ret (next_fd w))
     (h, emit (EvOpen p (next_fd w))
           (with_fds (<[ next_fd w := p ]> (fds w)) (next_fd w + 1)%Z w))) ->
  (p ∉ fs w -> Q (Raise (FileNotFoundError p)) (h, w)) ->
  wp (os_open p) Q (h, w).
Proof.
  intros H1 H2. unfold wp, os_open. cbn [fst snd].
  destruct (decide (p ∈ fs w)); cbn [fst snd]; auto.
Qed.

Lemma wp_input (prompt : string) (Q : result string -> State -> Prop) h w :
  (forall line rest, terminal w = line :: rest ->
     Q (Ret line) (h, with_terminal rest (emit (EvInput prompt) w))) ->
  (terminal w = [] -> Q (Raise EOFError) (h, emit (EvInput prompt) w)) ->
  wp (input prompt) Q (h, w).
Proof.
  intros H1 H2. unfold wp, input. cbn [fst snd terminal emit with_trace].
  destruct (terminal w) as [|line rest]; cbn [fst snd]; auto.
Qed.

Lemma wp_Popen (argv : list pyval) (Q : result Z -> State -> Prop) h w :
  (forall e, e = TypeError \/ e = IndexError \/ (exists p, e = FileNotFoundError p) ->
             Q (Raise e) (h, w)) ->
  Q (Ret (next_pid w))
    (h, emit (EvPopen argv (next_pid w))
          (with_procs
             (<[ next_pid w :=
                   {| status := Running;
                      stdout := map (fun dl => ((clock w + fst dl)%Q, snd dl))
                                    (engine_output w);
                      stdout_closes := engine_closes w |} ]> (procs w))
             (next_pid w + 1)%Z w)) ->
  wp (Popen argv) Q (h, w).
Proof.
  intros H1 H2. unfold wp, Popen. cbn [fst snd].
  destruct (negb (forallb is_str argv)); [apply H1; auto|].
  destruct argv as [|[| | |exe] argv]; try (apply H1; auto).
  destruct (decide (exe ∈ installed w)); [exact H2 | apply H1; eauto].
Qed.

Lemma wp_Popen_cases (argv : list pyval) (Q : result Z -> State -> Prop) h w :
  (launchable argv w = false ->
   forall e, e = TypeError \/ e = IndexError \/ (exists p, e = FileNotFoundError p) ->
             Q (Raise e) (h, w)) ->
  (launchable argv w = true ->
   Q (Ret (next_pid w))
     (h, emit (EvPopen argv (next_pid w))
           (with_procs
              (<[ next_pid w :=
                    {| status := Running;
                       stdout := map (fun dl => ((clock w + fst dl)%Q, snd dl))
                                     (engine_output w);
                       stdout_closes := engine_closes w |} ]> (procs w))
              (next_pid w + 1)%Z w))) ->
  wp (Popen argv) Q (h, w).
Proof.
  intros H1 H2. unfold wp, Popen, launchable in *. cbn [fst snd].
  destruct (forallb is_str argv); cbn [negb andb] in *; [|apply H1; auto].
  destruct argv as [|[| | |exe] argv]; try (apply H1; auto).
  destruct (decide (exe ∈ installed w)) as [Hi|Hi].
  - apply H2. now apply bool_decide_eq_true.
  - apply H1; [now apply bool_decide_eq_false|eauto].
Qed.

(** ** What the watcher and the wait leave alone *)

Lemma keeps_refl s : keeps_session s s.
Proof. repeat split. Qed.

Lemma keeps_trans s1 s2 s3 :
  keeps_session s1 s2 -> keeps_session s2 s3 -> keeps_session s1 s3.
Proof.
  unfold keeps_session. intros (?&?&?&?&?&?) (?&?&?&?&?&?).
  repeat split; congruence.
Qed.

Lemma statuses_set_stdout (rest : list (Q * bytes)) (pid : Z) (m : gmap Z process) :
  status <$> alter (set_stdout rest) pid m = status <$> m.
Proof.
  rewrite (fmap_alter status (set_stdout rest) id); [|reflexivity].
  apply alter_id. reflexivity.
Qed.

Lemma check_lines_keeps (pid : Z) (closes : bool) (lines : list (Q * bytes)) :
  forall s, keeps_session s (snd (check_lines pid closes lines s)).
Proof.
  induction lines as [|[t raw] rest IH]; intros [h w].
  - simpl. destruct closes; apply keeps_refl.
  - assert (Hn : keeps_session (h, w)
                   (h, with_procs (alter (set_stdout rest) pid (procs w)) (next_pid w)
                         (with_clock (py_max (clock w) t) w))).
    { repeat split. unfold statuses. simpl. apply statuses_set_stdout. }
    simpl. unfold bind at 1. simpl. unfold bind at 1. unfold str_utf8.
    destruct (py_str_utf8 raw) as [u|]; simpl; [|exact Hn].
    unfold bind at 1. simpl.
    destruct (py_contains (lit "RW-") u).
    + simpl. exact Hn.
    + unfold bind at 1. simpl.
      eapply keeps_trans; [exact Hn|].
      match goal with |- context [check_lines _ _ _ ?s'] =>
        eapply keeps_trans; [|apply (IH s')] end.
      repeat split.
Qed.

Lemma watcher_keeps (s : State) : keeps_session s (snd (_fvp_check_stdout s)).
Proof.
  unfold _fvp_check_stdout, bind, proc_stdout.
  destruct (_proc (fst s)) as [pid|]; simpl; [|apply keeps_refl].
  destruct (procs (snd s) !! pid) as [p|]; simpl; [|apply keeps_refl].
  pose proof (check_lines_keeps pid (stdout_closes p) (stdout p) s) as Hk.
  destruct (check_lines pid (stdout_closes p) (stdout p) s) as [[[]| |] s1]; simpl in *;
    exact Hk.
Qed.

Lemma thread_start_watcher (h : Handler) (w : World) :
  let r := thread_start _fvp_check_stdout (h, w) in
  fst r = Ret tt
  /\ keeps_session (h, w) (snd r)
  /\ trace (snd (snd r)) = (trace w ++ [EvThreadStart])%list
  /\ clock (snd (snd r)) = clock w.
Proof.
  unfold thread_start. cbn [fst snd].
  set (s0 := (h, with_trace (thread_trace (emit EvThreadStart w)) (emit EvThreadStart w))).
  pose proof (watcher_keeps s0) as (?&?&?&?&?&?).
  repeat split; assumption.
Qed.

Lemma wait_loop_spec (turns : nat) :
  forall s, (length (_queue (fst s)) < turns)%nat ->
  exists new : list event,
    keeps_session s (snd (wait_loop turns s))
    /\ trace (snd (snd (wait_loop turns s))) = (trace (snd s) ++ new)%list
    /\ forallb is_print new = true
    /\ (fst (wait_loop turns s) = Ret tt
        \/ fst (wait_loop turns s) = Raise (TimeoutError "FVP setup timeout.")).
Proof.
  induction turns as [|n IH]; intros [h w] Hlen; [simpl in Hlen; lia|].
  cbn [wait_loop]. unfold bind, try_except, queue_get, print, on_world, ret, raise.
  cbn [fst snd] in *.
  destruct (_queue h) as [|[t item] q] eqn:Hq.
  - exists []. rewrite app_nil_r. repeat split; auto.
  - destruct (Qle_bool t (clock w + 120)) eqn:Hdue.
    + destruct (py_eq item (PBool true)).
      * exists [EvPrint [PrStr "item"; PrVal item]]. repeat split; auto.
      * match goal with |- context [wait_loop n ?s'] =>
          destruct (IH s') as (new & Hk & Ht & Hp & Hr) end.
        { simpl in *. lia. }
        exists (EvPrint [PrStr "item"; PrVal item] :: new).
        split; [|split; [|split]].
        -- destruct Hk as (?&?&?&?&?&?). repeat split; assumption.
        -- rewrite Ht. simpl. by rewrite <- app_assoc.
        -- exact Hp.
        -- exact Hr.
    + exists []. rewrite app_nil_r. repeat split; auto.
Qed.

Lemma wait_for_fvp_spec (s : State) :
  exists new : list event,
    keeps_session s (snd (_wait_for_fvp s))
    /\ trace (snd (snd (_wait_for_fvp s))) = (trace (snd s) ++ new)%list
    /\ forallb is_print new = true
    /\ (fst (_wait_for_fvp s) = Ret tt
        \/ fst (_wait_for_fvp s) = Raise (TimeoutError "FVP setup timeout.")).
Proof. unfold _wait_for_fvp. apply wait_loop_spec. lia. Qed.


Lemma wp_thread_watcher (Q : result unit -> State -> Prop) h w :
  (forall h' w', keeps_session (h, w) (h', w') ->
                 trace w' = (trace w ++ [EvThreadStart])%list ->
                 Q (Ret tt) (h', w')) ->
  wp (thread_start _fvp_check_stdout) Q (h, w).
Proof.
  intros HQ. unfold wp.
  destruct (thread_start_watcher h w) as (Hr & Hk & Ht & _).
  destruct (thread_start _fvp_check_stdout (h, w)) as [r [h' w']].
  simpl in *. subst r. by apply HQ.
Qed.

Lemma wp_wait_for_fvp (Q : result unit -> State -> Prop) h w :
  (forall r h' w' new,
     r = Ret tt \/ r = Raise (TimeoutError "FVP setup timeout.") ->
     keeps_session (h, w) (h', w') ->
     trace w' = (trace w ++ new)%list ->
     forallb is_print new = true ->
     Q r (h', w')) ->
  wp _wait_for_fvp Q (h, w).
Proof.
  intros HQ. unfold wp.
  destruct (wait_for_fvp_spec (h, w)) as (new & Hk & Ht & Hp & Hr).
  destruct (_wait_for_fvp (h, w)) as [r [h' w']].
  simpl in *. by apply (HQ r h' w' new).
Qed.

Lemma session_kept_keeps s s' :
  keeps_session s s' -> session_kept s -> session_kept s'.
Proof.
  intros (H1&H2&H3&H4&_) (pid & rfd & wfd & G1 & G3 & G4 & G5 & G6).
  exists pid, rfd, wfd. rewrite H1, H2, H3, H4. auto 10.
Qed.

Ltac wp_simpl :=
  cbv beta iota;
  cbn [pipe_dir write_pipe read_pipe _proc read_fd write_fd _queue
       set_pipe_dir set_write_pipe set_read_pipe set_read_fd set_write_fd set_proc
       set_queue
       fs dir_writable fds next_fd terminal installed procs next_pid clock trace
       thread_trace engine_output engine_closes
       emit with_trace with_fs with_fds with_terminal with_procs with_clock
       with_thread_trace].

Ltac wp_step :=
  lazymatch goal with
  | |- wp (bind _ _) _ _ => apply wp_bind
  | |- wp (print _) _ (_, _) => apply wp_print
  | |- wp (set_self _) _ (_, _) => apply wp_set_self
  | |- wp (time_sleep _) _ (_, _) => apply wp_time_sleep
  | |- wp (ret _) _ _ => apply wp_ret
  | |- wp (self_attr _) _ (_, _) => apply wp_self_attr
  | |- wp (try_except _ _) _ _ => apply wp_try_except
  | |- wp (os_mkfifo _) _ (_, _) => apply wp_os_mkfifo; intros
  | |- wp (os_open _) _ (_, _) => apply wp_os_open; intros
  | |- wp (input _) _ (_, _) => apply wp_input; intros
  | |- wp (Popen _) _ (_, _) => apply wp_Popen; [intros ? ?|]
  | |- wp (thread_start _fvp_check_stdout) _ (_, _) =>
      apply wp_thread_watcher; intros
  | |- wp _wait_for_fvp _ (_, _) => apply wp_wait_for_fvp; intros
  end;
  wp_simpl.

Ltac world_simpl :=
  change (path_join "/tmp" "fifo.out") with "/tmp/fifo.out" in *;
  change (path_join "/tmp" "fifo.in") with "/tmp/fifo.in" in *;
  cbn [fs dir_writable fds next_fd terminal installed procs next_pid clock trace
       thread_trace engine_output engine_closes
       emit with_trace with_fs with_fds with_terminal with_procs with_clock
       with_thread_trace fst snd] in *.

(** ** Opening *)

Lemma returns_only_bind {A B : Type} (c : M A) (k : A -> M B) (v : B) :
  (forall a, returns_only (k a) v) -> returns_only (bind c k) v.
Proof.
  intros Hk s b. unfold bind. destruct (c s) as [[a|e|] s'] eqn:Hc; simpl.
  - apply Hk.
  - discriminate.
  - discriminate.
Qed.

Lemma returns_only_ret {A : Type} (v : A) : returns_only (ret v) v.
Proof. intros s a Ha. simpl in Ha. congruence. Qed.

(** C7: whenever [open_transport] returns, it returns the three
    timeouts [session_start_retry_timeout_sec],
    [session_start_timeout_sec] and [session_established_timeout_sec],
    all of them the same fixed value [0], which is not negative. *)
Theorem C7_open_returns_equal_timeouts
  (PROJECT_DIR : string) (options : gmap string pyval) (s : State)
  (t : TransportTimeouts) :
  fst (open_transport PROJECT_DIR options s) = Ret t ->
  session_start_retry_timeout_sec t = 0%Z
  /\ session_start_timeout_sec t = 0%Z
  /\ session_established_timeout_sec t = 0%Z
  /\ (0 <= 0)%Z.
Proof.
  intros Hret.
  assert (Ht : t = {| session_start_retry_timeout_sec := 0;
                      session_start_timeout_sec := 0;
                      session_established_timeout_sec := 0 |}).
  { revert s t Hret. change (returns_only (open_transport PROJECT_DIR options)
      {| session_start_retry_timeout_sec := 0;
         session_start_timeout_sec := 0;
         session_established_timeout_sec := 0 |}).
    unfold open_transport.
    repeat (apply returns_only_bind; intros ?). apply returns_only_ret. }
  subst t. simpl. repeat split; lia.
Qed.

Lemma keeps_emit (e : event) s h w :
  keeps_session s (h, w) -> keeps_session s (h, emit e w).
Proof. intros (?&?&?&?&?&?). repeat split; assumption. Qed.

(** ** Pipe creation *)

Lemma os_mkfifo_raises (p : string) (e : exn) (h : Handler) (w : World) :
  fst (os_mkfifo p (h, w)) = Raise e ->
  (p ∈ fs w /\ e = FileExistsError p)
  \/ ((p ∉ fs w) /\ dir_writable w = false /\ e = PermissionError p).
Proof.
  unfold os_mkfifo. cbn [fst snd fs emit with_trace dir_writable].
  destruct (decide (p ∈ fs w)); cbn [fst].
  - intros [= <-]. auto.
  - destruct (dir_writable w); cbn [fst]; intros H; [discriminate H|].
    injection H as <-. auto.
Qed.

Ltac fs_contra :=
  exfalso;
  repeat match goal with
         | H : _ ∉ _ ∪ _ |- _ => apply not_elem_of_union in H; destruct H
         | H : _ ∈ _ ∪ _ |- _ => apply elem_of_union in H; destruct H
         | H : _ ∈ {[ _ ]} |- _ => apply elem_of_singleton in H; discriminate H
         end;
  first [ contradiction
        | match goal with
          | H : ?p ∉ {[ ?p ]} |- _ =>
              apply H; apply elem_of_singleton; reflexivity
          end ].

Ltac trace_norm :=
  world_simpl;
  repeat match goal with
         | H : trace ?w' = _ |- context [trace ?w'] => rewrite H
         end;
  rewrite <- ?app_assoc; cbn [app].

Lemma open_transport_read_pipe_fails
  (PROJECT_DIR : string) (options : gmap string pyval) (h : Handler) (w : World)
  (e : exn) :
  fst (os_mkfifo "/tmp/fifo.out" (h, w)) = Raise e ->
  wp (open_transport PROJECT_DIR options)
     (fun r s' =>
        r = Raise e
        /\ _proc (fst s') = _proc h /\ read_fd (fst s') = read_fd h
        /\ write_fd (fst s') = write_fd h
        /\ fds (snd s') = fds w /\ procs (snd s') = procs w
        /\ last (trace (snd s')) = Some (EvMkfifo "/tmp/fifo.out"))
     (h, w).
Proof.
  intros He. apply os_mkfifo_raises in He.
  unfold open_transport.
  repeat wp_step.
  all: world_simpl.
  all: destruct He as [[Hin ->] | (Hnin & Hw & ->)].
  all: try fs_contra.
  all: try congruence.
  all: repeat split; try reflexivity; apply last_snoc.
Qed.

Lemma open_transport_write_pipe_fails
  (PROJECT_DIR : string) (options : gmap string pyval) (h : Handler) (w : World)
  (e : exn) :
  fst (os_mkfifo "/tmp/fifo.in" (h, w)) = Raise e ->
  wp (open_transport PROJECT_DIR options)
     (fun r s' =>
        r <> Raise e
        /\ exists rest,
            trace (snd s')
            = (trace w ++ open_preamble PROJECT_DIR options
               ++ [EvMkfifo "/tmp/fifo.in"; EvPrint [PrStr "eee"]; EvSleep 60;
                   EvPrint [PrStr "44"]; EvMkfifo "/tmp/fifo.out"]
               ++ rest)%list)
     (h, w).
Proof.
  intros He. apply os_mkfifo_raises in He.
  unfold open_transport.
  repeat wp_step.
  all: repeat match goal with
              | H : _ = Ret tt \/ _ = Raise _ |- _ => destruct H as [->| ->]; wp_simpl
              | |- wp (ret _) _ _ => wp_step
              end.
  all: destruct He as [[Hin ->] | (Hnin & Hw & ->)].
  all: world_simpl.
  all: try fs_contra.
  all: try congruence.
  all: (split;
        [ try discriminate;
          try (intros [= ->];
               match goal with H : _ \/ _ |- _ => destruct H as [H|[H|[? H]]]; discriminate H end)
        | trace_norm; unfold open_preamble; cbn [app]; eexists; reflexivity ]).
Qed.

(** C1 (as the code has it): a failure to create the target-to-host
    pipe [/tmp/fifo.out] reaches the caller as the exception of
    [os.mkfifo], and nothing follows that call: no descriptor is
    opened and no process launched.  A failure to create the
    host-to-target pipe [/tmp/fifo.in] is caught inside
    [open_transport]: it is never the exception of [open_transport],
    which prints, sleeps 60 seconds and goes on to create the other
    pipe. *)
Theorem C1_pipe_creation_failure
  (PROJECT_DIR : string) (options : gmap string pyval) (h : Handler) (w : World)
  (e : exn) :
  let r := open_transport PROJECT_DIR options (h, w) in
  (fst (os_mkfifo "/tmp/fifo.out" (h, w)) = Raise e ->
   fst r = Raise e
   /\ _proc (fst (snd r)) = _proc h
   /\ read_fd (fst (snd r)) = read_fd h
   /\ write_fd (fst (snd r)) = write_fd h
   /\ fds (snd (snd r)) = fds w
   /\ procs (snd (snd r)) = procs w
   /\ last (trace (snd (snd r))) = Some (EvMkfifo "/tmp/fifo.out"))
  /\ (fst (os_mkfifo "/tmp/fifo.in" (h, w)) = Raise e ->
      fst r <> Raise e
      /\ exists rest,
          trace (snd (snd r))
          = (trace w ++ open_preamble PROJECT_DIR options
             ++ [EvMkfifo "/tmp/fifo.in"; EvPrint [PrStr "eee"]; EvSleep 60;
                 EvPrint [PrStr "44"]; EvMkfifo "/tmp/fifo.out"]
             ++ rest)%list).
Proof.
  intros r. split; intros He.
  - apply (open_transport_read_pipe_fails PROJECT_DIR options h w e He).
  - apply (open_transport_write_pipe_fails PROJECT_DIR options h w e He).
Qed.

(** ** The prompt *)

Lemma filter_prints (f : event -> bool) (l : list event) :
  (forall e, is_print e = true -> f e = false) ->
  forallb is_print l = true -> List.filter f l = [].
Proof.
  intros Hf. induction l as [|e l IH]; [reflexivity|]. simpl.
  intros H. apply andb_true_iff in H as [He Hl].
  rewrite (Hf e He). auto.
Qed.

Lemma filter_input_prints (l : list event) :
  forallb is_print l = true -> List.filter is_input l = [].
Proof. apply filter_prints. intros []; (discriminate || reflexivity). Qed.

Lemma filter_popen_prints (l : list event) :
  forallb is_print l = true -> List.filter is_popen l = [].
Proof. apply filter_prints. intros []; (discriminate || reflexivity). Qed.

Lemma filter_teardown_prints (l : list event) :
  forallb is_print l = true -> List.filter is_teardown l = [].
Proof. apply filter_prints. intros []; (discriminate || reflexivity). Qed.

Lemma open_transport_prompt_cases
  (PROJECT_DIR : string) (options : gmap string pyval) (h : Handler) (w : World) :
  wp (open_transport PROJECT_DIR options)
     (fun r s' =>
        exists new,
          trace (snd s') = (trace w ++ new)%list
          /\ ((existsb (is_open_of "/tmp/fifo.in") new = false
               /\ List.filter is_input new = []
               /\ List.filter is_popen new = []
               /\ (exists e, r = Raise e)
               /\ terminal (snd s') = terminal w
               /\ _proc (fst s') = _proc h /\ procs (snd s') = procs w)
              \/ (exists after,
                    new = (events_before_prompt PROJECT_DIR options w
                           ++ EvInput ">>" :: after)%list
                    /\ List.filter is_input after = []
                    /\ terminal (snd s') = tail (terminal w)
                    /\ (terminal w = [] ->
                        r = Raise EOFError
                        /\ List.filter is_popen after = []
                        /\ _proc (fst s') = _proc h /\ procs (snd s') = procs w))))
     (h, w).
Proof.
  unfold open_transport.
  repeat wp_step.
  all: repeat match goal with
              | H : _ = Ret tt \/ _ = Raise _ |- _ => destruct H as [->| ->]; wp_simpl
              | |- wp (ret _) _ _ => wp_step
              end.
  all: world_simpl.
  all: try (fs_contra; fail).
  all: try solve [ eexists; split; [rewrite <- ?app_assoc; cbn [app]; reflexivity|];
                   left; cbn [existsb is_open_of List.filter is_input is_popen];
                   repeat split; try reflexivity; eauto ].
  all: repeat match goal with
              | H : keeps_session _ _ |- _ =>
                  destruct H as (_ & _ & _ & _ & _ & H); world_simpl
              end.
  all: match goal with
       | H : terminal _ = _ :: _ |- _ => rewrite H in *
       | H : terminal _ = [] |- _ => rewrite H in *
       end.
  all: trace_norm; eexists; (split; [reflexivity|]); right.
  all: unfold events_before_prompt, open_preamble;
       destruct (decide ("/tmp/fifo.in" ∈ fs w)); try contradiction;
       cbn [app]; eexists; (split; [reflexivity|]).
  all: (split; [|split]);
       [ cbn [List.filter is_input app];
         rewrite ?List.filter_app, ?filter_input_prints by assumption; reflexivity
       | cbn [tail]; congruence
       | intros Hnil; try discriminate Hnil; repeat split; reflexivity ].
Qed.

(** ** The launch *)

Lemma open_transport_launches
  (PROJECT_DIR : string) (options : gmap string pyval) (h : Handler) (w : World) :
  wp (open_transport PROJECT_DIR options)
     (fun r s' =>
        exists new, trace (snd s') = (trace w ++ new)%list
                    /\ (List.filter is_popen new = []
                        \/ exists pid,
                             List.filter is_popen new
                             = [EvPopen (ovpsim_command options) pid]))
     (h, w).
Proof.
  unfold open_transport.
  repeat wp_step.
  all: repeat match goal with
              | H : _ = Ret tt \/ _ = Raise _ |- _ => destruct H as [->| ->]; wp_simpl
              | |- wp (ret _) _ _ => wp_step
              end.
  all: trace_norm; eexists; (split; [reflexivity|]).
  all: cbn [List.filter is_popen app];
       rewrite ?List.filter_app, ?filter_popen_prints by assumption;
       cbn [List.filter is_popen app]; eauto.
Qed.

Lemma open_transport_launch_cases
  (PROJECT_DIR : string) (options : gmap string pyval) (h : Handler) (w : World) :
  wp (open_transport PROJECT_DIR options)
     (fun r s' =>
        exists new,
          trace (snd s') = (trace w ++ new)%list
          /\ List.filter is_teardown new = []
          /\ (List.filter is_popen new = []
              \/ (List.filter is_popen new
                  = [EvPopen (ovpsim_command options) (next_pid w)]
                  /\ reaches_launch options w
                  /\ _proc (fst s') = Some (next_pid w)
                  /\ session_kept s'))
          /\ (forall m, r = Raise (TimeoutError m) ->
                        m = "FVP setup timeout." /\ List.filter is_popen new <> []))
     (h, w).
Proof.
  unfold open_transport.
  repeat (lazymatch goal with
          | |- wp (Popen _) _ (_, _) => apply wp_Popen_cases; [intros ? ? ?|intros ?]; wp_simpl
          | |- _ => wp_step
          end).
  all: repeat match goal with
              | H : _ = Ret tt \/ _ = Raise _ |- _ => destruct H as [->| ->]; wp_simpl
              | |- wp (ret _) _ _ => wp_step
              end.
  all: world_simpl.
  all: try (fs_contra; fail).
  all: trace_norm; eexists; (split; [reflexivity|]).
  all: (split; [cbn [List.filter is_teardown app];
                rewrite ?List.filter_app, ?filter_teardown_prints by assumption;
                reflexivity|]).
  all: cbn [List.filter is_popen app];
       rewrite ?List.filter_app, ?filter_popen_prints by assumption;
       cbn [List.filter is_popen app].
  all: (split;
        [|intros m Hm;
          first [ discriminate Hm
                | match goal with
                  | H : _ \/ _ |- _ => destruct H as [H|[H|[? H]]]; subst; discriminate Hm
                  end
                | injection Hm as <-; (split; [reflexivity|discriminate]) ]]).
  all: try (left; reflexivity).
  all: right; (split; [reflexivity|]).
  all: split;
       [ repeat split; try assumption; try congruence;
         intros Hin;
         match goal with
         | Hn : _ ∉ _ ∪ _ |- _ => apply Hn; apply elem_of_union; right; exact Hin
         end |].
  all: match goal with
       | Hk1 : keeps_session _ (?h1, ?w1), Hk2 : keeps_session (?h1, emit _ ?w1) _ |- _ =>
           pose proof (keeps_trans _ _ _ (keeps_emit _ _ _ _ Hk1) Hk2) as Hk
       end.
  all: split;
       [ destruct Hk as (Hp & _); cbn [fst _proc set_proc] in Hp; congruence
       | apply (session_kept_keeps _ _ Hk);
         exists (next_pid w), (next_fd w), (next_fd w + 1)%Z;
         world_simpl; wp_simpl;
         rewrite lookup_insert_eq;
         rewrite lookup_insert_ne by lia; rewrite lookup_insert_eq;
         repeat split; reflexivity ].
Qed.

(** C9: the vector built for the engine is, in this order, the
    executable, the flags for CPU variant and processor name, the two
    feature-extension overrides, the unaligned-access override, the
    exit-error override, the finish-on-opcode condition, the program
    path, and last the user's extra argument, verbatim, when there is
    one; and a run of [open_transport] launches nothing but this
    vector. *)
Theorem C9_argument_vector_order
  (PROJECT_DIR : string) (options : gmap string pyval) (h : Handler) (w : World) :
  ovpsim_command options =
    ([options_get options "ovpsim_exe" PNone]
     ++ [PStr "--variant"; PStr "CV32E40P"; PStr "--processorname"; PStr "CVE4P"]
     ++ [PStr "--override";
         PStr "riscvOVPsim/cpu/extension_CVE4P/mcountinhibit_reset=0";
         PStr "--override"; PStr "riscvOVPsim/cpu/add_Extensions=MC"]
     ++ [PStr "--override"; PStr "riscvOVPsim/cpu/unaligned=T"]
     ++ [PStr "--override"; PStr "riscvOVPsim/cpu/pk/reportExitErrors=T"]
     ++ [PStr "--finishonopcode"; PStr "0"]
     ++ [PStr "--program"; PStr "build/main"]
     ++ user_extra options)%list
  /\ exists new,
      trace (snd (snd (open_transport PROJECT_DIR options (h, w)))) = (trace w ++ new)%list
      /\ (List.filter is_popen new = []
          \/ exists pid,
               List.filter is_popen new = [EvPopen (ovpsim_command options) pid]).
Proof.
  split; [|apply (open_transport_launches PROJECT_DIR options h w)].
  unfold ovpsim_command, user_extra, options_get.
  destruct (options !! "ovpsim_extra_args") as [v|]; [|reflexivity].
  destruct v as [|b|z|s]; try reflexivity.
  destruct s as [|a s]; reflexivity.
Qed.

(** ** A launch that is not followed by the signal *)

Lemma Popen_launchable (argv : list pyval) (h : Handler) (w : World) :
  launchable argv w = true ->
  Popen argv (h, w)
  = (Ret (next_pid w),
     (h, emit (EvPopen argv (next_pid w))
           (with_procs
              (<[ next_pid w :=
                    {| status := Running;
                       stdout := map (fun dl => ((clock w + fst dl)%Q, snd dl))
                                     (engine_output w);
                       stdout_closes := engine_closes w |} ]> (procs w))
              (next_pid w + 1)%Z w))).
Proof.
  unfold launchable, Popen. intros H. apply andb_true_iff in H as [Hs He].
  cbn [fst snd]. rewrite Hs. cbn [negb].
  destruct argv as [|[| | |exe] argv]; try discriminate He.
  apply bool_decide_eq_true in He.
  destruct (decide (exe ∈ installed w)); [reflexivity|contradiction].
Qed.

Lemma check_lines_signal (pid : Z) (closes : bool) (lines : list (Q * bytes)) :
  forall h w,
    _queue (fst (snd (check_lines pid closes lines (h, w))))
    = (_queue h ++ match signal (clock w) lines with
                   | Some t => [(t, PBool true)]
                   | None => []
                   end)%list.
Proof.
  induction lines as [|[t raw] rest IH]; intros h w.
  - simpl. rewrite app_nil_r. by destruct closes.
  - cbn [check_lines signal]. unfold bind at 1. cbn [next_line on_world fst snd].
    unfold bind at 1. unfold str_utf8.
    destruct (py_str_utf8 raw) as [u|]; cbn [ret raise fst snd];
      [|by rewrite app_nil_r].
    unfold bind at 1. cbn [_LOG_info on_world fst snd].
    destruct (py_contains (lit "RW-") u).
    + reflexivity.
    + unfold bind at 1. cbn [print on_world fst snd].
      match goal with |- context [check_lines _ _ _ (?h', ?w')] =>
        rewrite (IH h' w') end.
      reflexivity.
Qed.

Lemma thread_start_signal (h : Handler) (w : World) (pid : Z) (p : process) :
  _proc h = Some pid ->
  procs w !! pid = Some p ->
  _queue (fst (snd (thread_start _fvp_check_stdout (h, w))))
  = (_queue h ++ match signal (clock w) (stdout p) with
                 | Some t => [(t, PBool true)]
                 | None => []
                 end)%list.
Proof.
  intros Hp Hl. unfold thread_start, _fvp_check_stdout. cbn [fst snd].
  unfold bind at 1. unfold proc_stdout. cbn [fst snd emit with_trace procs].
  rewrite Hp, Hl. cbn [fst snd].
  pose proof (check_lines_signal pid (stdout_closes p) (stdout p) h
                (with_trace (thread_trace w) (with_trace (trace w ++ [EvThreadStart]) w)))
    as Hq.
  cbn [clock with_trace] in Hq.
  unfold bind.
  destruct (check_lines pid (stdout_closes p) (stdout p) _) as [[[]| |] [h1 w1]];
    exact Hq.
Qed.

Lemma wp_thread_signal (Q : result unit -> State -> Prop) h w pid p :
  _proc h = Some pid ->
  procs w !! pid = Some p ->
  (forall h' w',
     keeps_session (h, w) (h', w') ->
     clock w' = clock w ->
     _queue h' = (_queue h ++ match signal (clock w) (stdout p) with
                              | Some t => [(t, PBool true)]
                              | None => []
                              end)%list ->
     Q (Ret tt) (h', w')) ->
  wp (thread_start _fvp_check_stdout) Q (h, w).
Proof.
  intros Hp Hl HQ. unfold wp.
  pose proof (thread_start_signal h w pid p Hp Hl) as Hq.
  destruct (thread_start_watcher h w) as (Hr & Hk & _ & Hc).
  destruct (thread_start _fvp_check_stdout (h, w)) as [r [h' w']].
  simpl in *. subst r. by apply HQ.
Qed.



(** C6 (as the code has it): a run of [open_transport] either ends
    with an exception before it has opened [/tmp/fifo.in], and then it
    has read nothing from the terminal and launched nothing; or it has
    created and opened the pipes ([events_before_prompt], which opens
    both pipes and has no read of the terminal and no launch) and then
    calls [input(">>")]: it reads one line from the terminal, and reads
    no other; the engine is launched after that only, and at end of
    input [open_transport] fails with [EOFError] without launching
    anything. *)
Theorem C6_open_reads_terminal
  (PROJECT_DIR : string) (options : gmap string pyval) (h : Handler) (w : World) :
  let r := open_transport PROJECT_DIR options (h, w) in
  let before := events_before_prompt PROJECT_DIR options w in
  (exists new,
     trace (snd (snd r)) = (trace w ++ new)%list
     /\ ((existsb (is_open_of "/tmp/fifo.in") new = false
          /\ List.filter is_input new = []
          /\ List.filter is_popen new = []
          /\ (exists e, fst r = Raise e)
          /\ terminal (snd (snd r)) = terminal w
          /\ _proc (fst (snd r)) = _proc h /\ procs (snd (snd r)) = procs w)
         \/ (exists after,
               new = (before ++ EvInput ">>" :: after)%list
               /\ List.filter is_input after = []
               /\ terminal (snd (snd r)) = tail (terminal w)
               /\ (terminal w = [] ->
                   fst r = Raise EOFError
                   /\ List.filter is_popen after = []
                   /\ _proc (fst (snd r)) = _proc h
                   /\ procs (snd (snd r)) = procs w))))
  /\ existsb (is_open_of "/tmp/fifo.out") before = true
  /\ existsb (is_open_of "/tmp/fifo.in") before = true
  /\ List.filter is_input before = []
  /\ List.filter is_popen before = [].
Proof.
  intros r before.
  split; [exact (open_transport_prompt_cases PROJECT_DIR options h w)|].
  unfold before, events_before_prompt.
  destruct (decide ("/tmp/fifo.in" ∈ fs w)); repeat split; reflexivity.
Qed.

(** ** The methods run on concrete machines *)

Example utf8_two_bytes : py_str_utf8 [xc3; xa9; x52] = Some [233; 82]%Z.
Proof. reflexivity. Qed.

Example utf8_truncated : py_str_utf8 [xc3; x52] = None.
Proof. reflexivity. Qed.

Example utf8_surrogate : py_str_utf8 [xed; xa0; x80] = None.
Proof. reflexivity. Qed.

Example marker_in_line :
  option_map (py_contains (lit "RW-"))
             (py_str_utf8 (ascii_bytes "0x00000000 0x0001ffff RW- 1")) = Some true.
Proof. reflexivity. Qed.

Example slice_negative : py_slice_from (-1) [x01; x02; x03] = [x03].
Proof. reflexivity. Qed.

Example open_on_fresh_machine :
  let r := open_transport project_dir default_options (init, w_fresh) in
  fst r = Ret {| session_start_retry_timeout_sec := 0;
                 session_start_timeout_sec := 0;
                 session_established_timeout_sec := 0 |}
  /\ _proc (fst (snd r)) = Some 100%Z
  /\ read_fd (fst (snd r)) = Some 3%Z
  /\ write_fd (fst (snd r)) = Some 4%Z
  /\ _queue (fst (snd r)) = []
  /\ List.filter is_popen (trace (snd (snd r)))
     = [EvPopen (ovpsim_command default_options) 100].
Proof. vm_compute. repeat split; reflexivity. Qed.

Example two_markers_one_signal :
  let r := thread_start _fvp_check_stdout
             (set_proc (Some 100%Z) init,
              snd (snd (Popen (ovpsim_command default_options) (init, w_twice)))) in
  _queue (fst (snd r)) = [(1%Q, PBool true)].
Proof. vm_compute. reflexivity. Qed.

Example close_after_open :
  let opened := snd (open_transport project_dir default_options (init, w_fresh)) in
  let closed := close_transport opened in
  fst closed = Ret tt
  /\ _proc (fst (snd closed)) = None
  /\ statuses (snd (snd closed)) !! 100%Z = Some Exited
  /\ read_fd (fst (snd closed)) = Some 3%Z.
Proof. vm_compute. repeat split; reflexivity. Qed.

Example late_marker_times_out :
  signal_in_time 0 (engine_output w_late) = false
  /\ fst (open_transport project_dir default_options (init, w_late))
     = Raise (TimeoutError "FVP setup timeout.")
  /\ clock (snd (snd (open_transport project_dir default_options (init, w_late)))) = 120%Q.
Proof. vm_compute. repeat split; reflexivity. Qed.

Example await_ready_past_end_time :
  let r := _await_ready idle_select [3%Z] [] None (Some 5%Q)
             (init, with_clock 9%Q w_fresh) in
  fst r = Raise IoTimeoutError
  /\ trace (snd (snd r)) = [EvSelect [3%Z] [] [3%Z] (Some 0%Q)].
Proof. vm_compute. repeat split; reflexivity. Qed.

Example write_10000_in_chunks_of_256 :
  let data := repeat x41 (100 * 100) in
  let r := write_transport (chunked_write 256) (100 * 100) data None (init, w_fresh) in
  fst r = Ret tt
  /\ length (trace (snd (snd r))) = 40%nat
  /\ total_written (trace (snd (snd r))) = 10000%Z
  /\ delivered (trace (snd (snd r))) = data.
Proof. vm_compute. repeat split; reflexivity. Qed.

(** ** Instances of the theorems, and inputs on which a claim fails *)

(** A left-over [/tmp/fifo.in] makes the first [os.mkfifo] fail, and
    [open_transport] returns as if the pipe had been created. *)
Lemma C1_counterexample :
  fst (os_mkfifo "/tmp/fifo.in" (init, w_stale_in))
  = Raise (FileExistsError "/tmp/fifo.in")
  /\ fst (open_transport project_dir default_options (init, w_stale_in))
     = Ret {| session_start_retry_timeout_sec := 0;
              session_start_timeout_sec := 0;
              session_established_timeout_sec := 0 |}.
Proof. vm_compute. split; reflexivity. Qed.

Lemma C1_witness :
  fst (open_transport project_dir default_options (init, w_stale_out))
  = Raise (FileExistsError "/tmp/fifo.out")
  /\ fst (open_transport project_dir default_options (init, w_stale_in))
     <> Raise (FileExistsError "/tmp/fifo.in").
Proof.
  split.
  - apply (C1_pipe_creation_failure project_dir default_options init w_stale_out
             (FileExistsError "/tmp/fifo.out")).
    vm_compute. reflexivity.
  - apply (C1_pipe_creation_failure project_dir default_options init w_stale_in
             (FileExistsError "/tmp/fifo.in")).
    vm_compute. reflexivity.
Defined.



(** On a handler that was never opened, [write_transport] of no data
    returns normally, even over a channel that would refuse every
    call; and with data it makes its call, on no descriptor, and ends
    as the call ends. *)
Lemma C4_counterexample :
  _proc init = None /\ read_fd init = None /\ write_fd init = None
  /\ fst (write_transport closed_write 1 [] None (init, w_fresh)) = Ret tt
  /\ fst (write_transport closed_write 1 [] None (init, w_fresh))
     <> Raise TransportClosedError
  /\ fst (write_transport (chunked_write 4) 1 [x01] None (init, w_fresh)) = Ret tt
  /\ trace (snd (snd (write_transport (chunked_write 4) 1 [x01] None (init, w_fresh))))
     = [EvWriteWithTimeout None [x01] None (Ret 1%Z)].
Proof. vm_compute. repeat split; try reflexivity. discriminate. Qed.

Lemma C4_witness :
  fst (write_transport closed_write 1 [x01] None (init, w_fresh))
  = Raise TransportClosedError.
Proof.
  destruct (proj2 (proj2 (C4_transport_io_unchecked closed_read closed_write 1 0 [x01] None
                            init w_fresh)))
    as (new & Ht & _ & _ & Hhd & Hraise).
  apply Hraise.
  assert (Hnew : new = [EvWriteWithTimeout None [x01] None (Raise TransportClosedError)]).
  { vm_compute in Ht. symmetry. exact Ht. }
  rewrite Hnew. constructor. reflexivity.
Defined.

Lemma C5_witness :
  let data := [x01; x02; x03; x04; x05; x06; x07; x08; x09; x0a] in
  let new := [EvWriteWithTimeout None data None (Ret 4%Z);
              EvWriteWithTimeout None (skipn 4 data) None (Ret 4%Z);
              EvWriteWithTimeout None (skipn 8 data) None (Ret 2%Z)] in
  fst (write_transport (chunked_write 4) 10 data None (init, w_fresh)) = Ret tt
  /\ total_written new = 10%Z
  /\ delivered new = data.
Proof.
  intros data new.
  apply (C5_write_transport_drains (chunked_write 4) 10 data None init w_fresh new).
  - vm_compute. reflexivity.
  - vm_compute. reflexivity.
  - simpl. lia.
Defined.

(** On a fresh machine [open_transport] reads the line the terminal
    holds. *)
Lemma C6_counterexample :
  let r := open_transport project_dir default_options (init, w_fresh) in
  terminal w_fresh = [EmptyString]
  /\ terminal (snd (snd r)) = []
  /\ List.filter is_input (trace (snd (snd r))) = [EvInput ">>"].
Proof. vm_compute. repeat split; reflexivity. Qed.

Lemma C6_witness :
  let r := open_transport project_dir default_options (init, w_fresh) in
  exists after,
    trace (snd (snd r))
    = (events_before_prompt project_dir default_options w_fresh
       ++ EvInput ">>" :: after)%list
    /\ List.filter is_input after = [].
Proof.
  intros r.
  destruct (C6_open_reads_terminal project_dir default_options init w_fresh)
    as [(new & Ht & [(Hnone & _) | (after & Hnew & Hin & _)]) _].
  - exfalso. vm_compute in Ht. rewrite <- Ht in Hnone. vm_compute in Hnone.
    discriminate Hnone.
  - exists after. split; [|exact Hin].
    rewrite <- Hnew. exact Ht.
Defined.

Lemma C7_witness :
  let t := {| session_start_retry_timeout_sec := 0;
              session_start_timeout_sec := 0;
              session_established_timeout_sec := 0 |} in
  session_start_retry_timeout_sec t = 0%Z
  /\ session_start_timeout_sec t = 0%Z
  /\ session_established_timeout_sec t = 0%Z
  /\ (0 <= 0)%Z.
Proof.
  intros t.
  apply (C7_open_returns_equal_timeouts project_dir default_options (init, w_fresh) t).
  vm_compute. reflexivity.
Defined.

(** * Further properties of the transport *)

(** * Further properties of the transport *)

(** ** What the watcher and the wait leave alone on the machine *)

Lemma keeps_machine_refl s : keeps_machine s s.
Proof. repeat split. Qed.

Lemma keeps_machine_trans s1 s2 s3 :
  keeps_machine s1 s2 -> keeps_machine s2 s3 -> keeps_machine s1 s3.
Proof.
  unfold keeps_machine. intros (?&?&?&?&?&?&?) (?&?&?&?&?&?&?).
  repeat split; congruence.
Qed.

Lemma check_lines_keeps_machine (pid : Z) (closes : bool) (lines : list (Q * bytes)) :
  forall s, keeps_machine s (snd (check_lines pid closes lines s)).
Proof.
  induction lines as [|[t raw] rest IH]; intros [h w].
  - simpl. destruct closes; apply keeps_machine_refl.
  - simpl. unfold bind at 1. simpl. unfold bind at 1. unfold str_utf8.
    destruct (py_str_utf8 raw) as [u|]; simpl; [|repeat split].
    unfold bind at 1. simpl.
    destruct (py_contains (lit "RW-") u).
    + simpl. repeat split.
    + unfold bind at 1. simpl.
      match goal with |- context [check_lines _ _ _ ?s'] =>
        eapply keeps_machine_trans; [|apply (IH s')] end.
      repeat split.
Qed.

Lemma watcher_keeps_machine (s : State) : keeps_machine s (snd (_fvp_check_stdout s)).
Proof.
  unfold _fvp_check_stdout, bind, proc_stdout.
  destruct (_proc (fst s)) as [pid|]; simpl; [|apply keeps_machine_refl].
  destruct (procs (snd s) !! pid) as [p|]; simpl; [|apply keeps_machine_refl].
  pose proof (check_lines_keeps_machine pid (stdout_closes p) (stdout p) s) as Hk.
  destruct (check_lines pid (stdout_closes p) (stdout p) s) as [[[]| |] s1]; simpl in *;
    exact Hk.
Qed.

Lemma thread_start_keeps_machine (h : Handler) (w : World) :
  keeps_machine (h, w) (snd (thread_start _fvp_check_stdout (h, w))).
Proof.
  unfold thread_start. cbn [fst snd].
  set (s0 := (h, with_trace (thread_trace (emit EvThreadStart w)) (emit EvThreadStart w))).
  pose proof (watcher_keeps_machine s0) as (?&?&?&?&?&?&?).
  repeat split; assumption.
Qed.

Lemma wait_loop_keeps_machine (turns : nat) :
  forall s, keeps_machine s (snd (wait_loop turns s)).
Proof.
  induction turns as [|n IH]; intros [h w]; [apply keeps_machine_refl|].
  cbn [wait_loop]. unfold bind, try_except, queue_get, print, on_world, ret, raise.
  cbn [fst snd].
  destruct (_queue h) as [|[t item] q]; [repeat split|].
  destruct (Qle_bool t (clock w + 120)); [|repeat split].
  destruct (py_eq item (PBool true)); [repeat split|].
  match goal with |- context [wait_loop n ?s'] =>
    eapply keeps_machine_trans; [|apply (IH s')] end.
  repeat split.
Qed.

Lemma wp_thread_watcher_machine (Q : result unit -> State -> Prop) h w :
  (forall h' w', keeps_session (h, w) (h', w') ->
                 keeps_machine (h, w) (h', w') ->
                 Q (Ret tt) (h', w')) ->
  wp (thread_start _fvp_check_stdout) Q (h, w).
Proof.
  intros HQ. unfold wp.
  destruct (thread_start_watcher h w) as (Hr & Hk & _ & _).
  pose proof (thread_start_keeps_machine h w) as Hm.
  destruct (thread_start _fvp_check_stdout (h, w)) as [r [h' w']].
  simpl in *. subst r. by apply HQ.
Qed.

Lemma wp_wait_for_fvp_machine (Q : result unit -> State -> Prop) h w :
  (forall r h' w',
     r = Ret tt \/ r = Raise (TimeoutError "FVP setup timeout.") ->
     keeps_session (h, w) (h', w') ->
     keeps_machine (h, w) (h', w') ->
     Q r (h', w')) ->
  wp _wait_for_fvp Q (h, w).
Proof.
  intros HQ. unfold wp.
  destruct (wait_for_fvp_spec (h, w)) as (new & Hk & _ & _ & Hr).
  pose proof (wait_loop_keeps_machine (S (length (_queue h))) (h, w)) as Hm.
  change (wait_loop (S (length (_queue h))) (h, w)) with (_wait_for_fvp (h, w)) in Hm.
  destruct (_wait_for_fvp (h, w)) as [r [h' w']].
  simpl in *. by apply (HQ r h' w').
Qed.

Ltac wp_run_machine :=
  repeat first
    [ lazymatch goal with
      | |- wp (thread_start _fvp_check_stdout) _ (_, _) =>
          apply wp_thread_watcher_machine; intros; wp_simpl
      | |- wp _wait_for_fvp _ (_, _) =>
          apply wp_wait_for_fvp_machine; intros; wp_simpl
      end
    | wp_step ].

Lemma keeps_machine_emit (e : event) s h w :
  keeps_machine s (h, w) -> keeps_machine s (h, emit e w).
Proof. intros (?&?&?&?&?&?&?). repeat split; assumption. Qed.

(** ** A session, once opened *)

Lemma open_transport_returns_held
  (PROJECT_DIR : string) (options : gmap string pyval) (h : Handler) (w : World) :
  wp (open_transport PROJECT_DIR options)
     (fun r s' => forall t, r = Ret t -> session_kept s' /\ pipes_exist (snd s'))
     (h, w).
Proof.
  unfold open_transport.
  wp_run_machine.
  all: try match goal with H : Raise _ = Ret _ |- _ => discriminate H end.
  all: try (intros t0 Ht0; discriminate Ht0).
  all: match goal with H : _ = Ret tt \/ _ |- _ => destruct H as [->| ->] end; wp_simpl.
  all: try (intros t0 Ht0; discriminate Ht0).
  all: wp_step; intros t0 _.
  all: split.
  all: try match goal with
       | Hk1 : keeps_session _ (?h1, ?w1), Hk2 : keeps_session (?h1, emit _ ?w1) _ |- session_kept _ =>
           apply (session_kept_keeps _ _ Hk2);
           apply (session_kept_keeps _ _ (keeps_emit _ _ _ _ Hk1));
           exists (next_pid w), (next_fd w), (next_fd w + 1)%Z;
           world_simpl; wp_simpl;
           rewrite lookup_insert_eq;
           rewrite lookup_insert_ne by lia; rewrite lookup_insert_eq;
           repeat split; reflexivity
       end.
  all: match goal with
       | Hm1 : keeps_machine _ (?h1, ?w1), Hm2 : keeps_machine (?h1, emit _ ?w1) _ |- pipes_exist _ =>
           destruct Hm2 as (Hf2 & _); destruct Hm1 as (Hf1 & _);
           unfold pipes_exist; world_simpl; rewrite Hf2, Hf1
       end.
  all: world_simpl; try congruence.
  all: split; rewrite ?elem_of_union, ?elem_of_singleton; auto.
Qed.

Lemma open_transport_stale_out
  (PROJECT_DIR : string) (options : gmap string pyval) (h : Handler) (w : World) :
  "/tmp/fifo.out" ∈ fs w ->
  fst (open_transport PROJECT_DIR options (h, w)) = Raise (FileExistsError "/tmp/fifo.out").
Proof.
  intros Hin.
  apply (open_transport_read_pipe_fails PROJECT_DIR options h w
           (FileExistsError "/tmp/fifo.out")).
  unfold os_mkfifo. cbn [fst snd fs emit with_trace].
  destruct (decide ("/tmp/fifo.out" ∈ fs w)); [reflexivity|contradiction].
Qed.

Lemma close_transport_keeps (h : Handler) (w : World) :
  let s' := snd (close_transport (h, w)) in
  fst (close_transport (h, w)) = Ret tt
  /\ _proc (fst s') = None
  /\ read_fd (fst s') = read_fd h
  /\ write_fd (fst s') = write_fd h
  /\ fds (snd s') = fds w
  /\ fs (snd s') = fs w
  /\ (forall pid, _proc h = Some pid ->
                  statuses (snd s') = alter (fun _ => Exited) pid (statuses w)).
Proof.
  unfold close_transport, bind, get_self, print, on_world. cbn [fst snd].
  destruct (_proc h) as [pid|] eqn:Hp; cbn.
  - do 6 (split; [reflexivity|]). intros pid' [= <-]. unfold statuses. cbn.
    apply (fmap_alter status (set_status Exited) (fun _ => Exited)). reflexivity.
  - do 6 (split; [first [reflexivity | exact Hp]|]). intros pid' Hpid. discriminate Hpid.
Qed.

(** X1: the pipes are never removed, so a transport that was opened
    once cannot be opened again: after a successful [open_transport],
    every further [open_transport], directly or after
    [close_transport], fails with [FileExistsError] on
    [/tmp/fifo.out]. *)
Theorem X1_reopen_fails
  (PROJECT_DIR : string) (options options' : gmap string pyval)
  (h : Handler) (w : World) (t : TransportTimeouts) :
  fst (open_transport PROJECT_DIR options (h, w)) = Ret t ->
  let opened := snd (open_transport PROJECT_DIR options (h, w)) in
  fst (open_transport PROJECT_DIR options' opened)
  = Raise (FileExistsError "/tmp/fifo.out")
  /\ fst (open_transport PROJECT_DIR options' (snd (close_transport opened)))
     = Raise (FileExistsError "/tmp/fifo.out").
Proof.
  intros Hret opened.
  destruct (open_transport_returns_held PROJECT_DIR options h w t Hret) as [_ [_ Hout]].
  fold opened in Hout. destruct opened as [h1 w1].
  split; [by apply open_transport_stale_out|].
  destruct (close_transport_keeps h1 w1) as (_ & _ & _ & _ & _ & Hfs & _).
  destruct (close_transport (h1, w1)) as [r [h2 w2]].
  apply open_transport_stale_out. cbn in *. by rewrite Hfs.
Qed.

(** X2: [close_transport] after a successful [open_transport] forgets
    the handle of the engine and calls [terminate] and then [wait] on
    it, and does nothing else: the two descriptors that
    [open_transport] opened are still open and still held by the
    handler, and both pipes still exist. *)
Theorem X2_close_keeps_descriptors_and_pipes
  (PROJECT_DIR : string) (options : gmap string pyval)
  (h : Handler) (w : World) (t : TransportTimeouts) :
  fst (open_transport PROJECT_DIR options (h, w)) = Ret t ->
  let opened := snd (open_transport PROJECT_DIR options (h, w)) in
  let closed := snd (close_transport opened) in
  _proc (fst closed) = None
  /\ exists pid rfd wfd : Z,
      _proc (fst opened) = Some pid
      /\ trace (snd closed)
         = (trace (snd opened)
            ++ [EvPrint [PrStr "close_transport"]; EvTerminate pid; EvWait pid])%list
      /\ read_fd (fst closed) = Some rfd
      /\ fds (snd closed) !! rfd = Some "/tmp/fifo.out"
      /\ write_fd (fst closed) = Some wfd
      /\ fds (snd closed) !! wfd = Some "/tmp/fifo.in"
      /\ pipes_exist (snd closed).
Proof.
  intros Hret opened closed.
  destruct (open_transport_returns_held PROJECT_DIR options h w t Hret) as [Hheld Hpipes].
  fold opened in Hheld, Hpipes. unfold closed. destruct opened as [h1 w1].
  destruct Hheld as (pid & rfd & wfd & Hp & Hr & Hrf & Hw & Hwf).
  destruct (close_transport_keeps h1 w1) as (_ & Hnone & Hr' & Hw' & Hfds & Hfs & _).
  split; [exact Hnone|].
  exists pid, rfd, wfd. cbn [fst snd] in *.
  rewrite Hr', Hw', Hfds.
  split; [exact Hp|].
  split.
  { unfold close_transport, bind, get_self, print, on_world. cbn [fst snd].
    rewrite Hp. cbn. rewrite <- !app_assoc. reflexivity. }
  repeat split; try assumption.
  - unfold pipes_exist. rewrite Hfs. apply Hpipes.
  - unfold pipes_exist. rewrite Hfs. apply Hpipes.
Qed.

(** ** When the signal is there *)

Lemma wait_for_fvp_head_true (h : Handler) (w : World) (t : Q) (q : Queue) :
  _queue h = (t, PBool true) :: q ->
  Qle_bool t (clock w + 120) = true ->
  _wait_for_fvp (h, w)
  = (Ret tt,
     (set_queue q h,
      emit (EvPrint [PrStr "item"; PrVal (PBool true)])
        (with_clock (py_max (clock w) t) w))).
Proof.
  intros Hq Hd. unfold _wait_for_fvp. cbn [fst snd]. rewrite Hq.
  cbn [length wait_loop]. unfold bind, try_except, queue_get, print, on_world, ret, raise.
  cbn [fst snd]. rewrite Hq, Hd. reflexivity.
Qed.

Lemma open_transport_head_due
  (PROJECT_DIR : string) (options : gmap string pyval) (h : Handler) (w : World)
  (t : Q) (q : Queue) :
  reaches_launch options w ->
  (_queue h ++ signal_items (launch_clock w) (engine_output w))%list
  = (t, PBool true) :: q ->
  Qle_bool t (launch_clock w + 120) = true ->
  let r := open_transport PROJECT_DIR options (h, w) in
  fst r = Ret {| session_start_retry_timeout_sec := 0;
                 session_start_timeout_sec := 0;
                 session_established_timeout_sec := 0 |}
  /\ _queue (fst (snd r)) = q
  /\ clock (snd (snd r)) = py_max (launch_clock w) t.
Proof.
  intros (Hout & Hdir & Hterm & Hlaunch) Hq Hd r.
  change (wp (open_transport PROJECT_DIR options)
            (fun r s' =>
               r = Ret {| session_start_retry_timeout_sec := 0;
                          session_start_timeout_sec := 0;
                          session_established_timeout_sec := 0 |}
               /\ _queue (fst s') = q
               /\ clock (snd s') = py_max (launch_clock w) t) (h, w)).
  unfold open_transport.
  repeat (lazymatch goal with
          | |- wp _wait_for_fvp _ _ => fail
          | |- wp (Popen _) _ (?h0, ?w0) =>
              unfold wp at 1; rewrite (Popen_launchable _ h0 w0) by exact Hlaunch;
              cbn [fst snd]; wp_simpl
          | |- wp (thread_start _fvp_check_stdout) _ (_, _) =>
              eapply wp_thread_signal;
              [ reflexivity | apply lookup_insert_eq | intros; wp_simpl ]
          | |- _ => wp_step
          end).
  all: world_simpl.
  all: try fs_contra.
  all: try congruence.
  all: cbn [_queue set_proc set_write_fd set_read_fd set_read_pipe set_write_pipe
            set_pipe_dir stdout] in *.
  all: unfold signal_items, launch_clock in Hq, Hd; unfold launch_clock.
  all: destruct (decide ("/tmp/fifo.in" ∈ fs w)); try contradiction.
  all: match goal with
       | Hc : clock ?w' = _, Hq' : _queue ?h' = _ |- wp _wait_for_fvp _ (?h', _) =>
           rewrite Hq in Hq'; unfold wp at 1;
           rewrite (wait_for_fvp_head_true _ _ t q Hq')
             by (world_simpl; rewrite Hc; exact Hd);
           cbn [fst snd]; wp_simpl; wp_step; world_simpl; rewrite Hc;
           repeat split; reflexivity
       end.
Qed.

(** X3: an [open_transport] that has launched the engine, on a handler
    whose queue was empty at the call, succeeds when the watcher reads
    the marker within the 120 seconds of the wait: it returns the
    timeouts, holds the handle of the engine and the two descriptors,
    open on the pipes, and has taken the signal off the queue. *)
Theorem X3_open_succeeds_when_signalled
  (PROJECT_DIR : string) (options : gmap string pyval) (h : Handler) (w : World) :
  let r := open_transport PROJECT_DIR options (h, w) in
  exists new : list event,
    trace (snd (snd r)) = (trace w ++ new)%list
    /\ (List.filter is_popen new <> [] ->
        _queue h = [] ->
        signal_in_time (launch_clock w) (engine_output w) = true ->
        fst r = Ret {| session_start_retry_timeout_sec := 0;
                       session_start_timeout_sec := 0;
                       session_established_timeout_sec := 0 |}
        /\ _queue (fst (snd r)) = []
        /\ session_kept (snd r)).
Proof.
  intros r.
  destruct (open_transport_launch_cases PROJECT_DIR options h w)
    as (new & Ht & _ & Hl & _).
  exists new. split; [exact Ht|].
  intros Hlaunched Hq Hsig.
  destruct Hl as [Hnil | (_ & Hreach & _)]; [contradiction|].
  unfold signal_in_time in Hsig.
  destruct (signal (launch_clock w) _) as [t|] eqn:Hs; [|discriminate Hsig].
  destruct (open_transport_head_due PROJECT_DIR options h w t [] Hreach) as (Hr & Hq' & _).
  - rewrite Hq. unfold signal_items. rewrite Hs. reflexivity.
  - exact Hsig.
  - split; [exact Hr|]. split; [exact Hq'|].
    apply (open_transport_returns_held PROJECT_DIR options h w _ Hr).
Qed.

(** X4: [open_transport] does not empty the queue before it waits: a
    [True] that is already in the queue (left by an earlier watcher)
    ends the wait at once, so that [open_transport] succeeds whatever
    the new engine prints, and the new watcher's own signal, if it
    comes, stays in the queue. *)
Theorem X4_stale_signal_opens
  (PROJECT_DIR : string) (options : gmap string pyval) (h : Handler) (w : World)
  (t : Q) (q : Queue) :
  reaches_launch options w ->
  _queue h = (t, PBool true) :: q ->
  Qle_bool t (launch_clock w + 120) = true ->
  let r := open_transport PROJECT_DIR options (h, w) in
  fst r = Ret {| session_start_retry_timeout_sec := 0;
                 session_start_timeout_sec := 0;
                 session_established_timeout_sec := 0 |}
  /\ _queue (fst (snd r))
     = (q ++ signal_items (launch_clock w) (engine_output w))%list.
Proof.
  intros Hreach Hq Hd r.
  destruct (open_transport_head_due PROJECT_DIR options h w t
              (q ++ signal_items (launch_clock w) (engine_output w))%list Hreach)
    as (Hr & Hq' & _).
  - rewrite Hq. reflexivity.
  - exact Hd.
  - split; [exact Hr | exact Hq'].
Qed.

(** ** The options that matter *)

Lemma ovpsim_command_keys (options options' : gmap string pyval) :
  options !! "ovpsim_exe" = options' !! "ovpsim_exe" ->
  options !! "ovpsim_extra_args" = options' !! "ovpsim_extra_args" ->
  ovpsim_command options = ovpsim_command options'.
Proof.
  intros He Hx. unfold ovpsim_command, options_get. rewrite He, Hx. reflexivity.
Qed.

(** X5: of the options, [open_transport] uses [ovpsim_exe] and
    [ovpsim_extra_args] only: two option dictionaries that agree on
    these two keys give the same run, whatever they say elsewhere, and
    in particular whatever [arch] is (it is read and not used). *)
Theorem X5_open_uses_two_options
  (PROJECT_DIR : string) (options options' : gmap string pyval) (s : State) :
  options !! "ovpsim_exe" = options' !! "ovpsim_exe" ->
  options !! "ovpsim_extra_args" = options' !! "ovpsim_extra_args" ->
  open_transport PROJECT_DIR options s = open_transport PROJECT_DIR options' s.
Proof.
  intros He Hx. unfold open_transport.
  rewrite (ovpsim_command_keys options options' He Hx). reflexivity.
Qed.

(** ** A command that cannot be started *)

Lemma Popen_not_all_str (argv : list pyval) (s : State) :
  forallb is_str argv = false -> Popen argv s = (Raise TypeError, s).
Proof. intros H. unfold Popen. rewrite H. reflexivity. Qed.

Lemma ovpsim_command_first (options : gmap string pyval) :
  exists rest, ovpsim_command options = options_get options "ovpsim_exe" PNone :: rest.
Proof.
  unfold ovpsim_command. cbv zeta. cbn [app]. eexists. reflexivity.
Qed.

(** X6: when the [ovpsim_exe] option is missing, or is not a string,
    [open_transport] fails with [TypeError] at the launch, that is
    after it has created both pipes, opened both descriptors and read
    the line from the terminal: no engine is launched, and the
    descriptors stay open and held. *)
Theorem X6_open_without_executable
  (PROJECT_DIR : string) (options : gmap string pyval) (h : Handler) (w : World) :
  "/tmp/fifo.out" ∉ fs w ->
  dir_writable w = true ->
  terminal w <> [] ->
  is_str (options_get options "ovpsim_exe" PNone) = false ->
  let r := open_transport PROJECT_DIR options (h, w) in
  fst r = Raise TypeError
  /\ _proc (fst (snd r)) = _proc h
  /\ procs (snd (snd r)) = procs w
  /\ read_fd (fst (snd r)) = Some (next_fd w)
  /\ fds (snd (snd r)) !! next_fd w = Some "/tmp/fifo.out"
  /\ write_fd (fst (snd r)) = Some (next_fd w + 1)%Z
  /\ fds (snd (snd r)) !! (next_fd w + 1)%Z = Some "/tmp/fifo.in"
  /\ pipes_exist (snd (snd r))
  /\ terminal (snd (snd r)) = tail (terminal w).
Proof.
  intros Hout Hdir Hterm Hexe r.
  assert (Hargv : forallb is_str (ovpsim_command options) = false).
  { destruct (ovpsim_command_first options) as [rest ->]. cbn [forallb].
    rewrite Hexe. reflexivity. }
  change (wp (open_transport PROJECT_DIR options)
            (fun r s' =>
               r = Raise TypeError
               /\ _proc (fst s') = _proc h
               /\ procs (snd s') = procs w
               /\ read_fd (fst s') = Some (next_fd w)
               /\ fds (snd s') !! next_fd w = Some "/tmp/fifo.out"
               /\ write_fd (fst s') = Some (next_fd w + 1)%Z
               /\ fds (snd s') !! (next_fd w + 1)%Z = Some "/tmp/fifo.in"
               /\ pipes_exist (snd s')
               /\ terminal (snd s') = tail (terminal w)) (h, w)).
  unfold open_transport.
  repeat (lazymatch goal with
          | |- wp (Popen _) _ (?h0, ?w0) =>
              unfold wp at 1; rewrite (Popen_not_all_str _ (h0, w0) Hargv);
              cbn [fst snd]
          | |- _ => wp_step
          end).
  all: world_simpl.
  all: try fs_contra.
  all: try congruence.
  all: match goal with H : terminal _ = _ :: _ |- _ => rewrite H end.
  all: unfold pipes_exist; world_simpl; wp_simpl.
  all: rewrite ?lookup_insert_eq.
  all: rewrite lookup_insert_ne by lia.
  all: rewrite ?lookup_insert_eq.
  all: repeat split; try reflexivity.
  all: rewrite ?elem_of_union, ?elem_of_singleton; auto.
Qed.

(** ** Output that is not text *)




(** ** Writes that make no progress *)

Lemma write_loop_zero
  (write_with_timeout : World -> option Z -> bytes -> option Q -> result Z * Q)
  (buf : bytes) (t : option Q) (h : Handler) :
  buf <> [] ->
  (forall w fd, fst (write_with_timeout w fd buf t) = Ret 0%Z) ->
  forall turns w,
    fst (write_loop write_with_timeout turns buf t (h, w)) = Diverge
    /\ exists new,
        trace (snd (snd (write_loop write_with_timeout turns buf t (h, w))))
        = (trace w ++ new)%list
        /\ new = repeat (EvWriteWithTimeout (write_fd h) buf t (Ret 0%Z)) turns.
Proof.
  intros Hne Hzero. induction turns as [|n IH]; intros w.
  - destruct buf as [|b bs]; [contradiction|]. cbn. split; [reflexivity|].
    exists []. by rewrite app_nil_r.
  - destruct buf as [|b bs] eqn:Hbuf; [contradiction|]. rewrite <- Hbuf in *.
    assert (Hstep : write_loop write_with_timeout (S n) buf t (h, w)
              = write_loop write_with_timeout n buf t
                  (h, emit (EvWriteWithTimeout (write_fd h) buf t (Ret 0%Z))
                        (with_clock (clock w + snd (write_with_timeout w (write_fd h) buf t))%Q
                           w))).
    { rewrite Hbuf at 1. cbn [write_loop]. rewrite <- Hbuf.
      unfold bind, get_self, server_write_with_timeout. cbn [fst snd].
      rewrite (Hzero w (write_fd h)). cbn [fst snd].
      unfold py_slice_from. cbn. reflexivity. }
    rewrite Hstep.
    destruct (IH (emit (EvWriteWithTimeout (write_fd h) buf t (Ret 0%Z))
                    (with_clock (clock w + snd (write_with_timeout w (write_fd h) buf t))%Q
                       w))) as (Hd & new & Ht & Hn).
    split; [exact Hd|].
    exists (EvWriteWithTimeout (write_fd h) buf t (Ret 0%Z) :: new).
    split.
    + rewrite Ht. cbn [trace emit with_trace with_clock]. by rewrite <- app_assoc.
    + rewrite Hn. reflexivity.
Qed.

(** X8: the loop of [write_transport] goes on for as long as there is
    data, and a call that reports zero bytes takes nothing off the
    data: over a channel that reports zero bytes for every call,
    [write_transport] of data that is not empty never returns and never
    raises, and each of its turns is one more call with all of the
    data. *)
Theorem X8_zero_byte_writes_never_end
  (write_with_timeout : World -> option Z -> bytes -> option Q -> result Z * Q)
  (turns : nat) (data : bytes) (t : option Q) (h : Handler) (w : World) :
  data <> [] ->
  (forall w' fd, fst (write_with_timeout w' fd data t) = Ret 0%Z) ->
  fst (write_transport write_with_timeout turns data t (h, w)) = Diverge
  /\ trace (snd (snd (write_transport write_with_timeout turns data t (h, w))))
     = (trace w ++ repeat (EvWriteWithTimeout (write_fd h) data t (Ret 0%Z)) turns)%list.
Proof.
  intros Hne Hzero. unfold write_transport. rewrite copy_bytes. cbn [app].
  destruct (write_loop_zero write_with_timeout data t h Hne Hzero turns w)
    as (Hd & new & Ht & ->).
  split; assumption.
Qed.

(** ** With and without the executable *)

Lemma open_transport_launched
  (PROJECT_DIR : string) (options : gmap string pyval) (h : Handler) (w : World) :
  reaches_launch options w ->
  fst (open_transport PROJECT_DIR options (h, w))
  = Ret {| session_start_retry_timeout_sec := 0;
           session_start_timeout_sec := 0;
           session_established_timeout_sec := 0 |}
  \/ fst (open_transport PROJECT_DIR options (h, w))
     = Raise (TimeoutError "FVP setup timeout.").
Proof.
  intros (Hout & Hdir & Hterm & Hlaunch).
  change (wp (open_transport PROJECT_DIR options)
            (fun r s' =>
               r = Ret {| session_start_retry_timeout_sec := 0;
                          session_start_timeout_sec := 0;
                          session_established_timeout_sec := 0 |}
               \/ r = Raise (TimeoutError "FVP setup timeout.")) (h, w)).
  unfold open_transport.
  repeat (lazymatch goal with
          | |- wp (Popen _) _ (?h0, ?w0) =>
              unfold wp at 1; rewrite (Popen_launchable _ h0 w0) by exact Hlaunch;
              cbn [fst snd]; wp_simpl
          | |- wp (thread_start _fvp_check_stdout) _ (_, _) =>
              apply wp_thread_watcher; intros; wp_simpl
          | |- wp _wait_for_fvp _ (_, _) =>
              apply wp_wait_for_fvp; intros; wp_simpl
          | |- _ => wp_step
          end).
  all: world_simpl.
  all: try fs_contra.
  all: try congruence.
  all: match goal with H : _ = Ret tt \/ _ |- _ => destruct H as [->| ->] end; wp_simpl.
  all: try (wp_step; left; reflexivity).
  all: right; reflexivity.
Qed.

Lemma open_transport_no_executable
  (PROJECT_DIR : string) (options : gmap string pyval) (h : Handler) (w : World) :
  "/tmp/fifo.out" ∉ fs w ->
  dir_writable w = true ->
  terminal w <> [] ->
  is_str (options_get options "ovpsim_exe" PNone) = false ->
  fst (open_transport PROJECT_DIR options (h, w)) = Raise TypeError.
Proof.
  intros Hout Hdir Hterm Hexe.
  assert (Hargv : forallb is_str (ovpsim_command options) = false).
  { destruct (ovpsim_command_first options) as [rest ->]. cbn [forallb].
    rewrite Hexe. reflexivity. }
  change (wp (open_transport PROJECT_DIR options)
            (fun r s' => r = Raise TypeError) (h, w)).
  unfold open_transport.
  repeat (lazymatch goal with
          | |- wp (Popen _) _ (?h0, ?w0) =>
              unfold wp at 1; rewrite (Popen_not_all_str _ (h0, w0) Hargv);
              cbn [fst snd]
          | |- _ => wp_step
          end).
  all: world_simpl.
  all: try fs_contra.
  all: try congruence.
Qed.

(** * Properties of the options, the build and the project generation *)

(** ** [str2bool] *)

Lemma ascii_lower_idem (a : ascii) : ascii_lower (ascii_lower a) = ascii_lower a.
Proof.
  destruct a as [[] [] [] [] [] [] [] []]; reflexivity.
Qed.

Lemma py_lower_idem (s : string) : py_lower (py_lower s) = py_lower s.
Proof.
  induction s as [|a s IH]; cbn; [reflexivity|].
  now rewrite ascii_lower_idem, IH.
Qed.

Lemma strtobool_lower (s : string) : strtobool (py_lower s) = strtobool s.
Proof.
  unfold strtobool. now rewrite py_lower_idem.
Qed.

Lemma strtobool_cases (s : string) :
  strtobool s = inr 1%Z \/ strtobool s = inr 0%Z \/ strtobool s = inl (Builtin ValueError).
Proof.
  unfold strtobool.
  destruct (existsb _ _); [now left|].
  destruct (existsb _ _); [now right; left|now right; right].
Qed.

(** X9: [str2bool] gives back [None] exactly for [None] under
    [allow_none], and fails its assertion exactly for [None] without
    it; for a string its only exception is the [ValueError] of
    [strtobool]; every result other than [None] is a boolean. *)
Theorem X9_str2bool_results (value : pyval) (allow_none : bool) :
  (str2bool value allow_none = inr PNone <-> value = PNone /\ allow_none = true)
  /\ ((exists msg, str2bool value allow_none = inl (AssertionError msg))
      <-> value = PNone /\ allow_none = false)
  /\ (forall s e, value = PStr s -> str2bool value allow_none = inl e ->
        e = Builtin ValueError /\ strtobool s = inl e)
  /\ (forall v, str2bool value allow_none = inr v ->
        v = PNone \/ exists b, v = PBool b).
Proof.
  split; [|split; [|split]].
  - destruct value as [|b|z|s], allow_none; cbn;
      try (destruct (strtobool_cases s) as [H|[H|H]]; rewrite H; cbn);
      split; try (intros [? ?]); try intros; try discriminate; tauto.
  - destruct value as [|b|z|s], allow_none; cbn;
      try (destruct (strtobool_cases s) as [H|[H|H]]; rewrite H; cbn);
      split; try (intros [? ?]); try intros; try discriminate; eauto.
  - intros s e -> He. cbn in He.
    destruct (strtobool_cases s) as [H|[H|H]]; rewrite H in *; cbn in He;
      try discriminate He.
    injection He as <-. split; reflexivity.
  - intros v Hv. destruct value as [|b|z|s]; cbn in Hv.
    + destruct allow_none; [|discriminate Hv]. injection Hv as <-. now left.
    + injection Hv as <-. right. eauto.
    + injection Hv as <-. right. eauto.
    + destruct (strtobool s) as [e|n]; [discriminate Hv|].
      injection Hv as <-. right. eauto.
Qed.

(** X10: [str2bool] does not look at the case of the letters of a
    string, and reads back what [str] makes of a boolean. *)
Theorem X10_str2bool_ignores_case (s : string) (b allow_none : bool) :
  str2bool (PStr (py_lower s)) allow_none = str2bool (PStr s) allow_none
  /\ str2bool (PStr (py_str (PBool b))) allow_none = inr (PBool b).
Proof.
  split.
  - cbn. now rewrite strtobool_lower.
  - now destruct b.
Qed.

Lemma ascii_lower_digit (a : ascii) :
  ascii_lower a = "0"%char \/ ascii_lower a = "1"%char -> ascii_lower a = a.
Proof.
  destruct a as [[] [] [] [] [] [] [] []]; cbn; intros [H|H]; try discriminate H; reflexivity.
Qed.

Lemma string_of_int_head (i : Decimal.int) :
  exists a rest,
    NilZero.string_of_int i = String a rest
    /\ (a = "-"%char \/ (48 <=? nat_of_ascii a)%nat && (nat_of_ascii a <=? 57)%nat = true).
Proof.
  destruct i as [d|d].
  - destruct d; cbn; eauto 10.
  - cbn. eauto.
Qed.

Lemma strtobool_decimal (z : Z) (n : Z) :
  strtobool (py_str (PInt z)) = inr n -> z = n /\ (n = 0 \/ n = 1)%Z.
Proof.
  cbn [py_str]. intros H.
  assert (Hs : forall m, NilZero.string_of_int (Z.to_int z) = py_str (PInt m) -> z = m).
  { assert (Hnil : forall y, Z.to_int y <> Decimal.Pos Decimal.Nil
                               /\ Z.to_int y <> Decimal.Neg Decimal.Nil).
    { intros y; split; intros E; pose proof (f_equal Z.of_int E) as E';
        rewrite DecimalZ.of_to in E'; cbn in E'; subst y; discriminate E. }
    intros m Hm. cbn [py_str] in Hm.
    apply (f_equal NilZero.int_of_string) in Hm.
    rewrite !NilZero.isi in Hm by apply Hnil.
    inversion Hm as [Hi]. apply (f_equal Z.of_int) in Hi.
    now rewrite !DecimalZ.of_to in Hi. }
  destruct (string_of_int_head (Z.to_int z)) as (a & rest & Hhd & Ha).
  unfold strtobool in H. rewrite Hhd in H, Hs. cbn [py_lower] in H.
  assert (Hcase : (rest = EmptyString /\ (a = "0" \/ a = "1")%char)
                  \/ existsb (String.eqb (String (ascii_lower a) (py_lower rest)))
                       ["y"; "yes"; "t"; "true"; "on"; "1"] = false
                     /\ existsb (String.eqb (String (ascii_lower a) (py_lower rest)))
                       ["n"; "no"; "f"; "false"; "off"; "0"] = false).
  { destruct Ha as [->|Ha].
    - right. now cbn.
    - destruct a as [[] [] [] [] [] [] [] []]; vm_compute in Ha; try discriminate Ha;
        clear; destruct rest;
        first [ left; split; [reflexivity|auto; fail] | right; split; reflexivity ]. }
  destruct Hcase as [[-> [-> | ->]]|[H1 H2]].
  - cbn in H. inversion H; subst. split; [apply (Hs 0%Z); reflexivity|auto].
  - cbn in H. inversion H; subst. split; [apply (Hs 1%Z); reflexivity|auto].
  - rewrite H1, H2 in H. discriminate H.
Qed.

(** X11: an integer is taken by its truth value, but the same integer
    written out as a string is read only when it is 0 or 1: for every
    other one [str2bool] raises [ValueError]. *)
Theorem X11_str2bool_number_as_string (z : Z) (allow_none : bool) :
  str2bool (PInt z) allow_none = inr (PBool (negb (z =? 0)%Z))
  /\ ((z = 0 \/ z = 1)%Z ->
      str2bool (PStr (py_str (PInt z))) allow_none = str2bool (PInt z) allow_none)
  /\ (~ (z = 0 \/ z = 1)%Z ->
      str2bool (PStr (py_str (PInt z))) allow_none = inl (Builtin ValueError)).
Proof.
  split; [reflexivity|]. split.
  - intros [-> | ->]; reflexivity.
  - intros Hz. cbn [str2bool].
    destruct (strtobool_cases (py_str (PInt z))) as [H|[H|H]].
    + apply strtobool_decimal in H. lia.
    + apply strtobool_decimal in H. lia.
    + now rewrite H.
Qed.

(** ** Running the methods against an environment *)

Lemma sys_wp_bind {A B : Type} (c : Sys A) (k : A -> Sys B)
      (Q : exc + B -> History -> Prop) (hist : History) :
  sys_wp c (fun r h => match r with
                       | inr a => sys_wp (k a) Q h
                       | inl e => Q (inl e) h
                       end) hist ->
  sys_wp (sys_bind c k) Q hist.
Proof.
  unfold sys_wp, sys_bind. destruct (c hist) as [[e|a] h]; auto.
Qed.

Lemma sys_wp_ret {A : Type} (a : A) (Q : exc + A -> History -> Prop) (hist : History) :
  Q (inr a) hist -> sys_wp (sys_ret a) Q hist.
Proof. auto. Qed.

Lemma sys_wp_raise {A : Type} (e : exc) (Q : exc + A -> History -> Prop)
      (hist : History) :
  Q (inl e) hist -> sys_wp (sys_raise e) Q hist.
Proof. auto. Qed.

Lemma sys_wp_lift {A : Type} (r : exc + A) (Q : exc + A -> History -> Prop)
      (hist : History) :
  Q r hist -> sys_wp (lift r) Q hist.
Proof. auto. Qed.

Lemma sys_wp_log (fmt : string) (args : list string)
      (Q : exc + unit -> History -> Prop) (hist : History) :
  Q (inr tt) (hist ++ [(LogInfo fmt args, Done)])%list ->
  sys_wp (log_info fmt args) Q hist.
Proof. auto. Qed.

Lemma sys_wp_finally {A : Type} (c : Sys A) (cleanup : Sys unit)
      (Q : exc + A -> History -> Prop) (hist : History) :
  sys_wp c (fun r h =>
              sys_wp cleanup (fun r' h' => match r' with
                                           | inr _ => Q r h'
                                           | inl e => Q (inl e) h'
                                           end) h) hist ->
  sys_wp (finally c cleanup) Q hist.
Proof.
  unfold sys_wp, finally. destruct (c hist) as [r h]; cbn [fst snd].
  destruct (cleanup h) as [[e|u] h']; auto.
Qed.

Section Runs.

Variable env : History -> syscall -> answer.

Lemma sys_wp_call (c : syscall) (Q : exc + answer -> History -> Prop)
      (hist : History) :
  (forall e, env hist c = Fails e -> Q (inl e) (hist ++ [(c, Fails e)])%list) ->
  (forall a, env hist c = a -> is_fails a = false ->
             Q (inr a) (hist ++ [(c, a)])%list) ->
  sys_wp (call env c) Q hist.
Proof.
  intros Hf Hs. unfold sys_wp, call; cbn [fst snd].
  destruct (env hist c) eqn:E; first [ now apply Hs | now apply Hf ].
Qed.

Lemma sys_wp_isdir (path : string) (Q : exc + bool -> History -> Prop)
      (hist : History) :
  (forall b a, env hist (IsDir path) = a ->
               Q (inr b) (hist ++ [(IsDir path, a)])%list) ->
  sys_wp (os_path_isdir env path) Q hist.
Proof.
  intros H. unfold sys_wp, os_path_isdir; cbn [fst snd]. now apply H.
Qed.

(** A command: the log line, then one of three ends. *)
Lemma sys_wp_check_call (cmd : list string) (cwd : option string) (devnull : bool)
      (Q : exc + unit -> History -> Prop) (hist : History) :
  (forall log a,
      fst log = LogInfo "run%s: %s"
                  [match cwd with
                   | None => EmptyString
                   | Some c => " (in cwd: " ++ c ++ ")"
                   end; String.concat " " (map shlex_quote cmd)] ->
      match a with
      | Fails e => Q (inl e) (hist ++ [log; (CheckCall cmd cwd devnull, a)])%list
      | Exit code =>
          if (code =? 0)%Z
          then Q (inr tt) (hist ++ [log; (CheckCall cmd cwd devnull, a)])%list
          else Q (inl (CalledProcessError code cmd))
                 (hist ++ [log; (CheckCall cmd cwd devnull, a)])%list
      | _ => Q (inr tt) (hist ++ [log; (CheckCall cmd cwd devnull, a)])%list
      end) ->
  sys_wp (check_call env cmd cwd devnull) Q hist.
Proof.
  intros H. unfold check_call.
  apply sys_wp_bind, sys_wp_log. apply sys_wp_bind.
  match goal with
  | |- sys_wp (call _ ?c) _ (_ ++ [?l])%list =>
      pose proof (H l (env (hist ++ [l])%list c) eq_refl) as H'
  end.
  apply sys_wp_call.
  - intros e E. rewrite E in H'. rewrite <- app_assoc; cbn [app]. exact H'.
  - intros a E Hnf. rewrite E in H'. rewrite <- app_assoc; cbn [app].
    destruct a as [| | |code| |]; try discriminate Hnf; try exact H'.
    destruct (code =? 0)%Z; exact H'.
Qed.

End Runs.

Ltac sys_step :=
  lazymatch goal with
  | |- sys_wp (sys_bind _ _) _ _ => apply sys_wp_bind
  | |- sys_wp (sys_ret _) _ _ => apply sys_wp_ret
  | |- sys_wp (sys_raise _) _ _ => apply sys_wp_raise
  | |- sys_wp (lift _) _ _ => apply sys_wp_lift
  | |- sys_wp (log_info _ _) _ _ => apply sys_wp_log
  | |- sys_wp (finally _ _) _ _ => apply sys_wp_finally
  | |- sys_wp (call _ _) _ _ =>
      apply sys_wp_call;
      [ let e := fresh "e" in let E := fresh "E" in intros e E
      | let a := fresh "a" in let E := fresh "E" in let N := fresh "N" in
        intros a E N ]
  | |- sys_wp (os_path_isdir _ _) _ _ =>
      apply sys_wp_isdir;
      let b := fresh "b" in let a := fresh "a" in let E := fresh "E" in
      intros b a E
  | |- sys_wp (check_call _ _ _ _) _ _ =>
      apply sys_wp_check_call;
      let log := fresh "log" in let a := fresh "a" in let L := fresh "L" in
      intros log a L
  end.

(** ** [build] *)

Section BuildFacts.

Variable env : History -> syscall -> answer.
Variable PROJECT_DIR : string.
Variable NPROC : Z.

Lemma cmake_args_error (options : gmap string pyval) (e : exc) :
  cmake_args options = inl e -> e = Builtin TypeError.
Proof.
  cbv [cmake_args exc_bind str_add].
  repeat match goal with
         | |- context [match ?x with _ => _ end] =>
             lazymatch x with
             | context [match _ with _ => _ end] => fail
             | _ => destruct x eqn:?
             end
         end; intros H; inversion H; reflexivity.
Qed.

Lemma str2bool_error (v : pyval) (e : exc) :
  str2bool v true = inl e -> e = Builtin ValueError.
Proof.
  destruct v as [| | |s]; cbn; try discriminate.
  destruct (strtobool_cases s) as [H|[H|H]]; rewrite H; intros E; inversion E; reflexivity.
Qed.

(** The run of [build], case by case. *)
Lemma build_run (options : gmap string pyval) (Q : exc + unit -> History -> Prop)
      (hist : History) :
  let build_dir := path_join PROJECT_DIR "build" in
  let mk := Mkdir build_dir false in
  (forall e, env hist mk = Fails e -> Q (inl e) (hist ++ [(mk, Fails e)])%list) ->
  (forall a e,
      env hist mk = a -> is_fails a = false ->
      cmake_args options = inl e \/
      (exists args, cmake_args options = inr args)
      /\ str2bool (options_get options "quiet" PNone) true = inl e ->
      Q (inl e) (hist ++ [(mk, a)])%list) ->
  (forall a args quiet log1 a1,
      env hist mk = a -> is_fails a = false ->
      cmake_args options = inr args ->
      str2bool (options_get options "quiet" PNone) true = inr quiet ->
      is_check_call log1 = false ->
      let c1 := CheckCall ("cmake" :: ".." :: args) (Some build_dir) (py_bool quiet) in
      (forall e, a1 = Fails e -> Q (inl e) (hist ++ [(mk, a); log1; (c1, a1)])%list)
      /\ (forall code, a1 = Exit code -> code <> 0%Z ->
            Q (inl (CalledProcessError code ("cmake" :: ".." :: args)))
              (hist ++ [(mk, a); log1; (c1, a1)])%list)
      /\ (succeeded a1 = true ->
          forall log2 a2,
            is_check_call log2 = false ->
            let cmd2 := ["make"; "-j" ++ py_str (PInt NPROC)] in
            let c2 := CheckCall cmd2 (Some build_dir) (py_bool quiet) in
            let h := (hist ++ [(mk, a); log1; (c1, a1); log2; (c2, a2)])%list in
            (forall e, a2 = Fails e -> Q (inl e) h)
            /\ (forall code, a2 = Exit code -> code <> 0%Z ->
                  Q (inl (CalledProcessError code cmd2)) h)
            /\ (succeeded a2 = true -> Q (inr tt) h))) ->
  sys_wp (build env PROJECT_DIR NPROC options) Q hist.
Proof.
  intros build_dir mk Hmk Hopt Hrun. unfold build.
  sys_step. sys_step; [now apply Hmk|].
  sys_step. sys_step.
  destruct (cmake_args options) as [e|args] eqn:Hargs; [now apply (Hopt a e); auto|].
  sys_step. sys_step.
  destruct (str2bool (options_get options "quiet" PNone) true) as [e|quiet] eqn:Hq;
    [apply (Hopt a e); eauto|].
  assert (Hlog : forall l : syscall * answer, fst l = LogInfo "run%s: %s" [
     " (in cwd: " ++ path_join PROJECT_DIR "build" ++ ")";
     String.concat " " (map shlex_quote ("cmake" :: ".." :: args))] -> is_check_call l = false).
  { intros [l ?] Hl; cbn in Hl; subst l; reflexivity. }
  assert (Hlog2 : forall l : syscall * answer, fst l = LogInfo "run%s: %s" [
     " (in cwd: " ++ path_join PROJECT_DIR "build" ++ ")";
     String.concat " " (map shlex_quote ["make"; "-j" ++ py_str (PInt NPROC)])] -> is_check_call l = false).
  { intros [l ?] Hl; cbn in Hl; subst l; reflexivity. }
  assert (Hgo : forall dn, dn = py_bool quiet ->
     sys_wp (sys_bind (check_call env ("cmake" :: ".." :: args) (Some build_dir) dn)
               (fun _ => check_call env ["make"; "-j" ++ py_str (PInt NPROC)]
                           (Some build_dir) dn)) Q (hist ++ [(mk, a)])%list).
  { intros dn ->. sys_step. sys_step.
    destruct (Hrun a args quiet log a0 E N eq_refl eq_refl (Hlog _ L)) as (Hf1 & Hx1 & Hs1).
    assert (Hnext : succeeded a0 = true ->
              sys_wp (check_call env ["make"; "-j" ++ py_str (PInt NPROC)]
                        (Some build_dir) (py_bool quiet)) Q
                (((hist ++ [(mk, a)]) ++
                  [log; (CheckCall ("cmake" :: ".." :: args) (Some build_dir)
                           (py_bool quiet), a0)]))%list).
    { intros Hs. sys_step.
      destruct (Hs1 Hs log0 a1 (Hlog2 _ L0)) as (Hf2 & Hx2 & Hs2).
      rewrite <- !app_assoc; cbn [app].
      destruct a1 as [| | |code| |]; try (apply Hs2; reflexivity).
      - destruct (code =? 0)%Z eqn:Hc.
        + apply Hs2. exact Hc.
        + apply (Hx2 code eq_refl). now apply Z.eqb_neq.
      - now apply Hf2. }
    destruct a0 as [| | |code| |]; try (apply Hnext; reflexivity).
    - destruct (code =? 0)%Z eqn:Hc.
      + apply Hnext. exact Hc.
      + rewrite <- !app_assoc; cbn [app]. apply (Hx1 code eq_refl). now apply Z.eqb_neq.
    - rewrite <- !app_assoc; cbn [app]. now apply Hf1. }
  destruct (py_bool quiet) eqn:Hb; now apply Hgo.
Qed.

Lemma sys_wp_eq {A : Type} (c : Sys A) (p : (exc + A) * History) (hist : History) :
  sys_wp c (fun r h => (r, h) = p) hist -> c hist = p.
Proof.
  unfold sys_wp. now rewrite <- surjective_pairing.
Qed.

Lemma str2bool_value (v q : pyval) (allow_none : bool) :
  str2bool v allow_none = inr q -> q = PNone \/ exists b, q = PBool b.
Proof.
  destruct v as [|b|z|s], allow_none; cbn;
    try (destruct (strtobool_cases s) as [H|[H|H]]; rewrite H; cbn);
    intros E; inversion E; eauto.
Qed.

(** X12: whatever [build] raises is raised by the last call it made,
    with two exceptions: an exception for an option it cannot use,
    which no call raised, comes when the build directory has been made
    and nothing else has been done; and [CalledProcessError] is for the
    last command, which then had an exit status other than 0. *)
Theorem X12_build_exceptions (options : gmap string pyval) (hist : History) :
  exists new,
    snd (build env PROJECT_DIR NPROC options hist) = (hist ++ new)%list
    /\ forall e, fst (build env PROJECT_DIR NPROC options hist) = inl e ->
         (exists c, last new = Some (c, Fails e))
         \/ (exists a, is_fails a = false
                       /\ new = [(Mkdir (path_join PROJECT_DIR "build") false, a)])
         \/ (exists code cmd cwd devnull,
               code <> 0%Z /\ e = CalledProcessError code cmd
               /\ last new = Some (CheckCall cmd cwd devnull, Exit code)).
Proof.
  change (sys_wp (build env PROJECT_DIR NPROC options)
            (fun r h => exists new, h = (hist ++ new)%list
               /\ forall e, r = inl e ->
                    (exists c, last new = Some (c, Fails e))
                    \/ (exists a, is_fails a = false
                             /\ new = [(Mkdir (path_join PROJECT_DIR "build") false, a)])
                    \/ (exists code cmd cwd devnull,
                          code <> 0%Z /\ e = CalledProcessError code cmd
                          /\ last new = Some (CheckCall cmd cwd devnull, Exit code)))
            hist).
  apply build_run.
  - intros e E. eexists; split; [reflexivity|].
    intros e' H; inversion H; subst. left. eexists. reflexivity.
  - intros a e E N Herr. eexists; split; [reflexivity|].
    intros e' H; inversion H; subst. right; left. eauto.
  - intros a args quiet log1 a1 E N Hargs Hq Hl1 c1. split; [|split].
    + intros e ->. eexists; split; [reflexivity|].
      intros e' H; inversion H; subst. left. eexists. reflexivity.
    + intros code -> Hc. eexists; split; [reflexivity|].
      intros e' H; inversion H; subst. right; right.
      do 4 eexists. split; [exact Hc|]. split; reflexivity.
    + intros Hs1 log2 a2 Hl2 cmd2 c2 h. split; [|split].
      * intros e ->. eexists; split; [reflexivity|].
        intros e' H; inversion H; subst. left. eexists. reflexivity.
      * intros code -> Hc. eexists; split; [reflexivity|].
        intros e' H; inversion H; subst. right; right.
        do 4 eexists. split; [exact Hc|]. split; reflexivity.
      * intros _. eexists; split; [reflexivity|]. intros e' H; discriminate H.
Qed.

Lemma cmake_args_wrong_type (options : gmap string pyval) (k : string) (v : pyval) :
  In k string_options \/ (k = "llvm_dir" /\ py_bool v = true) ->
  options !! k = Some v ->
  (forall s, v <> PStr s) ->
  cmake_args options = inl (Builtin TypeError).
Proof.
  intros Hk Hv Hs.
  destruct (cmake_args options) as [e|args] eqn:Hargs;
    [now rewrite (cmake_args_error _ _ Hargs)|exfalso].
  revert Hargs. cbv [cmake_args exc_bind str_add options_get].
  destruct Hk as [Hk|[-> Hb]].
  - cbv [string_options] in Hk. cbn [In] in Hk.
    destruct Hk as [<-|[<-|[<-|[<-|[<-|[]]]]]];
      rewrite Hv; cbn [default from_option id];
      destruct v as [| | |s]; try (exfalso; now apply (Hs s));
      repeat match goal with
             | |- context [match ?x with _ => _ end] =>
                 lazymatch x with
                 | context [match _ with _ => _ end] => fail
                 | _ => destruct x eqn:?
                 end
             end; discriminate.
  - rewrite Hv; cbn [default from_option id]. rewrite Hb.
    destruct v as [| | |s]; try (exfalso; now apply (Hs s));
      repeat match goal with
             | |- context [match ?x with _ => _ end] =>
                 lazymatch x with
                 | context [match _ with _ => _ end] => fail
                 | _ => destruct x eqn:?
                 end
             end; discriminate.
Qed.

(** X13: an option that [build] adds to a string ([toolchain], [arch],
    [abi], [gcc_prefix], [gcc_name], or an [llvm_dir] that counts as
    true) and that is not a string makes [build] raise [TypeError]
    when the build directory has been made and before any command
    runs. *)
Theorem X13_build_option_of_wrong_type (options : gmap string pyval) (hist : History)
        (k : string) (v : pyval) :
  In k string_options \/ (k = "llvm_dir" /\ py_bool v = true) ->
  options !! k = Some v ->
  (forall s, v <> PStr s) ->
  is_fails (env hist (Mkdir (path_join PROJECT_DIR "build") false)) = false ->
  build env PROJECT_DIR NPROC options hist
  = (inl (Builtin TypeError),
     (hist ++ [(Mkdir (path_join PROJECT_DIR "build") false,
                env hist (Mkdir (path_join PROJECT_DIR "build") false))])%list).
Proof.
  intros Hk Hv Hs Hmk.
  pose proof (cmake_args_wrong_type options k v Hk Hv Hs) as Hargs.
  apply sys_wp_eq, build_run.
  - intros e E. rewrite E in Hmk. discriminate Hmk.
  - intros a e E N [H|[[args H] _]]; rewrite Hargs in H; inversion H; subst.
    reflexivity.
  - intros a args quiet log1 a1 E N H. rewrite Hargs in H. discriminate H.
Qed.

Lemma build_quiet_run (options : gmap string pyval) (hist : History) :
  exists new,
    snd (build env PROJECT_DIR NPROC options hist) = (hist ++ new)%list
    /\ forall cmd cwd devnull a,
         In (CheckCall cmd cwd devnull, a) new ->
         cwd = Some (path_join PROJECT_DIR "build")
         /\ (devnull = true <->
             str2bool (options_get options "quiet" PNone) true = inr (PBool true)).
Proof.
  change (sys_wp (build env PROJECT_DIR NPROC options)
            (fun r h => exists new, h = (hist ++ new)%list
               /\ forall cmd cwd devnull a,
                    In (CheckCall cmd cwd devnull, a) new ->
                    cwd = Some (path_join PROJECT_DIR "build")
                    /\ (devnull = true <->
                        str2bool (options_get options "quiet" PNone) true
                        = inr (PBool true)))
            hist).
  assert (Hdn : forall quiet,
             str2bool (options_get options "quiet" PNone) true = inr quiet ->
             (py_bool quiet = true <->
              str2bool (options_get options "quiet" PNone) true = inr (PBool true))).
  { intros quiet Hq. rewrite Hq.
    destruct (str2bool_value _ _ _ Hq) as [->|[b ->]]; cbn.
    - split; intros H; [discriminate H|inversion H].
    - split; intros H; [now subst b|now inversion H]. }
  assert (Hlog : forall (l : syscall * answer) cmd cwd devnull a,
             is_check_call l = false -> (l = (CheckCall cmd cwd devnull, a)) -> False).
  { intros l cmd cwd devnull a Hl ->. discriminate Hl. }
  apply build_run.
  - intros e E. eexists; split; [reflexivity|].
    intros cmd cwd devnull a [H|[]]. discriminate H.
  - intros a e E N Herr. eexists; split; [reflexivity|].
    intros cmd cwd devnull a' [H|[]]. discriminate H.
  - intros a args quiet log1 a1 E N Hargs Hq Hl1 c1.
    pose proof (Hdn quiet Hq) as Hiff.
    assert (H3 : forall cmd cwd devnull a',
               In (CheckCall cmd cwd devnull, a')
                  [(Mkdir (path_join PROJECT_DIR "build") false, a); log1; (c1, a1)] ->
               cwd = Some (path_join PROJECT_DIR "build")
               /\ (devnull = true <->
                   str2bool (options_get options "quiet" PNone) true
                   = inr (PBool true))).
    { intros cmd cwd devnull a' [H|[H|[H|[]]]].
      - discriminate H.
      - exfalso. exact (Hlog _ _ _ _ _ Hl1 H).
      - inversion H; subst. auto. }
    split; [|split].
    + intros e ->. eexists; split; [reflexivity|]. exact H3.
    + intros code -> Hc. eexists; split; [reflexivity|]. exact H3.
    + intros Hs1 log2 a2 Hl2 cmd2 c2 h.
      assert (H5 : exists new, h = (hist ++ new)%list
                /\ forall cmd cwd devnull a',
                     In (CheckCall cmd cwd devnull, a') new ->
                     cwd = Some (path_join PROJECT_DIR "build")
                     /\ (devnull = true <->
                         str2bool (options_get options "quiet" PNone) true
                         = inr (PBool true))).
      { eexists; split; [reflexivity|].
        intros cmd cwd devnull a' [H|[H|[H|[H|[H|[]]]]]].
        - discriminate H.
        - exfalso. exact (Hlog _ _ _ _ _ Hl1 H).
        - inversion H; subst. auto.
        - exfalso. exact (Hlog _ _ _ _ _ Hl2 H).
        - inversion H; subst. auto. }
      repeat split; intros; exact H5.
Qed.

(** X14: every command of a [build] runs in the build directory, and
    its output is discarded exactly when [str2bool] makes [True] of
    the [quiet] option; so it is not discarded when the option is not
    given. *)
Theorem X14_build_quiet (options : gmap string pyval) (hist : History) :
  exists new,
    snd (build env PROJECT_DIR NPROC options hist) = (hist ++ new)%list
    /\ forall cmd cwd devnull a,
         In (CheckCall cmd cwd devnull, a) new ->
         cwd = Some (path_join PROJECT_DIR "build")
         /\ (devnull = true <->
             str2bool (options_get options "quiet" PNone) true = inr (PBool true))
         /\ (options !! "quiet" = None -> devnull = false).
Proof.
  destruct (build_quiet_run options hist) as (new & Hnew & H).
  exists new. split; [exact Hnew|].
  intros cmd cwd devnull a Hin.
  destruct (H cmd cwd devnull a Hin) as [Hcwd Hiff].
  split; [exact Hcwd|]. split; [exact Hiff|].
  intros Hnone. destruct devnull; [|reflexivity].
  pose proof (proj1 Hiff eq_refl) as Hq.
  unfold options_get in Hq. rewrite Hnone in Hq. discriminate Hq.
Qed.

(** X15: a [quiet] option that is a string but none of the words of
    [strtobool] makes [build] raise when the build directory has been
    made and before any command runs: [ValueError], or [TypeError] if
    another option is of the wrong type. *)
Theorem X15_build_quiet_not_a_word (options : gmap string pyval) (hist : History)
        (s : string) :
  options !! "quiet" = Some (PStr s) ->
  strtobool s = inl (Builtin ValueError) ->
  is_fails (env hist (Mkdir (path_join PROJECT_DIR "build") false)) = false ->
  exists e,
    ((exists args, cmake_args options = inr args) /\ e = Builtin ValueError
     \/ cmake_args options = inl e /\ e = Builtin TypeError)
    /\ build env PROJECT_DIR NPROC options hist
       = (inl e,
          (hist ++ [(Mkdir (path_join PROJECT_DIR "build") false,
                     env hist (Mkdir (path_join PROJECT_DIR "build") false))])%list).
Proof.
  intros Hq Hs Hmk.
  assert (Hq' : str2bool (options_get options "quiet" PNone) true
                = inl (Builtin ValueError)).
  { unfold options_get. rewrite Hq. cbn. now rewrite Hs. }
  destruct (cmake_args options) as [e|args] eqn:Hargs.
  - exists e. split; [right; split; [reflexivity|now apply cmake_args_error in Hargs]|].
    apply sys_wp_eq, build_run.
    + intros e' E. rewrite E in Hmk. discriminate Hmk.
    + intros a e' E N [H|[[args H] _]]; rewrite Hargs in H; inversion H; subst.
      reflexivity.
    + intros a args quiet log1 a1 E N H. rewrite Hargs in H. discriminate H.
  - exists (Builtin ValueError). split; [left; eauto|].
    apply sys_wp_eq, build_run.
    + intros e' E. rewrite E in Hmk. discriminate Hmk.
    + intros a e' E N [H|[_ H]]; [rewrite Hargs in H; discriminate H|].
      rewrite Hq' in H. inversion H; subst. reflexivity.
    + intros a args' quiet log1 a1 E N _ H. rewrite Hq' in H. discriminate H.
Qed.

(** X16: a [build] that returns has made the build directory and then
    run two commands and no more, both to a status of 0: [cmake ..]
    with the arguments made of the options, then [make] with the
    number of processors. *)
Theorem X16_build_returns (options : gmap string pyval) (hist : History) :
  fst (build env PROJECT_DIR NPROC options hist) = inr tt ->
  exists new args devnull a0 a1 a2,
    snd (build env PROJECT_DIR NPROC options hist) = (hist ++ new)%list
    /\ cmake_args options = inr args
    /\ hd_error new = Some (Mkdir (path_join PROJECT_DIR "build") false, a0)
    /\ is_fails a0 = false
    /\ List.filter is_check_call new
       = [(CheckCall ("cmake" :: ".." :: args)
             (Some (path_join PROJECT_DIR "build")) devnull, a1);
          (CheckCall ["make"; "-j" ++ py_str (PInt NPROC)]
             (Some (path_join PROJECT_DIR "build")) devnull, a2)]
    /\ succeeded a1 = true /\ succeeded a2 = true.
Proof.
  change (sys_wp (build env PROJECT_DIR NPROC options)
            (fun r h => r = inr tt ->
               exists new args devnull a0 a1 a2,
                 h = (hist ++ new)%list
                 /\ cmake_args options = inr args
                 /\ hd_error new = Some (Mkdir (path_join PROJECT_DIR "build") false, a0)
                 /\ is_fails a0 = false
                 /\ List.filter is_check_call new
                    = [(CheckCall ("cmake" :: ".." :: args)
                          (Some (path_join PROJECT_DIR "build")) devnull, a1);
                       (CheckCall ["make"; "-j" ++ py_str (PInt NPROC)]
                          (Some (path_join PROJECT_DIR "build")) devnull, a2)]
                 /\ succeeded a1 = true /\ succeeded a2 = true)
            hist).
  apply build_run.
  - intros e E H; discriminate H.
  - intros a e E N Herr H; discriminate H.
  - intros a args quiet log1 a1 E N Hargs Hq Hl1 c1. split; [|split].
    + intros e -> H; discriminate H.
    + intros code -> Hc H; discriminate H.
    + intros Hs1 log2 a2 Hl2 cmd2 c2 h. split; [|split].
      * intros e -> H; discriminate H.
      * intros code -> Hc H; discriminate H.
      * intros Hs2 _. exists [(Mkdir (path_join PROJECT_DIR "build") false, a); log1;
                               (c1, a1); log2; (c2, a2)].
        exists args, (py_bool quiet), a, a1, a2.
        split; [reflexivity|]. split; [exact Hargs|]. split; [reflexivity|].
        split; [exact N|]. split; [|auto].
        cbn [List.filter]. rewrite Hl1, Hl2. reflexivity.
Qed.

(** X17: the [debug] option is taken by its truth value and not read
    by [str2bool]: a string that [str2bool] reads as false, such as
    [False] or [0], still gives a [Debug] build. *)
Theorem X17_build_debug_string (options : gmap string pyval) (s : string)
        (args : list string) :
  options !! "debug" = Some (PStr s) ->
  str2bool (PStr s) false = inr (PBool false) ->
  cmake_args options = inr args ->
  hd_error args = Some "-DCMAKE_BUILD_TYPE=Debug".
Proof.
  intros Hd Hs.
  assert (Hne : py_bool (PStr s) = true).
  { destruct s; [discriminate Hs|reflexivity]. }
  cbv [cmake_args exc_bind str_add options_get].
  rewrite Hd; cbn [default from_option id]. rewrite Hne.
  repeat match goal with
         | |- context [match ?x with _ => _ end] =>
             lazymatch x with
             | context [match _ with _ => _ end] => fail
             | _ => destruct x eqn:?
             end
         end; intros H; inversion H; reflexivity.
Qed.

Lemma cmake_args_keys (options options' : gmap string pyval) :
  (forall k, In k build_options -> options !! k = options' !! k) ->
  cmake_args options = cmake_args options'.
Proof.
  intros H. cbv [cmake_args options_get].
  rewrite <- !H by (cbv [build_options]; cbn [In]; tauto).
  reflexivity.
Qed.

(** X18: [build] reads eight options and no other: two sets of options
    that agree on them give the same run, so [verbose] makes no
    difference to it. *)
Theorem X18_build_reads_eight_options (options options' : gmap string pyval)
        (hist : History) :
  (forall k, In k build_options -> options !! k = options' !! k) ->
  build env PROJECT_DIR NPROC options hist = build env PROJECT_DIR NPROC options' hist.
Proof.
  intros H. unfold build.
  rewrite (cmake_args_keys options options' H).
  unfold options_get.
  rewrite (H "quiet") by (cbv [build_options]; cbn [In]; tauto).
  reflexivity.
Qed.

Lemma build_begins (options : gmap string pyval) (hist : History) :
  exists rest,
    snd (build env PROJECT_DIR NPROC options hist)
    = (hist ++ (Mkdir (path_join PROJECT_DIR "build") false,
                env hist (Mkdir (path_join PROJECT_DIR "build") false)) :: rest)%list.
Proof.
  change (sys_wp (build env PROJECT_DIR NPROC options)
            (fun r h => exists rest,
               h = (hist ++ (Mkdir (path_join PROJECT_DIR "build") false,
                             env hist (Mkdir (path_join PROJECT_DIR "build") false))
                            :: rest)%list) hist).
  apply build_run.
  - intros e E. rewrite E. eexists; reflexivity.
  - intros a e E N _. rewrite E. eexists; reflexivity.
  - intros a args quiet log1 a1 E N _ _ _ c1. rewrite E.
    repeat split; intros; eexists; reflexivity.
Qed.

(** X19: [build] cannot be repeated: where a directory that was made
    is refused a second time, once a [build] has made the build
    directory, whether it went on to return or to raise, every later
    [build], with any options and after any further calls, raises
    [FileExistsError] at its first call and runs nothing. *)
Theorem X19_build_not_repeatable (options options' : gmap string pyval)
        (hist later : History) :
  mkdir_refuses_existing env ->
  is_fails (env hist (Mkdir (path_join PROJECT_DIR "build") false)) = false ->
  let after := (snd (build env PROJECT_DIR NPROC options hist) ++ later)%list in
  build env PROJECT_DIR NPROC options' after
  = (inl (Builtin (FileExistsError (path_join PROJECT_DIR "build"))),
     (after ++ [(Mkdir (path_join PROJECT_DIR "build") false,
                 Fails (Builtin (FileExistsError (path_join PROJECT_DIR "build"))))])%list).
Proof.
  intros Hlaw Hmk after.
  assert (Hmade : existsb (made (path_join PROJECT_DIR "build")) after = true).
  { subst after. destruct (build_begins options hist) as [rest ->].
    rewrite !existsb_app. cbn [existsb made].
    rewrite String.eqb_refl, Hmk. cbn. now rewrite orb_true_r. }
  pose proof (Hlaw after _ false Hmade) as Hrefused.
  apply sys_wp_eq, build_run.
  - intros e E. rewrite Hrefused in E. inversion E; subst. reflexivity.
  - intros a e E N _. rewrite Hrefused in E. subst a. discriminate N.
  - intros a args quiet log1 a1 E N. rewrite Hrefused in E. subst a. discriminate N.
Qed.

End BuildFacts.

(** ** [_populate_cmake] and [generate_project] *)

Lemma sys_wp_mono {A : Type} (c : Sys A) (Q Q' : exc + A -> History -> Prop)
      (hist : History) :
  sys_wp c Q hist -> (forall r h, Q r h -> Q' r h) -> sys_wp c Q' hist.
Proof. unfold sys_wp. auto. Qed.

Lemma sys_wp_extends {A : Type} (c : Sys A) (Q : exc + A -> History -> Prop)
      (hist : History) :
  extends c -> (forall r new, Q r (hist ++ new)%list) -> sys_wp c Q hist.
Proof.
  intros Hc HQ. unfold sys_wp. destruct (Hc hist) as [new ->]. apply HQ.
Qed.

Lemma extends_wp {A : Type} (c : Sys A) :
  (forall hist, sys_wp c (fun _ h => exists new, h = (hist ++ new)%list) hist) ->
  extends c.
Proof. intros H hist. apply H. Qed.

Lemma extends_bind {A B : Type} (c : Sys A) (k : A -> Sys B) :
  extends c -> (forall a, extends (k a)) -> extends (sys_bind c k).
Proof.
  intros Hc Hk hist. unfold sys_bind.
  destruct (Hc hist) as [new Hnew]. destruct (c hist) as [[e|a] h]; cbn [snd] in *.
  - eauto.
  - subst h. destruct (Hk a (hist ++ new)%list) as [new' ->].
    exists (new ++ new')%list. now rewrite app_assoc.
Qed.

Lemma extends_ret {A : Type} (a : A) : extends (sys_ret a).
Proof. intros hist. exists []. cbn. now rewrite app_nil_r. Qed.

Lemma extends_raise {A : Type} (e : exc) : extends (@sys_raise A e).
Proof. intros hist. exists []. cbn. now rewrite app_nil_r. Qed.

Lemma extends_lift {A : Type} (r : exc + A) : extends (lift r).
Proof. intros hist. exists []. cbn. now rewrite app_nil_r. Qed.

Lemma extends_finally {A : Type} (c : Sys A) (cleanup : Sys unit) :
  extends c -> extends cleanup -> extends (finally c cleanup).
Proof.
  intros Hc Hk hist. unfold finally.
  destruct (Hc hist) as [new Hnew]. destruct (c hist) as [r h]; cbn [snd] in *.
  subst h. destruct (Hk (hist ++ new)%list) as [new' Hnew'].
  destruct (cleanup (hist ++ new)%list) as [[e|u] h']; cbn [snd] in *; subst h';
    exists (new ++ new')%list; now rewrite app_assoc.
Qed.

Lemma extends_call (env : History -> syscall -> answer) (c : syscall) :
  extends (call env c).
Proof. intros hist. eexists. reflexivity. Qed.

Lemma extends_isdir (env : History -> syscall -> answer) (path : string) :
  extends (os_path_isdir env path).
Proof. intros hist. eexists. reflexivity. Qed.

Lemma extends_if {A : Type} (b : bool) (c c' : Sys A) :
  extends c -> extends c' -> extends (if b then c else c').
Proof. now destruct b. Qed.

Lemma extends_write_lines (env : History -> syscall -> answer) (path : string)
      (lines : list string) :
  extends (write_lines env path lines).
Proof.
  induction lines as [|line lines IH]; cbn [write_lines].
  - apply extends_ret.
  - apply extends_bind; [apply extends_call|intros _; exact IH].
Qed.

Ltac extends_tac :=
  repeat first
    [ apply extends_ret | apply extends_raise | apply extends_lift
    | apply extends_call | apply extends_isdir | apply extends_write_lines
    | apply extends_bind; [|intros ?]
    | apply extends_finally
    | apply extends_if
    | match goal with
      | |- extends (match ?x with _ => _ end) => destruct x
      end ].

Lemma extends_populate_cmake (env : History -> syscall -> answer)
      (tp cp : string) (memory_size verbose : pyval) :
  extends (_populate_cmake env tp cp memory_size verbose).
Proof. unfold _populate_cmake. extends_tac. Qed.

Lemma extends_copy_crt_items (env : History -> syscall -> answer)
      (d p : string) (items : list string) :
  extends (copy_crt_items env d p items).
Proof.
  induction items as [|item items IH]; cbn [copy_crt_items].
  - apply extends_ret.
  - extends_tac. exact IH.
Qed.

Lemma writes_to_app (path : string) (l l' : History) :
  writes_to path (l ++ l')%list = (writes_to path l ++ writes_to path l')%list.
Proof. unfold writes_to. now rewrite map_app, concat_app. Qed.

Lemma writes_to_cons (path : string) (x : syscall * answer) (l : History) :
  writes_to path (x :: l) = (written_to path x ++ writes_to path l)%list.
Proof. reflexivity. Qed.

Lemma written_to_write (path text : string) (a : answer) :
  is_fails a = false -> written_to path (Write path text, a) = [text].
Proof. intros H. cbn. now rewrite String.eqb_refl, H. Qed.

Lemma last_cons_app {A : Type} (x y : A) (l l' : list A) :
  last (x :: l ++ y :: l')%list = last (y :: l').
Proof.
  apply (last_app_cons (x :: l)).
Qed.

Ltac in_cases :=
  repeat match goal with
         | H : In _ (_ ++ _)%list |- _ => apply in_app_or in H
         | H : In _ (_ :: _) |- _ => cbn [In] in H
         | H : In _ [] |- _ => destruct H
         | H : False |- _ => destruct H
         | H : _ \/ _ |- _ => destruct H
         end.

Section PopulateFacts.

Variable env : History -> syscall -> answer.

Lemma write_lines_run (path : string) (lines : list string) (hist : History) :
  sys_wp (write_lines env path lines)
    (fun r h => exists new,
         h = (hist ++ new)%list
         /\ Forall (is_write_to path) new
         /\ (r = inr tt -> writes_to path new = lines)) hist.
Proof.
  revert hist. induction lines as [|line lines IH]; intros hist; cbn [write_lines].
  - sys_step. exists []. rewrite app_nil_r. repeat split; auto.
  - sys_step. sys_step.
    + eexists; split; [reflexivity|]. split; [|discriminate].
      constructor; [now exists line|constructor].
    + apply (sys_wp_mono _ _ _ _ (IH _)).
      intros r h (new & -> & HF & Hr).
      exists ((Write path line, a) :: new). rewrite <- app_assoc. split; [reflexivity|].
      split; [constructor; [now exists line|exact HF]|].
      intros ->. rewrite writes_to_cons, written_to_write by exact N.
      now rewrite (Hr eq_refl).
Qed.

Lemma template_body (path : string) (B : Type) (k : unit -> Sys B) (a : answer) :
  sys_bind (match a with
            | Opened lines err =>
                sys_bind (write_lines env path lines)
                         (fun _ => match err with
                                   | Some e => sys_raise e
                                   | None => sys_ret tt
                                   end)
            | _ => sys_ret tt
            end) k
  = sys_bind (sys_bind (write_lines env path (template_lines a))
                       (fun _ => match template_err a with
                                 | Some e => sys_raise e
                                 | None => sys_ret tt
                                 end)) k.
Proof. destruct a; reflexivity. Qed.

Ltac populate_kinds HF :=
  let x := fresh "x" in let H := fresh "H" in
  intros x H; unfold on_cmake_files; in_cases;
  try match goal with H : _ = x |- _ => subst x end;
  try (pose proof (proj1 (List.Forall_forall _ _) HF _ H)); cbn [fst];
  first [ now left | now (right; left) | now (right; right; left)
        | now (right; right; left; eexists)
        | now (right; right; right; left) | now (right; right; right; right) ].

Ltac not_write HF :=
  match goal with
  | H : In (?c, _) ?ws |- _ =>
      let Hw := fresh in
      pose proof (proj1 (List.Forall_forall _ _) HF _ H) as Hw;
      destruct Hw as [? Hw]; cbn [fst] in Hw; discriminate Hw
  end.

Ltac populate_leaf HF :=
  eexists; split; [rewrite <- ?app_assoc; cbn [app]; reflexivity|];
  split; [populate_kinds HF|];
  split; [let a := fresh "a" in let H := fresh "H" in let Hn := fresh "Hn" in
          intros a H Hn; in_cases;
          try match goal with H : (_, _) = (_, _) |- _ => inversion H; subst; clear H end;
          try (cbn in Hn; discriminate Hn); try discriminate; try not_write HF;
          eexists; repeat first [rewrite last_cons_app | rewrite last_cons_cons]; reflexivity|];
  split; [let a := fresh "a" in let H := fresh "H" in let Hn := fresh "Hn" in
          intros a H Hn; in_cases;
          try match goal with H : (_, _) = (_, _) |- _ => inversion H; subst; clear H end;
          try (cbn in Hn; discriminate Hn); try discriminate; try not_write HF;
          eexists; cbn [In]; rewrite ?in_app_iff; cbn [In];
          repeat first [ left; reflexivity | right ]|].

Lemma populate_cmake_run (template_path path : string) (memory_size verbose : pyval)
      (hist : History) :
  sys_wp (_populate_cmake env template_path path memory_size verbose)
    (fun r h => exists new,
         h = (hist ++ new)%list
         /\ (forall x, In x new -> on_cmake_files template_path path x)
         /\ (forall a, In (OpenWrite path, a) new -> is_fails a = false ->
                       exists a', last new = Some (Close path, a'))
         /\ (forall a, In (OpenRead template_path, a) new -> is_fails a = false ->
                       exists a', In (Close template_path, a') new)
         /\ (r = inr tt ->
             exists a, In (OpenRead template_path, a) new
                       /\ is_fails a = false
                       /\ writes_to path new
                          = (template_lines a ++ [definition_line memory_size]
                             ++ (if py_bool verbose then [verbose_line] else []))%list))
    hist.
Proof.
  unfold _populate_cmake.
  sys_step. sys_step.
  { populate_leaf (Forall_nil (is_write_to path)). discriminate. }
  sys_step. sys_step. sys_step.
  { repeat sys_step; populate_leaf (Forall_nil (is_write_to path)); discriminate. }
  sys_step. rewrite template_body.
  sys_step. sys_step.
  apply (sys_wp_mono _ _ _ _ (write_lines_run _ _ _)).
  intros r h (ws & -> & HF & Hws).
  destruct r as [e|[]].
  { repeat sys_step; populate_leaf HF; discriminate. }
  destruct (template_err a0) as [e|].
  { repeat sys_step; populate_leaf HF; discriminate. }
  sys_step. sys_step. sys_step.
  { repeat sys_step; populate_leaf HF; discriminate. }
  destruct (py_bool verbose).
  - sys_step. sys_step.
    { repeat sys_step; populate_leaf HF; discriminate. }
    repeat sys_step; populate_leaf HF; try discriminate.
    intros _. exists a0. split; [cbn [In]; auto|]. split; [assumption|].
    rewrite !writes_to_cons, writes_to_app, !writes_to_cons.
    unfold definition_line, verbose_line.
    rewrite !written_to_write by assumption. cbn [written_to writes_to map concat app].
    rewrite (Hws eq_refl). reflexivity.
  - repeat sys_step; populate_leaf HF; try discriminate.
    intros _. exists a0. split; [cbn [In]; auto|]. split; [assumption|].
    rewrite !writes_to_cons, writes_to_app, !writes_to_cons.
    unfold definition_line.
    rewrite !written_to_write by assumption. cbn [written_to writes_to map concat app].
    rewrite (Hws eq_refl). reflexivity.
Qed.

End PopulateFacts.

Section PopulateTheorems.

Variable env : History -> syscall -> answer.

(** X20: [_populate_cmake] touches its two files only, and leaves none
    of them open, however it ends: if the CMake file was opened, the
    last call closes it, and if the template was opened, it is closed
    too. *)
Theorem X20_populate_cmake_closes_files (template_path path : string)
        (memory_size verbose : pyval) (hist : History) :
  exists new,
    snd (_populate_cmake env template_path path memory_size verbose hist)
    = (hist ++ new)%list
    /\ (forall x, In x new -> on_cmake_files template_path path x)
    /\ (forall a, In (OpenWrite path, a) new -> is_fails a = false ->
                  exists a', last new = Some (Close path, a'))
    /\ (forall a, In (OpenRead template_path, a) new -> is_fails a = false ->
                  exists a', In (Close template_path, a') new).
Proof.
  destruct (populate_cmake_run env template_path path memory_size verbose hist)
    as (new & Hnew & Hk & Hw & Hr & _).
  exists new. auto.
Qed.

(** X21: when [_populate_cmake] returns, what was written to the CMake
    file is the lines of the template, in their order, then the line
    that defines the workspace size, then the line that makes [make]
    verbose if [verbose] counts as true, and nothing else. *)
Theorem X21_populate_cmake_writes (template_path path : string)
        (memory_size verbose : pyval) (hist : History) :
  fst (_populate_cmake env template_path path memory_size verbose hist) = inr tt ->
  exists new a,
    snd (_populate_cmake env template_path path memory_size verbose hist)
    = (hist ++ new)%list
    /\ In (OpenRead template_path, a) new
    /\ writes_to path new
       = (template_lines a ++ [definition_line memory_size]
          ++ (if py_bool verbose then [verbose_line] else []))%list.
Proof.
  intros Hr.
  destruct (populate_cmake_run env template_path path memory_size verbose hist)
    as (new & Hnew & _ & _ & _ & Hw).
  destruct (Hw Hr) as (a & Ha & _ & Hwr).
  exists new, a. auto.
Qed.

End PopulateTheorems.

(** ** [generate_project] *)

Section GenerateFacts.

Variable env : History -> syscall -> answer.
Variable FILE : string.
Variable FILE_basename : string.
Variable current_dir : string.

Lemma call_if (b : bool) (c c' : syscall) :
  (if b then call env c else call env c') = call env (if b then c else c').
Proof. now destruct b. Qed.

Lemma copy_crt_items_run (d p : string) (items : list string) (hist : History) :
  sys_wp (copy_crt_items env d p items)
    (fun r h => exists new,
         h = (hist ++ new)%list
         /\ forallb is_crt_call new = true
         /\ forall e, r = inl e -> exists c, In (c, Fails e) new) hist.
Proof.
  revert hist. induction items as [|item items IH]; intros hist; cbn [copy_crt_items].
  - sys_step. exists []. rewrite app_nil_r. repeat split; auto. discriminate.
  - sys_step. sys_step. sys_step. rewrite call_if. sys_step.
    + eexists; split; [rewrite <- app_assoc; reflexivity|]. split.
      * cbn. now destruct b.
      * intros e' H; inversion H; subst. eexists. cbn [In app]. eauto.
    + apply (sys_wp_mono _ _ _ _ (IH _)).
      intros r h (new & -> & HF & Hr).
      eexists; split; [rewrite <- !app_assoc; reflexivity|]. split.
      * cbn [app forallb]. rewrite HF. cbn. now destruct b.
      * intros e' H. destruct (Hr e' H) as [c Hc]. exists c. cbn [app In]. auto.
Qed.

End GenerateFacts.

Lemma crt_call_kinds (x : syscall * answer) :
  is_crt_call x = true ->
  is_open_write x = false /\ is_mkdir x = false
  /\ (forall p, written_to p x = [])
  /\ (forall p, fst x <> TarOpen p).
Proof.
  destruct x as [[] a]; cbn; try discriminate; intros _;
    repeat split; try reflexivity; discriminate.
Qed.

Lemma crt_calls_no_mkdir (l : History) :
  forallb is_crt_call l = true -> List.filter is_mkdir l = [].
Proof.
  induction l as [|x l IH]; cbn [forallb List.filter]; [reflexivity|].
  intros H. apply andb_prop in H as [Hx Hl].
  now rewrite (proj1 (proj2 (crt_call_kinds x Hx))), IH.
Qed.

Lemma crt_calls_no_writes (p : string) (l : History) :
  forallb is_crt_call l = true -> writes_to p l = [].
Proof.
  induction l as [|x l IH]; [reflexivity|]. cbn [forallb].
  intros H. apply andb_prop in H as [Hx Hl].
  rewrite writes_to_cons, IH by exact Hl.
  now rewrite (proj1 (proj2 (proj2 (crt_call_kinds x Hx)))).
Qed.

Ltac sys_leaf := rewrite <- ?app_assoc; cbn [app]; reflexivity.

Ltac in_solve :=
  cbn [In]; rewrite ?in_app_iff; cbn [In]; repeat first [ left; reflexivity | right ].

(** Some call of the run failed, against [Hall]. *)
Ltac failed_call Hall :=
  exfalso;
  match goal with
  | E : _ = Fails ?e |- _ =>
      match type of E with
      | _ _ ?c = _ =>
          let Hx := fresh in
          assert (Hx : is_fails (snd (c, Fails e)) = false) by (apply Hall; in_solve);
          discriminate Hx
      end
  end.

Section GenerateTheorems.

Variable env : History -> syscall -> answer.
Variable FILE : string.
Variable FILE_basename : string.
Variable current_dir : string.

(** X22: without a [verbose] option, or with [None] for it,
    [generate_project] never returns: it raises, and has not opened
    the CMake file by then. If no call fails, what it raises is the
    [AssertionError] of [str2bool], with three directories of the
    project already made. *)
Theorem X22_generate_project_needs_verbose
        (model_library_format_path standalone_crt_dir project_dir : string)
        (options : gmap string pyval) (hist : History) :
  options_get options "verbose" PNone = PNone ->
  exists e new,
    generate_project env FILE FILE_basename current_dir model_library_format_path
      standalone_crt_dir project_dir options hist
    = (inl e, (hist ++ new)%list)
    /\ (forall x, In x new -> is_open_write x = false)
    /\ ((forall x, In x new -> is_fails (snd x) = false) ->
        e = AssertionError "str2bool received None value while allow_none=False"
        /\ map fst (List.filter is_mkdir new)
           = [Mkdir project_dir true;
              Mkdir (path_join project_dir "model") true;
              Mkdir (path_join project_dir "crt") false]).
Proof.
  intros Hv.
  rewrite (surjective_pairing (generate_project _ _ _ _ _ _ _ _ _)).
  change (sys_wp (generate_project env FILE FILE_basename current_dir
                    model_library_format_path standalone_crt_dir project_dir options)
            (fun r h => exists e new,
                 (r, h) = (inl e, (hist ++ new)%list)
                 /\ (forall x, In x new -> is_open_write x = false)
                 /\ ((forall x, In x new -> is_fails (snd x) = false) ->
                     e = AssertionError
                           "str2bool received None value while allow_none=False"
                     /\ map fst (List.filter is_mkdir new)
                        = [Mkdir project_dir true;
                           Mkdir (path_join project_dir "model") true;
                           Mkdir (path_join project_dir "crt") false])) hist).
  unfold generate_project.
  repeat sys_step;
    try (do 2 eexists; split; [sys_leaf|];
         split; [intros x H; in_cases; subst x; reflexivity
                |intros Hall; failed_call Hall]).
  apply (sys_wp_mono _ _ _ _ (copy_crt_items_run _ _ _ _ _)).
  intros r h (crt & -> & HF & Hr). destruct r as [e|[]].
  - do 2 eexists; split; [sys_leaf|]. split.
    + intros x H; in_cases; try (subst x; reflexivity).
      now apply crt_call_kinds, (proj1 (forallb_forall _ _) HF).
    + intros Hall. exfalso. destruct (Hr e eq_refl) as [c Hc].
      assert (Hx : is_fails (snd (c, Fails e)) = false)
        by (apply Hall; cbn [In]; rewrite ?in_app_iff; auto 12).
      discriminate Hx.
  - sys_step. sys_step. rewrite Hv. cbn [str2bool].
    do 2 eexists; split; [sys_leaf|]. split.
    + intros x H; in_cases; try (subst x; reflexivity).
      now apply crt_call_kinds, (proj1 (forallb_forall _ _) HF).
    + intros _. split; [reflexivity|].
      cbn [List.filter is_mkdir fst]. rewrite crt_calls_no_mkdir by exact HF.
      unfold stem, MODEL_LIBRARY_FORMAT_RELPATH. reflexivity.
Qed.

Ltac extends_all :=
  repeat first
    [ apply extends_copy_crt_items | apply extends_populate_cmake
    | apply extends_ret | apply extends_lift | apply extends_call
    | apply extends_bind; [|intros ?]
    | apply extends_finally ].

Lemma extends_generate_project
      (model_library_format_path standalone_crt_dir project_dir : string)
      (options : gmap string pyval) :
  extends (generate_project env FILE FILE_basename current_dir
             model_library_format_path standalone_crt_dir project_dir options).
Proof. unfold generate_project. extends_all. Qed.

(** X23: [generate_project] does not leave the archive open: in every
    run, either the archive was not opened, or the call that opened it
    is followed by the call that closes it, whether the extraction
    went through or raised. *)
Theorem X23_generate_project_closes_archive
        (model_library_format_path standalone_crt_dir project_dir : string)
        (options : gmap string pyval) (hist : History) :
  exists new,
    snd (generate_project env FILE FILE_basename current_dir model_library_format_path
           standalone_crt_dir project_dir options hist)
    = (hist ++ new)%list
    /\ ((forall x, In x new ->
                   fst x = TarOpen (path_join project_dir MODEL_LIBRARY_FORMAT_RELPATH) ->
                   is_fails (snd x) = true)
        \/ exists before a during a' after,
             is_fails a = false
             /\ new = (before
                       ++ (TarOpen (path_join project_dir MODEL_LIBRARY_FORMAT_RELPATH), a)
                       :: during
                       ++ (TarClose (path_join project_dir MODEL_LIBRARY_FORMAT_RELPATH),
                           a')
                       :: after)%list).
Proof.
  change (sys_wp (generate_project env FILE FILE_basename current_dir
                    model_library_format_path standalone_crt_dir project_dir options)
            (fun r h => exists new,
                 h = (hist ++ new)%list
                 /\ ((forall x, In x new ->
                        fst x = TarOpen
                                  (path_join project_dir MODEL_LIBRARY_FORMAT_RELPATH) ->
                        is_fails (snd x) = true)
                     \/ exists before a during a' after,
                          is_fails a = false
                          /\ new = (before
                                    ++ (TarOpen
                                          (path_join project_dir
                                             MODEL_LIBRARY_FORMAT_RELPATH), a)
                                    :: during
                                    ++ (TarClose
                                          (path_join project_dir
                                             MODEL_LIBRARY_FORMAT_RELPATH), a')
                                    :: after)%list)) hist).
  unfold generate_project.
  repeat (lazymatch goal with
          | |- sys_wp (sys_bind (call _ (Mkdir (path_join _ "crt") _)) _) _ _ => fail
          | |- _ => sys_step
          end);
    try (apply sys_wp_extends; [extends_all|]; intros r new);
    (eexists; split; [sys_leaf|]);
    first
      [ left; intros x H Hx; in_cases; subst x; first [discriminate Hx|reflexivity]
      | right; refine (ex_intro _ [_; _; _] _); eexists;
        (refine (ex_intro _ [] _) + refine (ex_intro _ [_] _)
         + refine (ex_intro _ [_; _] _));
        do 2 eexists; (split; [|cbn [app]; reflexivity]); assumption ].
Qed.

Lemma generate_project_begins
      (model_library_format_path standalone_crt_dir project_dir : string)
      (options : gmap string pyval) (hist : History) :
  exists rest,
    snd (generate_project env FILE FILE_basename current_dir model_library_format_path
           standalone_crt_dir project_dir options hist)
    = (hist ++ (Mkdir project_dir true, env hist (Mkdir project_dir true)) :: rest)%list.
Proof.
  change (sys_wp (generate_project env FILE FILE_basename current_dir
                    model_library_format_path standalone_crt_dir project_dir options)
            (fun r h => exists rest,
                 h = (hist ++ (Mkdir project_dir true,
                               env hist (Mkdir project_dir true)) :: rest)%list) hist).
  unfold generate_project. sys_step. sys_step.
  - rewrite E. eexists; reflexivity.
  - apply sys_wp_extends; [extends_all|]. intros r new.
    rewrite E. exists new. now rewrite <- app_assoc.
Qed.

(** X24: [generate_project] cannot be repeated for the same directory:
    where a directory that was made is refused a second time, once a
    run has made the project directory, whether it went on to return
    or to raise, every later run for that directory, with any model,
    CRT and options, raises [FileExistsError] at its first call and
    copies nothing. *)
Theorem X24_generate_project_not_repeatable
        (model_library_format_path standalone_crt_dir : string)
        (model_library_format_path' standalone_crt_dir' : string)
        (project_dir : string) (options options' : gmap string pyval)
        (hist later : History) :
  mkdir_refuses_existing env ->
  is_fails (env hist (Mkdir project_dir true)) = false ->
  let after :=
    (snd (generate_project env FILE FILE_basename current_dir model_library_format_path
            standalone_crt_dir project_dir options hist) ++ later)%list in
  generate_project env FILE FILE_basename current_dir model_library_format_path'
    standalone_crt_dir' project_dir options' after
  = (inl (Builtin (FileExistsError project_dir)),
     (after ++ [(Mkdir project_dir true,
                 Fails (Builtin (FileExistsError project_dir)))])%list).
Proof.
  intros Hlaw Hmk after.
  assert (Hmade : existsb (made project_dir) after = true).
  { subst after.
    destruct (generate_project_begins model_library_format_path standalone_crt_dir
                project_dir options hist) as [rest ->].
    rewrite !existsb_app. cbn [existsb made].
    rewrite String.eqb_refl, Hmk. cbn. now rewrite orb_true_r. }
  pose proof (Hlaw after _ true Hmade) as Hrefused.
  apply sys_wp_eq. unfold generate_project. sys_step. sys_step.
  - rewrite Hrefused in E. inversion E; subst. reflexivity.
  - rewrite Hrefused in E. subst a. discriminate N.
Qed.

Lemma cmake_files_no_mkdir (template_path path : string) (l : History) :
  (forall x, In x l -> on_cmake_files template_path path x) ->
  List.filter is_mkdir l = [].
Proof.
  induction l as [|x l IH]; intros H; cbn [List.filter]; [reflexivity|].
  rewrite IH by (intros y Hy; apply H; now right).
  destruct (H x (or_introl eq_refl)) as [Hx|[Hx|[[t Hx]|[Hx|Hx]]]];
    unfold is_mkdir; now rewrite Hx.
Qed.

(** X25: when [generate_project] returns, it has made six directories,
    the project directory first, and what it has written to the CMake
    file of the project is the template of the server's directory, the
    workspace size of the options, or 1048576 bytes without one, and
    the verbose line if the [verbose] option reads as true. *)
Theorem X25_generate_project_returns
        (model_library_format_path standalone_crt_dir project_dir : string)
        (options : gmap string pyval) (hist : History) :
  fst (generate_project env FILE FILE_basename current_dir model_library_format_path
         standalone_crt_dir project_dir options hist) = inr tt ->
  exists new template verbose,
    snd (generate_project env FILE FILE_basename current_dir model_library_format_path
           standalone_crt_dir project_dir options hist)
    = (hist ++ new)%list
    /\ str2bool (options_get options "verbose" PNone) false = inr (PBool verbose)
    /\ In (OpenRead (path_join current_dir "CMakeLists.txt.template"), template) new
    /\ writes_to (path_join project_dir "CMakeLists.txt") new
       = (template_lines template
          ++ [definition_line (options_get options "workspace_size_bytes"
                                 (PInt 1048576))]
          ++ (if verbose then [verbose_line] else []))%list
    /\ map fst (List.filter is_mkdir new)
       = [Mkdir project_dir true;
          Mkdir (path_join project_dir "model") true;
          Mkdir (path_join project_dir "crt") false;
          Mkdir (path_join project_dir "cmake") false;
          Mkdir (path_join project_dir "crt_config") false;
          Mkdir (path_join project_dir "src") false].
Proof.
  change (sys_wp (generate_project env FILE FILE_basename current_dir
                    model_library_format_path standalone_crt_dir project_dir options)
            (fun r h => r = inr tt ->
               exists new template verbose,
                 h = (hist ++ new)%list
                 /\ str2bool (options_get options "verbose" PNone) false
                    = inr (PBool verbose)
                 /\ In (OpenRead (path_join current_dir "CMakeLists.txt.template"),
                        template) new
                 /\ writes_to (path_join project_dir "CMakeLists.txt") new
                    = (template_lines template
                       ++ [definition_line (options_get options "workspace_size_bytes"
                                              (PInt 1048576))]
                       ++ (if verbose then [verbose_line] else []))%list
                 /\ map fst (List.filter is_mkdir new)
                    = [Mkdir project_dir true;
                       Mkdir (path_join project_dir "model") true;
                       Mkdir (path_join project_dir "crt") false;
                       Mkdir (path_join project_dir "cmake") false;
                       Mkdir (path_join project_dir "crt_config") false;
                       Mkdir (path_join project_dir "src") false]) hist).
  unfold generate_project.
  repeat sys_step; try (intros Hd; discriminate Hd).
  apply (sys_wp_mono _ _ _ _ (copy_crt_items_run _ _ _ _ _)).
  intros r h (crt & -> & HF & _). destruct r as [e|[]]; [intros Hd; discriminate Hd|].
  sys_step. sys_step.
  destruct (str2bool (options_get options "verbose" PNone) false) as [e|v] eqn:Hv;
    [intros Hd; discriminate Hd|].
  assert (Hb : v = PBool (py_bool v)).
  { destruct (options_get options "verbose" PNone) as [|b|z|s]; cbn in Hv.
    - discriminate Hv.
    - now inversion Hv.
    - now inversion Hv.
    - destruct (strtobool s); inversion Hv; reflexivity. }
  sys_step.
  apply (sys_wp_mono _ _ _ _ (populate_cmake_run _ _ _ _ _ _)).
  intros r h (pn & -> & Hk & _ & _ & Hw).
  destruct r as [e|[]]; [intros Hd; discriminate Hd|].
  destruct (Hw eq_refl) as (template & Ht & _ & Hwr).
  repeat sys_step; try (intros Hd; discriminate Hd).
  intros _. eexists. exists template, (py_bool v).
  split; [sys_leaf|]. split; [now rewrite <- Hb|].
  split; [cbn [In]; rewrite ?in_app_iff; cbn [In];
          repeat first [ left; exact Ht | right ]|].
  split.
  - repeat first [ rewrite writes_to_cons | rewrite writes_to_app ].
    cbv [CMAKEFILE_FILENAME] in Hwr.
    rewrite Hwr, crt_calls_no_writes by exact HF.
    cbn [written_to writes_to map concat app]. now rewrite app_nil_r.
  - cbn [List.filter is_mkdir fst]. rewrite !List.filter_app.
    rewrite crt_calls_no_mkdir by exact HF.
    rewrite (cmake_files_no_mkdir _ _ _ Hk).
    cbn [List.filter is_mkdir fst app map]. reflexivity.
Qed.

End GenerateTheorems.

(** ** [_set_nonblock] *)

Lemma lor_land_same (flag c : Z) : Z.land (Z.lor flag c) c = c.
Proof.
  apply Z.bits_inj'. intros n Hn.
  rewrite Z.land_spec, Z.lor_spec. destruct (Z.testbit flag n), (Z.testbit c n); reflexivity.
Qed.

(** X26: where the flags that [F_SETFL] was given are the flags that
    [F_GETFL] gives next, the assertion of [_set_nonblock] never
    fails: whatever it raises was raised by its last call to [fcntl],
    and when it returns, it has read the flags, set them with
    [O_NONBLOCK] added and no flag taken away, and read them back. *)
Theorem X26_set_nonblock_assertion_holds
        (env : History -> syscall -> answer) (O_NONBLOCK : Z) (fd : Z) (hist : History) :
  flags_stored env ->
  O_NONBLOCK <> 0%Z ->
  exists new,
    snd (_set_nonblock env O_NONBLOCK fd hist) = (hist ++ new)%list
    /\ (forall e, fst (_set_nonblock env O_NONBLOCK fd hist) = inl e ->
                  exists c, last new = Some (c, Fails e))
    /\ (fst (_set_nonblock env O_NONBLOCK fd hist) = inr tt ->
        exists a0 flag a1,
          (a0 = Flags flag \/ flag = 0%Z)
          /\ new = [(FcntlGetfl fd, a0);
                    (FcntlSetfl fd (Z.lor flag O_NONBLOCK), a1);
                    (FcntlGetfl fd, Flags (Z.lor flag O_NONBLOCK))]
          /\ forall n, (0 <= n)%Z -> Z.testbit flag n = true ->
                       Z.testbit (Z.lor flag O_NONBLOCK) n = true).
Proof.
  intros Hlaw Hnz.
  change (sys_wp (_set_nonblock env O_NONBLOCK fd)
            (fun r h => exists new,
                 h = (hist ++ new)%list
                 /\ (forall e, r = inl e -> exists c, last new = Some (c, Fails e))
                 /\ (r = inr tt ->
                     exists a0 flag a1,
                       (a0 = Flags flag \/ flag = 0%Z)
                       /\ new = [(FcntlGetfl fd, a0);
                                 (FcntlSetfl fd (Z.lor flag O_NONBLOCK), a1);
                                 (FcntlGetfl fd, Flags (Z.lor flag O_NONBLOCK))]
                       /\ forall n, (0 <= n)%Z -> Z.testbit flag n = true ->
                                    Z.testbit (Z.lor flag O_NONBLOCK) n = true)) hist).
  unfold _set_nonblock, fcntl_getfl.
  do 3 sys_step.
  { eexists; split; [sys_leaf|]. split; [|discriminate].
    intros e' H; inversion H; subst. eexists; reflexivity. }
  sys_step. sys_step. sys_step.
  { eexists; split; [sys_leaf|]. split; [|discriminate].
    intros e' H; inversion H; subst. eexists; reflexivity. }
  do 3 sys_step.
  { eexists; split; [sys_leaf|]. split; [|discriminate].
    intros e' H; inversion H; subst. eexists; reflexivity. }
  sys_step.
  rewrite (Hlaw _ _ _ _ N0) in E1. subst a1.
  rewrite lor_land_same. destruct (O_NONBLOCK =? 0)%Z eqn:Hz;
    [apply Z.eqb_eq in Hz; contradiction|]. cbn [negb].
  sys_step. eexists; split; [sys_leaf|]. split; [discriminate|].
  intros _. do 3 eexists. split; [|split; [reflexivity|]].
  - destruct a; first [ left; reflexivity | right; reflexivity ].
  - intros n Hn Hb. rewrite Z.lor_spec, Hb. reflexivity.
Qed.

(** ** The environments of the examples *)

Lemma env_disk_refuses : mkdir_refuses_existing env_disk.
Proof.
  intros hist p parents H. cbn. now rewrite H.
Qed.

Lemma last_flags_app (fd : Z) (l l' : History) (flags : Z) :
  last_flags fd (l ++ l')%list flags = last_flags fd l' (last_flags fd l flags).
Proof.
  revert flags. induction l as [|[c a] l IH]; intros flags; [reflexivity|].
  destruct c; cbn [app last_flags]; apply IH.
Qed.

Lemma env_disk_stores_flags : flags_stored env_disk.
Proof.
  intros hist fd v a Ha. cbn [env_disk]. rewrite last_flags_app. cbn [last_flags].
  now rewrite Z.eqb_refl, Ha.
Qed.

(** ** The options that [server_info_query] declares *)

Section InfoFacts.

Variable env : History -> syscall -> answer.
Variable IS_TEMPLATE : bool.
Variable PROJECT_DIR : string.
Variable NPROC : Z.

Lemma build_default (options : gmap string pyval) (k : string) (d : pyval)
      (hist : History) :
  In (k, d) [("verbose", PBool false); ("debug", PBool false); ("arch", PStr ARCH);
             ("abi", PStr ABI); ("toolchain", PStr TOOLCHAIN); ("llvm_dir", PNone);
             ("gcc_prefix", PStr EmptyString); ("gcc_name", PStr TRIPLE)] ->
  options !! k = None ->
  build env PROJECT_DIR NPROC (<[k := d]> options) hist
  = build env PROJECT_DIR NPROC options hist.
Proof.
  intros Hk Hnone. cbn [In] in Hk.
  assert (Hargs : cmake_args (<[k := d]> options) = cmake_args options
                  /\ options_get (<[k := d]> options) "quiet" PNone
                     = options_get options "quiet" PNone).
  { repeat (destruct Hk as [Hk|Hk]; [inversion Hk; subst k d; clear Hk|]);
      [..|destruct Hk];
      (split; [cbv [cmake_args options_get]|unfold options_get]);
      repeat (rewrite lookup_insert_ne by discriminate);
      rewrite ?lookup_insert, ?Hnone; reflexivity. }
  unfold build. destruct Hargs as [-> ->]. reflexivity.
Qed.

(** X27: what [server_info_query] declares as the default of an option
    of [build] is what [build] does without the option, for every such
    option but [quiet]: giving the option with its declared default
    changes nothing in the run. *)
Theorem X27_declared_defaults_of_build (tvm_version : pyval) (o : server.ProjectOption)
        (options : gmap string pyval) (hist : History) :
  In o (server.project_options (server_info_query IS_TEMPLATE PROJECT_DIR tvm_version)) ->
  declared_for "build" o ->
  server.name o <> "quiet" ->
  options !! server.name o = None ->
  build env PROJECT_DIR NPROC (<[server.name o := server.default o]> options) hist
  = build env PROJECT_DIR NPROC options hist.
Proof.
  intros Ho (methods & Hm & Hb) Hq Hnone.
  cbn [server_info_query server.project_options In] in Ho.
  repeat (destruct Ho as [Ho|Ho];
          [subst o; cbn [server.name server.default server.optional] in *|]);
    [..|destruct Ho];
    try (exfalso; apply Hq; reflexivity);
    try (inversion Hm; subst methods; cbn [In] in Hb;
         repeat (destruct Hb as [Hb|Hb]; [discriminate Hb|]); destruct Hb);
    (apply build_default; [cbn [In]; auto 12|exact Hnone]).
Qed.

(** X28: for [quiet] the declared default is not what [build] does:
    the option is declared for [build] with the default [True], and a
    [build] that is given [True] discards the output of its commands,
    but a [build] without the option does not. *)
Theorem X28_declared_default_of_quiet (tvm_version : pyval)
        (options : gmap string pyval) (hist : History) :
  options !! "quiet" = None ->
  (exists o,
      In o (server.project_options
              (server_info_query IS_TEMPLATE PROJECT_DIR tvm_version))
      /\ server.name o = "quiet" /\ declared_for "build" o
      /\ server.default o = PBool true)
  /\ (exists new,
         snd (build env PROJECT_DIR NPROC (<["quiet" := PBool true]> options) hist)
         = (hist ++ new)%list
         /\ forall cmd cwd devnull a,
              In (CheckCall cmd cwd devnull, a) new -> devnull = true)
  /\ (exists new,
         snd (build env PROJECT_DIR NPROC options hist) = (hist ++ new)%list
         /\ forall cmd cwd devnull a,
              In (CheckCall cmd cwd devnull, a) new -> devnull = false).
Proof.
  intros Hnone. split; [|split].
  - eexists. split; [cbn [server_info_query server.project_options In]; right; left;
                     reflexivity|].
    cbn. split; [reflexivity|]. split; [|reflexivity].
    eexists. split; [reflexivity|]. cbn [In]. auto.
  - destruct (build_quiet_run env PROJECT_DIR NPROC (<["quiet" := PBool true]> options)
                hist) as (new & Hnew & H).
    exists new. split; [exact Hnew|].
    intros cmd cwd devnull a Hin. apply (H cmd cwd devnull a Hin).
    unfold options_get. rewrite lookup_insert. reflexivity.
  - destruct (build_quiet_run env PROJECT_DIR NPROC options hist) as (new & Hnew & H).
    exists new. split; [exact Hnew|].
    intros cmd cwd devnull a Hin. destruct devnull; [|reflexivity].
    pose proof (proj1 (proj2 (H cmd cwd true a Hin)) eq_refl) as Hq.
    unfold options_get in Hq. rewrite Hnone in Hq. discriminate Hq.
Qed.

(** X30: for [ovpsim_exe] the declared default is not what
    [open_transport] does: the option is declared for [open_transport]
    with the default [OVPSIM_EXE], and an [open_transport] that is
    given this default launches the engine where it can be launched
    (it returns or times out), but without the option it raises
    [TypeError] at the launch. *)
Theorem X30_declared_default_of_ovpsim_exe (tvm_version : pyval)
        (options : gmap string pyval) (h : Handler) (w : World) :
  options !! "ovpsim_exe" = None ->
  reaches_launch (<["ovpsim_exe" := PStr OVPSIM_EXE]> options) w ->
  (exists o,
      In o (server.project_options
              (server_info_query IS_TEMPLATE PROJECT_DIR tvm_version))
      /\ server.name o = "ovpsim_exe" /\ declared_for "open_transport" o
      /\ server.default o = PStr OVPSIM_EXE)
  /\ (fst (open_transport PROJECT_DIR (<["ovpsim_exe" := PStr OVPSIM_EXE]> options)
             (h, w))
      = Ret {| session_start_retry_timeout_sec := 0;
               session_start_timeout_sec := 0;
               session_established_timeout_sec := 0 |}
      \/ fst (open_transport PROJECT_DIR (<["ovpsim_exe" := PStr OVPSIM_EXE]> options)
                (h, w))
         = Raise (TimeoutError "FVP setup timeout."))
  /\ fst (open_transport PROJECT_DIR options (h, w)) = Raise TypeError.
Proof.
  intros Hnone Hreach. split; [|split].
  - eexists. split; [cbn [server_info_query server.project_options In];
                     do 10 right; left; reflexivity|].
    cbn. split; [reflexivity|]. split; [|reflexivity].
    eexists. split; [reflexivity|]. cbn [In]. auto.
  - exact (open_transport_launched PROJECT_DIR _ h w Hreach).
  - destruct Hreach as (Hout & Hdir & Hterm & _).
    apply open_transport_no_executable; try assumption.
    unfold options_get. rewrite Hnone. reflexivity.
Qed.

End InfoFacts.

(** ** Where [generate_project] writes *)

Lemma under_refl (root : string) : under root root = true.
Proof. unfold under. now rewrite String.eqb_refl. Qed.

Lemma prefix_app_r (s d y : string) :
  String.prefix s d = true -> String.prefix s (d ++ y) = true.
Proof.
  revert d. induction s as [|a s IH]; intros d H; [now destruct (d ++ y)|].
  destruct d as [|b d]; [discriminate H|].
  change (String b d ++ y) with (String b (d ++ y)). cbn [String.prefix] in *.
  destruct (ascii_dec a b); [now apply IH|discriminate H].
Qed.

Lemma prefix_join (root x : string) :
  String.prefix (root ++ "/") (root ++ "/" ++ x) = true.
Proof.
  induction root as [|a root IH].
  - change (EmptyString ++ "/" ++ x) with (String "/" x).
    change (EmptyString ++ "/") with "/". cbn [String.prefix].
    destruct (ascii_dec "/" "/"); [now destruct x|contradiction].
  - change (String a root ++ "/" ++ x) with (String a (root ++ "/" ++ x)).
    change (String a root ++ "/") with (String a (root ++ "/")). cbn [String.prefix].
    destruct (ascii_dec a a); [exact IH|contradiction].
Qed.

Lemma under_join (root d x : string) :
  under root d = true -> under root (path_join d x) = true.
Proof.
  unfold under, path_join. intros H. apply orb_true_iff in H as [H|H].
  - apply String.eqb_eq in H. subst d. rewrite prefix_join. apply orb_true_r.
  - rewrite (prefix_app_r _ _ _ H). apply orb_true_r.
Qed.

Ltac under_tac := repeat first [ apply under_refl | apply under_join | assumption ].

Lemma cmake_files_under (root template_path path : string) (l : History) :
  under root path = true ->
  (forall x, In x l -> on_cmake_files template_path path x) ->
  forallb (destination_under root) l = true.
Proof.
  intros Hu H. apply forallb_forall. intros x Hx.
  destruct (H x Hx) as [Hf|[Hf|[[t Hf]|[Hf|Hf]]]];
    unfold destination_under; rewrite Hf; auto.
Qed.

Section WhereFacts.

Variable env : History -> syscall -> answer.
Variable FILE : string.
Variable FILE_basename : string.
Variable current_dir : string.

Lemma copy_crt_items_under (root d p : string) (items : list string) (hist : History) :
  under root p = true ->
  sys_wp (copy_crt_items env d p items)
    (fun r h => exists new,
         h = (hist ++ new)%list /\ forallb (destination_under root) new = true) hist.
Proof.
  intros Hu. revert hist.
  induction items as [|item items IH]; intros hist; cbn [copy_crt_items].
  - sys_step. exists []. rewrite app_nil_r. auto.
  - sys_step. sys_step. sys_step. rewrite call_if. sys_step.
    + eexists; split; [rewrite <- app_assoc; reflexivity|].
      cbn [app forallb destination_under fst]. destruct b; cbn; rewrite under_join by exact Hu;
        reflexivity.
    + apply (sys_wp_mono _ _ _ _ (IH _)).
      intros r h (new & -> & HF).
      eexists; split; [rewrite <- !app_assoc; reflexivity|].
      cbn [app forallb destination_under fst]. rewrite HF.
      destruct b; cbn; rewrite under_join by exact Hu; reflexivity.
Qed.

Ltac under_leaf :=
  eexists; split; [sys_leaf|];
  cbn [forallb destination_under fst]; rewrite ?forallb_app; cbn [forallb destination_under fst];
  repeat (apply andb_true_intro; split); try reflexivity; under_tac.

(** X29: every destination that [generate_project] names is in the
    project directory: in every run, however it ends, every directory
    it asks to make, the destination of every copy, the directory it
    gives to the extraction of the archive and every file it opens for
    writing or writes to is the project directory or a path that
    begins with the project directory and a slash. *)
Theorem X29_generate_project_destinations_in_project
        (model_library_format_path standalone_crt_dir project_dir : string)
        (options : gmap string pyval) (hist : History) :
  exists new,
    snd (generate_project env FILE FILE_basename current_dir model_library_format_path
           standalone_crt_dir project_dir options hist)
    = (hist ++ new)%list
    /\ forallb (destination_under project_dir) new = true.
Proof.
  change (sys_wp (generate_project env FILE FILE_basename current_dir
                    model_library_format_path standalone_crt_dir project_dir options)
            (fun r h => exists new,
                 h = (hist ++ new)%list
                 /\ forallb (destination_under project_dir) new = true) hist).
  unfold generate_project.
  repeat sys_step; try under_leaf.
  apply (sys_wp_mono _ _ _ _
           (copy_crt_items_under project_dir _ _ _ _
              (under_join _ _ _ (under_refl project_dir)))).
  intros r h (crt & -> & Hcrt). destruct r as [e|[]]; [under_leaf|].
  sys_step. sys_step.
  destruct (str2bool (options_get options "verbose" PNone) false) as [e|v];
    [under_leaf|].
  sys_step.
  apply (sys_wp_mono _ _ _ _ (populate_cmake_run _ _ _ _ _ _)).
  intros r h (pn & -> & Hk & _).
  pose proof (cmake_files_under project_dir _ _ pn
                (under_join _ _ _ (under_refl project_dir)) Hk) as Hpn.
  destruct r as [e|[]]; [under_leaf|].
  repeat sys_step; under_leaf.
Qed.

End WhereFacts.

(** * Examples for the further properties *)

Lemma X1_witness :
  fst (open_transport project_dir default_options
         (snd (open_transport project_dir default_options (init, w_fresh))))
  = Raise (FileExistsError "/tmp/fifo.out").
Proof.
  apply (proj1 (X1_reopen_fails project_dir default_options default_options init w_fresh
                  {| session_start_retry_timeout_sec := 0;
                     session_start_timeout_sec := 0;
                     session_established_timeout_sec := 0 |}
                  ltac:(vm_compute; reflexivity))).
Defined.

Lemma X2_witness :
  _proc (fst (snd (close_transport
                     (snd (open_transport project_dir default_options (init, w_fresh))))))
  = None.
Proof.
  apply (proj1 (X2_close_keeps_descriptors_and_pipes
                  project_dir default_options init w_fresh
                  {| session_start_retry_timeout_sec := 0;
                     session_start_timeout_sec := 0;
                     session_established_timeout_sec := 0 |}
                  ltac:(vm_compute; reflexivity))).
Defined.

Lemma X3_witness :
  _queue (fst (snd (open_transport project_dir default_options (init, w_fresh)))) = [].
Proof.
  destruct (X3_open_succeeds_when_signalled project_dir default_options init w_fresh)
    as (new & Ht & Hopen).
  refine (proj1 (proj2 (Hopen _ _ _))).
  - vm_compute in Ht. rewrite <- Ht. vm_compute. discriminate.
  - reflexivity.
  - vm_compute. reflexivity.
Defined.

Lemma silent_reaches_launch : reaches_launch default_options w_silent.
Proof.
  repeat split; try reflexivity; discriminate || (intros H; vm_compute in H; discriminate H) || idtac.
Qed.

Lemma X4_witness :
  fst (open_transport project_dir default_options (h_signalled, w_silent))
  = Ret {| session_start_retry_timeout_sec := 0;
           session_start_timeout_sec := 0;
           session_established_timeout_sec := 0 |}.
Proof.
  apply (proj1 (X4_stale_signal_opens project_dir default_options h_signalled w_silent
                  0%Q [] silent_reaches_launch eq_refl ltac:(vm_compute; reflexivity))).
Defined.

Lemma X5_witness :
  open_transport project_dir default_options (init, w_fresh)
  = open_transport project_dir arch_options (init, w_fresh).
Proof.
  apply (X5_open_uses_two_options project_dir default_options arch_options (init, w_fresh)).
  - vm_compute. reflexivity.
  - vm_compute. reflexivity.
Defined.

Lemma X6_witness :
  fst (open_transport project_dir ∅ (init, w_fresh)) = Raise TypeError.
Proof.
  apply (proj1 (X6_open_without_executable project_dir ∅ init w_fresh
                  ltac:(intros H; vm_compute in H; discriminate H)
                  eq_refl ltac:(discriminate) eq_refl)).
Defined.



Lemma X8_witness :
  fst (write_transport zero_write 5 [x01] None (init, w_fresh)) = Diverge.
Proof.
  apply (proj1 (X8_zero_byte_writes_never_end zero_write 5 [x01] None init w_fresh
                  ltac:(discriminate) ltac:(intros; reflexivity))).
Defined.

Lemma X11_witness :
  str2bool (PStr (py_str (PInt 2))) false = inl (Builtin ValueError).
Proof.
  apply (proj2 (proj2 (X11_str2bool_number_as_string 2 false))). lia.
Defined.

Lemma X13_witness :
  build env_disk project_dir 8 toolchain_number []
  = (inl (Builtin TypeError), [(Mkdir (path_join project_dir "build") false, Done)]).
Proof.
  apply (X13_build_option_of_wrong_type env_disk project_dir 8 toolchain_number []
           "toolchain" (PInt 1)).
  - left. simpl. auto.
  - vm_compute. reflexivity.
  - intros s H. discriminate H.
  - reflexivity.
Defined.

Lemma X15_witness :
  exists e,
    ((exists args, cmake_args quiet_maybe = inr args) /\ e = Builtin ValueError
     \/ cmake_args quiet_maybe = inl e /\ e = Builtin TypeError)
    /\ build env_disk project_dir 8 quiet_maybe []
       = (inl e, [(Mkdir (path_join project_dir "build") false, Done)]).
Proof.
  apply (X15_build_quiet_not_a_word env_disk project_dir 8 quiet_maybe [] "maybe").
  - vm_compute. reflexivity.
  - vm_compute. reflexivity.
  - reflexivity.
Defined.

Lemma X16_witness :
  exists new args devnull a0 a1 a2,
    snd (build env_disk project_dir 8 ∅ []) = ([] ++ new)%list
    /\ cmake_args ∅ = inr args
    /\ hd_error new = Some (Mkdir (path_join project_dir "build") false, a0)
    /\ is_fails a0 = false
    /\ List.filter is_check_call new
       = [(CheckCall ("cmake" :: ".." :: args)
             (Some (path_join project_dir "build")) devnull, a1);
          (CheckCall ["make"; "-j" ++ py_str (PInt 8)]
             (Some (path_join project_dir "build")) devnull, a2)]
    /\ succeeded a1 = true /\ succeeded a2 = true.
Proof.
  apply (X16_build_returns env_disk project_dir 8 ∅ []).
  vm_compute. reflexivity.
Defined.

Lemma X17_witness :
  hd_error ["-DCMAKE_BUILD_TYPE=Debug"; "-DTOOLCHAIN=gcc"; "-DRISCV_ARCH=rv32gc";
            "-DRISCV_ABI=ilp32d"; "-DRISCV_ABI=ilp32d"; "-DRISCV_ELF_GCC_PREFIX=";
            "-DRISCV_ELF_GCC_BASENAME=riscv32-unknown-elf"]
  = Some "-DCMAKE_BUILD_TYPE=Debug".
Proof.
  apply (X17_build_debug_string debug_false "False").
  - vm_compute. reflexivity.
  - vm_compute. reflexivity.
  - vm_compute. reflexivity.
Defined.

Lemma X18_witness :
  build env_disk project_dir 8 ∅ [] = build env_disk project_dir 8 verbose_options [].
Proof.
  apply (X18_build_reads_eight_options env_disk project_dir 8 ∅ verbose_options []).
  intros k Hk. simpl in Hk.
  repeat (destruct Hk as [<-|Hk]; [vm_compute; reflexivity|]). destruct Hk.
Defined.

Lemma X19_witness :
  build env_disk project_dir 8 ∅ (snd (build env_disk project_dir 8 ∅ []) ++ [])%list
  = (inl (Builtin (FileExistsError (path_join project_dir "build"))),
     ((snd (build env_disk project_dir 8 ∅ []) ++ [])
      ++ [(Mkdir (path_join project_dir "build") false,
           Fails (Builtin (FileExistsError (path_join project_dir "build"))))])%list).
Proof.
  apply (X19_build_not_repeatable env_disk project_dir 8 ∅ ∅ [] []).
  - exact env_disk_refuses.
  - reflexivity.
Defined.

Lemma X21_witness :
  exists new a,
    snd (_populate_cmake env_disk "/t/CMakeLists.txt.template" "/out/CMakeLists.txt"
           (PInt 4096) (PBool true) [])
    = ([] ++ new)%list
    /\ In (OpenRead "/t/CMakeLists.txt.template", a) new
    /\ writes_to "/out/CMakeLists.txt" new
       = (template_lines a ++ [definition_line (PInt 4096)]
          ++ (if py_bool (PBool true) then [verbose_line] else []))%list.
Proof.
  apply (X21_populate_cmake_writes env_disk "/t/CMakeLists.txt.template"
           "/out/CMakeLists.txt" (PInt 4096) (PBool true) []).
  vm_compute. reflexivity.
Defined.

Lemma X22_witness :
  exists e new,
    generate_project env_disk "/t/server.py" "server.py" "/t" "/m.tar" "/crt" "/out" ∅ []
    = (inl e, ([] ++ new)%list)
    /\ (forall x, In x new -> is_open_write x = false)
    /\ ((forall x, In x new -> is_fails (snd x) = false) ->
        e = AssertionError "str2bool received None value while allow_none=False"
        /\ map fst (List.filter is_mkdir new)
           = [Mkdir "/out" true;
              Mkdir (path_join "/out" "model") true;
              Mkdir (path_join "/out" "crt") false]).
Proof.
  apply (X22_generate_project_needs_verbose env_disk "/t/server.py" "server.py" "/t"
           "/m.tar" "/crt" "/out" ∅ []).
  vm_compute. reflexivity.
Defined.

Lemma X24_witness :
  fst (generate_project env_disk "/t/server.py" "server.py" "/t" "/m.tar" "/crt" "/out"
         verbose_options
         (snd (generate_project env_disk "/t/server.py" "server.py" "/t" "/m.tar"
                 "/crt" "/out" ∅ []) ++ [])%list)
  = inl (Builtin (FileExistsError "/out")).
Proof.
  apply (f_equal fst
           (X24_generate_project_not_repeatable env_disk "/t/server.py" "server.py" "/t"
              "/m.tar" "/crt" "/m.tar" "/crt" "/out" ∅ verbose_options [] []
              env_disk_refuses eq_refl)).
Defined.

Lemma X25_witness :
  exists new template verbose,
    snd (generate_project env_disk "/t/server.py" "server.py" "/t" "/m.tar" "/crt" "/out"
           verbose_options [])
    = ([] ++ new)%list
    /\ str2bool (options_get verbose_options "verbose" PNone) false = inr (PBool verbose)
    /\ In (OpenRead (path_join "/t" "CMakeLists.txt.template"), template) new
    /\ writes_to (path_join "/out" "CMakeLists.txt") new
       = (template_lines template
          ++ [definition_line (options_get verbose_options "workspace_size_bytes"
                                 (PInt 1048576))]
          ++ (if verbose then [verbose_line] else []))%list
    /\ map fst (List.filter is_mkdir new)
       = [Mkdir "/out" true;
          Mkdir (path_join "/out" "model") true;
          Mkdir (path_join "/out" "crt") false;
          Mkdir (path_join "/out" "cmake") false;
          Mkdir (path_join "/out" "crt_config") false;
          Mkdir (path_join "/out" "src") false].
Proof.
  apply (X25_generate_project_returns env_disk "/t/server.py" "server.py" "/t"
           "/m.tar" "/crt" "/out" verbose_options []).
  vm_compute. reflexivity.
Defined.

Lemma X26_witness :
  exists new,
    snd (_set_nonblock env_disk 2048 3 []) = ([] ++ new)%list
    /\ (forall e, fst (_set_nonblock env_disk 2048 3 []) = inl e ->
                  exists c, last new = Some (c, Fails e))
    /\ (fst (_set_nonblock env_disk 2048 3 []) = inr tt ->
        exists a0 flag a1,
          (a0 = Flags flag \/ flag = 0%Z)
          /\ new = [(FcntlGetfl 3, a0);
                    (FcntlSetfl 3 (Z.lor flag 2048), a1);
                    (FcntlGetfl 3, Flags (Z.lor flag 2048))]
          /\ forall n, (0 <= n)%Z -> Z.testbit flag n = true ->
                       Z.testbit (Z.lor flag 2048) n = true).
Proof.
  apply (X26_set_nonblock_assertion_holds env_disk 2048 3 []).
  - exact env_disk_stores_flags.
  - lia.
Defined.

Lemma X27_witness :
  build env_disk project_dir 8 (<["debug" := PBool false]> ∅) []
  = build env_disk project_dir 8 ∅ [].
Proof.
  apply (X27_declared_defaults_of_build env_disk true project_dir 8 PNone debug_option ∅ []).
  - simpl. right; right; left. reflexivity.
  - exists ["build"]. split; [reflexivity|]. simpl. auto.
  - discriminate.
  - reflexivity.
Defined.

Lemma X28_witness :
  exists new,
    snd (build env_disk project_dir 8 ∅ []) = ([] ++ new)%list
    /\ forall cmd cwd devnull a,
         In (CheckCall cmd cwd devnull, a) new -> devnull = false.
Proof.
  refine (proj2 (proj2 (X28_declared_default_of_quiet env_disk true project_dir 8 PNone
                          (∅ : gmap string pyval) [] _))).
  reflexivity.
Defined.

Lemma X30_witness :
  fst (open_transport project_dir ∅ (init, w_fresh)) = Raise TypeError.
Proof.
  refine (proj2 (proj2 (X30_declared_default_of_ovpsim_exe true project_dir PNone
                          (∅ : gmap string pyval) init w_fresh _ _))).
  - reflexivity.
  - repeat split; try reflexivity;
      discriminate || (intros H; vm_compute in H; discriminate H) || idtac.
Defined.
